(* ===== verification/_CoqProject ===== *)
-Q . S2P
Prelude.v
Sqlite.v
Schema.v
World.v
Relational.v
PyRepr.v
UpdateClaimStatus.v
ClaimInfo.v
PolicyInfo.v
Idempotence.v
Guard.v
Memory.v
Chitchat.v
Prompts.v
Bot.v
Streamlit.v
Login.v
ChatPage.v
App.v
