(* ===== verification/Prelude.v ===== *)
(** * SecureShield: a verification development of the chatbot

    The repository (src/) is a Streamlit application for an insurance back
    office.  [src/app.py] registers two pages and runs the selected one;
    an employee logs in ([SecureShield/app_pages/Login.py]), types a
    request in the chat page ([app_pages/Chatbot.py]), and the request goes
    through [MainChatbot.process_user_input] ([Chatbot/bot.py]): a
    prompt-injection guard ([Chains/Prompt_Injection_Tolerance.py]), an
    intent classifier (the external [router.loader]), and a handler per
    intent that runs a chain of [Chains/]: [UpdateClaimStatusChain] (the
    only writer of the database), [GetClaimInfoChain], [GetPolicyInfoChain]
    and the chit-chat chains.  A chain asks a language model to extract a
    structured query, runs SQL through [sqlite3], and asks the model to
    phrase the outcome; the dispatcher wraps chains so that the session's
    chat history is read before and appended after.

    ** Files (in dependency order) and what they model

    - [Prelude] (this file): Python exceptions [Exc], outcomes [Outcome],
      the state-and-exception monad [PyM] (an exception keeps the state
      reached when it was raised, as in Python), [try/except] and
      [try/finally], dict access with [KeyError], string lemmas, tactics.
    - [Sqlite]: the part of sqlite3 the code uses: dynamic values and
      column affinity, with numeric affinity as [applyNumericAffinity]
      performs it ([parse_numeric] follows the grammar of [sqlite3AtoF];
      an integer form in the 64-bit range is an INTEGER, any other number
      the nearest IEEE binary64 REAL, [round_binary64]) and [=] between
      INTEGER, REAL and TEXT operands; Python's parameter binding
      ([bind_error]: an [int] outside the 64-bit range raises
      [OverflowError]); tables, the statements of the source as a small
      SQL syntax (equality, OR, AND, scalar subqueries, UPDATE) with its
      evaluator, and lemmas that turn a query into a list filter.
    - [Schema]: JSON and pydantic's lax validation, one validator per
      [BaseModel] class of the source.
    - [World]: the state of a turn (database files, connections with their
      open transaction, trace of external calls, scheduled database
      faults, one drawn by each [execute] and [commit]), the primitives
      [connect/execute/commit/close] ([execute] binds its parameters
      after preparing the statement), the
      language-model interface [LLM] (a type class: every theorem holds for
      every model), the symbolic-execution tactic [world_run], and the
      invariant framework [preserves R m] over any state type, whose
      combinator lemmas and primitive lemmas live in the hint database
      [preserve] used by [solve_preserves].
    - [Relational]: two runs of a program ([related R m1 m2]: same
      outcome, related end states), its combinators and the tactic
      [solve_related]; [same_db p] and [same_conn p c1 c2] relate worlds
      with the same database at [p] (and the same connection under two
      indices), [quiet p] says a run without faults leaves that database.
    - [PyRepr]: Python's [repr]/[str] of values, tuples and row lists, as
      the lookup chains format their answers.
    - [UpdateClaimStatus], [ClaimInfo], [PolicyInfo]: the three data
      chains, each [invoke] method whole (extraction, connection, every
      branch, the composing call), with an abstract specification of the
      update's effect ([update_contract]) and its refinement.
    - [Idempotence]: the lookup chains' answers as functions of the
      database and the faults, and their idempotence.
    - [Guard], [Chitchat]: the guard and the two chit-chat chains.
    - [Prompts]: the [PromptTemplate] text of every chain, transcribed,
      with a model of [string.Formatter.parse] (a scanner over the
      template, raising [ValueError] on unbalanced braces) and of
      [str.format] on the chain's variables ([KeyError] on a missing one).
    - [Memory]: the session store of [MemoryManager], modelled from the
      spec (its module is not in the repository).
    - [Bot]: [MainChatbot]: construction, [user_login], [get_chain], the
      memory wrapper, every handler, [get_user_intent] and
      [process_user_input]; the router is the type class [Router].
    - [Streamlit]: the part of Streamlit the pages use (session state,
      shown elements, registered pages, [switch_page]).
    - [Login]: the login page script and its three queries, with their
      soundness and completeness on the [Employees] table.
    - [ChatPage]: CPython's indentation rule run on the chat page's layout,
      [simulate_streaming], and the page script as it would run once its
      indentation is fixed.
    - [App]: [app.py] (initialisation, page registry, selected page,
      logout), the dispatch of a path to its page script, and reruns as the
      step relation [app_step] with its closure [app_reachable].

    ** What the theorems show

    - Update chain (C1-C8): it refines the contract "set the status iff the
      claim exists, raise [OverflowError] for an id [sqlite3] cannot
      bind"; which database errors (of the UPDATE or of the commit) are
      reported and which propagate; which paths leave the connection open.
    - Lookup chains (C9-C16, C26, C33): read-only and never closing, for
      every input and model ([preserves] invariants); invalid query types
      run no SQL; database errors are echoed verbatim; lookups by policy
      (under numeric affinity) and by type; deterministic and idempotent
      (C26, relational: the answer depends on the database file and the
      faults only); when at most one client matches, the
      [claims_by_client] subquery returns exactly that client's claims
      (C33; with several matches the scalar subquery's row depends on
      SQLite's plan, and no theorem is stated).
    - Dispatcher (C17-C23): a flagged input gets the refusal and nothing
      else; guard errors propagate (no fail closed); an unflagged input
      from the chat page raises [KeyError]; dispatch on the classified
      intent; the fallback always raises; handlers read history before
      and append after; a turn only touches its own session.  Lemmas
      beside them record the construction errors of [MainChatbot()] and
      the [KeyError]s of the chit-chat path.
    - Login page (C24-C25): the shipped page raises [NameError] on
      [sqlite3], and with the import fixed a login ends in [NameError] at
      line 52; logged in only with a matching [Employees] row.
    - Chat page (C27-C30): round trip and bound of [simulate_streaming];
      a turn never reaches the bot; [messages] is never initialised.  A
      lemma runs CPython's indentation rule on the page (line 41).
    - App (C31-C32, C34): [logged_in] is set in every reachable state
      (rule induction over [app_reachable], with the real page scripts); a
      logged-in session only ever runs the chat page; liveness of the
      login (C34): with the import fixed, an employee with credentials
      reaches a logged-in session in one run.

    ** Bounds and fuel

    No definition needs fuel: every loop of the source (the streaming loop,
    the tokenizer's dedent, row filters, the message replay) is structural
    recursion on the list or string it consumes.  The one recursion of the
    source that could loop, [handle_unknown_intent] calling a handler of
    the table again, is never reached: its first statement raises.
    Integers are unbounded [Z] as in Python; the 64-bit range appears
    where SQLite imposes it (INTEGER storage, binding, numeric affinity).
    Decimal-to-REAL conversion is modelled as correctly rounded
    (nearest, ties to even), which [sqlite3AtoF] achieves for the
    literals the theorems use; literals beyond 10^400 or below 10^-330
    are decided without forming the power of ten.

    ** Not modelled

    - [Chatbot/rag.py] beyond what [handle_rag] reaches: [RagChain.__init__]
      builds a Pinecone retriever (network) and raises [AttributeError] at
      [self.template]; [run_chain] is unreachable.
    - What the model does with a prompt: [LLM] maps a prompt identifier
      and its variables to an answer; the rendered text is checked
      separately ([Prompts]) and not passed to the model.
    - [MainChatbot.save_memory] and [MemoryManager.save_session_history]:
      no code and no specification of persistence.
    - Timing ([time.sleep]) and environment loading ([load_dotenv]).
    - The import errors of [bot.py] ([from .memory], [from ..Chains]): the
      model assumes the modules resolve.
    - REAL and BLOB as storage classes of a column: the database holds
      INTEGER, TEXT and NULL values; REALs occur as comparison operands
      only.  Which row a scalar subquery over an OR returns when several
      match (it depends on SQLite's query plan). *)

From Stdlib Require Export ZArith String Ascii Lia.
From stdpp Require Export base gmap strings list.

Declare Scope py_scope.
Delimit Scope py_scope with py.

(** ** Python exceptions

    The exception classes the repository raises or catches.  The payload
    is the text Python would carry in [str(e)]. *)
Inductive Exc : Type :=
| KeyError (key : string)
| TypeError (msg : string)
| AttributeError (name : string)
| ValueError (msg : string)
| IndexError (msg : string)
| NameError (msg : string)
| IndentationError (msg : string)
| StreamlitAPIException (msg : string)
| RerunException (page : string)
| OutputParserException (msg : string)
| OperationalError (msg : string)
| IntegrityError (msg : string)
| ProgrammingError (msg : string)
| OverflowError (msg : string)
| ServiceError (msg : string).

#[export] Instance Exc_eq_dec : EqDecision Exc.
Proof. solve_decision. Defined.

(** [except sqlite3.OperationalError] catches exactly this class. *)
Definition is_operational_error (e : Exc) : bool :=
  match e with OperationalError _ => true | _ => false end.

(** [str(e)] for an exception, as used in [f"Error: {e}"]. *)
Definition exc_str (e : Exc) : string :=
  match e with
  | KeyError k => "'" ++ k ++ "'"
  | TypeError m | AttributeError m | ValueError m | IndexError m | NameError m
  | IndentationError m | StreamlitAPIException m | RerunException m | OutputParserException m
  | OperationalError m | IntegrityError m | ProgrammingError m | OverflowError m
  | ServiceError m => m
  end.

(** ** Outcomes and the Python monad *)
Inductive Outcome (A : Type) : Type :=
| Ok (a : A)
| Raise (e : Exc).
Arguments Ok {A} a.
Arguments Raise {A} e.

(** A Python function over a state [S]: it returns or raises, and in both
    cases the state it leaves behind is observable. *)
Definition PyM (S A : Type) : Type := S -> Outcome A * S.

#[export] Instance PyM_ret {S} : MRet (PyM S) := fun A a s => (Ok a, s).
#[export] Instance PyM_bind {S} : MBind (PyM S) := fun A B k m s =>
  match m s with
  | (Ok a, s') => k a s'
  | (Raise e, s') => (Raise e, s')
  end.
#[export] Instance PyM_throw {S} : MThrow Exc (PyM S) := fun A e s => (Raise e, s).

Definition py_get {S} : PyM S S := fun s => (Ok s, s).
(** A step written directly on the state. *)
Definition py_state {S A} (f : S -> Outcome A * S) : PyM S A := f.
Definition py_modify {S} (f : S -> S) : PyM S unit := fun s => (Ok tt, f s).
Definition py_lift {S A} (o : Outcome A) : PyM S A := fun s => (o, s).

(** [try: m  except <class>: h] : [h e] is [None] when the handler does
    not match the class of [e], and the exception propagates. *)
Definition py_try_except {S A} (m : PyM S A) (h : Exc -> option (PyM S A)) : PyM S A :=
  fun s =>
    match m s with
    | (Ok a, s') => (Ok a, s')
    | (Raise e, s') =>
        match h e with Some k => k s' | None => (Raise e, s') end
    end.

(** [try: m  finally: fin] : [fin] runs on both paths; an exception it
    raises replaces the outcome of [m]. *)
Definition py_try_finally {S A} (m : PyM S A) (fin : PyM S unit) : PyM S A :=
  fun s =>
    let (r, s1) := m s in
    match fin s1 with
    | (Ok _, s2) => (r, s2)
    | (Raise e, s2) => (Raise e, s2)
    end.

Notation "'try:' m 'except:' h" := (py_try_except m h)
  (at level 10, m at level 100, h at level 200) : py_scope.
Notation "'try:' m 'finally:' f" := (py_try_finally m f)
  (at level 10, m at level 100, f at level 200) : py_scope.

(** ** Python dictionaries

    A [dict] with string keys is a [gmap string V]: [d[k]] raises
    [KeyError], [d.get(k, dflt)] returns the default. *)
Definition dict_getitem {V} (d : gmap string V) (k : string) : Outcome V :=
  match d !! k with Some v => Ok v | None => Raise (KeyError k) end.

Definition dict_get {V} (d : gmap string V) (k : string) (dflt : V) : V :=
  match d !! k with Some v => v | None => dflt end.

(** ** Decimal text of integers

    [str(n)] for a Python [int]; also SQLite's text of an INTEGER. *)
Fixpoint string_of_uint (d : Decimal.uint) : string :=
  match d with
  | Decimal.Nil => ""
  | Decimal.D0 d => String "0" (string_of_uint d)
  | Decimal.D1 d => String "1" (string_of_uint d)
  | Decimal.D2 d => String "2" (string_of_uint d)
  | Decimal.D3 d => String "3" (string_of_uint d)
  | Decimal.D4 d => String "4" (string_of_uint d)
  | Decimal.D5 d => String "5" (string_of_uint d)
  | Decimal.D6 d => String "6" (string_of_uint d)
  | Decimal.D7 d => String "7" (string_of_uint d)
  | Decimal.D8 d => String "8" (string_of_uint d)
  | Decimal.D9 d => String "9" (string_of_uint d)
  end.

Definition string_of_Z (z : Z) : string :=
  match Z.to_int z with
  | Decimal.Pos d => string_of_uint d
  | Decimal.Neg d => String "-" (string_of_uint d)
  end.

(** ** Generic lemmas *)

Create HintDb pysimp discriminated.

Section Monad.
Context {S : Type}.

Lemma py_bind_ok {A B} (m : PyM S A) (k : A -> PyM S B) s a s' :
    m s = (Ok a, s') -> (m ≫= k) s = k a s'.
  Proof. intros H. cbv [mbind PyM_bind]. by rewrite H. Qed.

Lemma py_bind_raise {A B} (m : PyM S A) (k : A -> PyM S B) s e s' :
    m s = (Raise e, s') -> (m ≫= k) s = (Raise e, s').
  Proof. intros H. cbv [mbind PyM_bind]. by rewrite H. Qed.

Lemma py_ret_run {A} (a : A) s : (mret a : PyM S A) s = (Ok a, s).
  Proof. reflexivity. Qed.

Lemma py_lift_ok {A} (a : A) s : (py_lift (Ok a) : PyM S A) s = (Ok a, s).
  Proof. reflexivity. Qed.

  (** [finally] always runs its cleanup: the final state is the cleanup's. *)
Lemma py_try_finally_state {A} (m : PyM S A) (fin : PyM S unit) s :
    snd (py_try_finally m fin s) = snd (fin (snd (m s))).
  Proof.
    unfold py_try_finally. destruct (m s) as [r s1]. simpl.
    by destruct (fin s1) as [[] s2].
  Qed.
End Monad.

Lemma dict_getitem_Some {V} (d : gmap string V) k v :
  d !! k = Some v -> dict_getitem d k = Ok v.
Proof. unfold dict_getitem. by intros ->. Qed.

Lemma dict_getitem_None {V} (d : gmap string V) k :
  d !! k = None -> dict_getitem d k = Raise (KeyError k).
Proof. unfold dict_getitem. by intros ->. Qed.

#[export] Hint Resolve dict_getitem_Some dict_getitem_None : pysimp.

(** [py_run] evaluates a monadic program symbolically: it unfolds the
    monad's operations and splits on the matches it meets. *)
Ltac py_unfold :=
  cbv [mbind mret mthrow PyM_bind PyM_ret PyM_throw py_get py_state py_modify py_lift
       py_try_except py_try_finally] in *.

Ltac py_run :=
  py_unfold; simpl in *;
  repeat match goal with
         | |- context [match ?x with _ => _ end] =>
             lazymatch x with
             | context [match _ with _ => _ end] => fail
             | _ => destruct x eqn:?
             end
         end; simpl in *; try congruence.

(** Python's [+] on [str]. *)
Lemma string_app_nil_r (s : string) : (s ++ "")%string = s.
Proof. induction s as [| c s IH]; [done | exact (f_equal (String c) IH)]. Qed.

Lemma string_app_assoc (a b c : string) : ((a ++ b) ++ c)%string = (a ++ (b ++ c))%string.
Proof. induction a as [| x a IH]; [done | exact (f_equal (String x) IH)]. Qed.

Lemma string_app_cons (c : ascii) (a b : string) : (String c a ++ b)%string = String c (a ++ b).
Proof. reflexivity. Qed.

Create Rewrite HintDb pystring.
#[export] Hint Rewrite string_app_nil_r string_app_assoc string_app_cons : pystring.

Example string_of_Z_samples :
  string_of_Z 0 = "0" /\ string_of_Z 305 = "305" /\ string_of_Z (-42) = "-42".
Proof. repeat split; reflexivity. Qed.
