(* ===== verification/Sqlite.v ===== *)
(** * The sqlite3 database the chains query

    A model of the part of SQLite (through Python's [sqlite3]) that the
    repository's SQL statements exercise: values with their storage class,
    column affinity and the affinity conversions of [=], tables as ordered
    lists of rows, and the statements of the source as a small abstract
    syntax ([Stmt]) with an evaluator.  A database file is a [gmap] from
    table names to tables; a table that does not exist raises
    [OperationalError "no such table: ..."], as [sqlite3] does.  A TEXT
    operand meeting an INTEGER column is converted as
    [applyNumericAffinity] converts it (SQLite's [vdbe.c], with
    [sqlite3AtoF] of [util.c]): [parse_numeric] reads the text, and [=]
    compares INTEGER and REAL values exactly ([sqlite3IntFloatCompare]). *)

From S2P Require Import Prelude.

(** ** Values and affinity *)

(** Storage classes of the values [secure_shield.db] holds and the source
    binds (REAL appears only as a comparison operand, [Operand]; BLOB
    nowhere). *)
Inductive SqlVal : Type :=
| SNull
| SInt (z : Z)
| SText (s : string).

#[export] Instance SqlVal_eq_dec : EqDecision SqlVal.
Proof. solve_decision. Defined.

(** Column affinity; [ANone] is the affinity of a bound parameter. *)
Inductive Affinity : Type := AInteger | AText | ANone.

#[export] Instance Affinity_eq_dec : EqDecision Affinity.
Proof. solve_decision. Defined.

(** sqlite3's space test for number literals: space, \t, \n, \v, \f, \r. *)
Definition sql_isspace (c : ascii) : bool :=
  let n := nat_of_ascii c in (n =? 32) || ((9 <=? n) && (n <=? 13)).

Fixpoint trim_left (s : string) : string :=
  match s with
  | String c r => if sql_isspace c then trim_left r else s
  | EmptyString => EmptyString
  end.

Fixpoint trim_right (s : string) : string :=
  match s with
  | String c r =>
      let r' := trim_right r in
      if sql_isspace c && String.eqb r' "" then EmptyString else String c r'
  | EmptyString => EmptyString
  end.

Definition trim (s : string) : string := trim_right (trim_left s).

(** Digits of a non-empty decimal literal, most significant first. *)
Fixpoint digits_value (acc : Z) (s : string) : option Z :=
  match s with
  | EmptyString => Some acc
  | String c r =>
      let n := nat_of_ascii c in
      if (48 <=? n) && (n <=? 57)
      then digits_value (10 * acc + Z.of_nat (n - 48))%Z r
      else None
  end.

Definition int64_min : Z := (- 2 ^ 63)%Z.
Definition int64_max : Z := (2 ^ 63 - 1)%Z.

Definition in_int64 (z : Z) : bool := (int64_min <=? z)%Z && (z <=? int64_max)%Z.

(** *** Numbers in text: [sqlite3AtoF] and IEEE binary64

    A REAL is a finite binary64 number [m * 2^e] ([m] signed, [|m| < 2^53]
    up to the carry of rounding, [e >= -1074]) or an infinity. *)
Inductive Real64 : Type :=
| RFin (m e : Z)
| RInf (neg : bool).

(** [n / d] rounded to the nearest integer, ties to even ([d > 0]). *)
Definition round_div (n d : Z) : Z :=
  let q := (n / d)%Z in
  let r := (n mod d)%Z in
  if (d <? 2 * r)%Z || ((2 * r =? d)%Z && Z.odd q) then (q + 1)%Z else q.

(** [2^k <= n / d] for positive [n], [d]. *)
Definition pow2_le (k n d : Z) : bool :=
  if (0 <=? k)%Z then (d * 2 ^ k <=? n)%Z else (d <=? n * 2 ^ (- k))%Z.

(** The binary64 number nearest to [num / den] ([num, den > 0]), ties to
    even, with subnormals and overflow to infinity: the rounding a
    correctly rounded [sqlite3AtoF] performs. *)
Definition round_binary64 (neg : bool) (num den : Z) : Real64 :=
  let k := (Z.log2 num - Z.log2 den)%Z in
  let fl := if pow2_le k num den then k else (k - 1)%Z in
  let e := Z.max (-1074) (fl - 52) in
  let m := if (0 <=? e)%Z then round_div num (den * 2 ^ e) else round_div (num * 2 ^ (- e)) den in
  if (971 <? e)%Z || ((e =? 971)%Z && (m =? 2 ^ 53)%Z) then RInf neg
  else RFin (if neg then (- m)%Z else m) e.

(** The value [(-1)^neg * d * 10^x] of a decimal literal whose digit
    string [d] has [nd] digits; literals far out of range are decided
    before any power of ten is formed. *)
Definition decimal_to_real (neg : bool) (d : Z) (nd : nat) (x : Z) : Real64 :=
  if (d =? 0)%Z then RFin 0 0
  else if (400 <? x)%Z then RInf neg
  else if (Z.of_nat nd + x <? -330)%Z then RFin 0 0
  else if (0 <=? x)%Z then round_binary64 neg (d * 10 ^ x) 1
  else round_binary64 neg d (10 ^ (- x)).

Definition is_digit (c : ascii) : bool :=
  let n := nat_of_ascii c in (48 <=? n) && (n <=? 57).

(** Leading digits of [s]: their value after [acc], how many, and the rest. *)
Fixpoint scan_digits (acc : Z) (n : nat) (s : string) : Z * nat * string :=
  match s with
  | String c r =>
      if is_digit c then scan_digits (10 * acc + Z.of_nat (nat_of_ascii c - 48))%Z (S n) r
      else (acc, n, s)
  | EmptyString => (acc, n, s)
  end.

(** The result of [sqlite3AtoF] on a whole string, as
    [applyNumericAffinity] uses it. *)
Inductive NumLit : Type :=
| NotNum
| NumInt (z : Z)
| NumReal (r : Real64).

(** [sqlite3AtoF]: optional spaces, an optional sign, digits with an
    optional [.] and at least one digit in all, an optional exponent
    [e]/[E] with an optional sign and at least one digit, optional
    spaces, and nothing else.  An integer form (no [.], no exponent) in
    the 64-bit range is an INTEGER ([alsoAnInt]); any other number is the
    REAL nearest to it. *)
Definition parse_numeric (s : string) : NumLit :=
  let t := trim s in
  let '(neg, t1) :=
    match t with
    | String "-" r => (true, r)
    | String "+" r => (false, r)
    | _ => (false, t)
    end in
  let '(d1, n1, t2) := scan_digits 0 0 t1 in
  let '(dot, d, nf, t3) :=
    match t2 with
    | String "." r => let '(d2, n2, r') := scan_digits d1 0 r in (true, d2, n2, r')
    | _ => (false, d1, 0, t2)
    end in
  let ex :=
    match t3 with
    | String c r =>
        if (c =? "e")%char || (c =? "E")%char then
          let '(eneg, r1) :=
            match r with
            | String "-" r' => (true, r')
            | String "+" r' => (false, r')
            | _ => (false, r)
            end in
          match scan_digits 0 0 r1 with
          | (x, S _, EmptyString) => Some (Some (if eneg then (- x)%Z else x))
          | _ => None
          end
        else None
    | EmptyString => Some None
    end in
  match ex with
  | None => NotNum
  | Some x =>
      if (n1 + nf =? 0)%nat then NotNum
      else
        let z := if neg then (- d)%Z else d in
        match x with
        | None =>
            if negb dot && in_int64 z then NumInt z
            else NumReal (decimal_to_real neg d (n1 + nf) (- Z.of_nat nf))
        | Some x => NumReal (decimal_to_real neg d (n1 + nf) (x - Z.of_nat nf))
        end
  end.

(** An operand of a comparison, after the affinity conversions. *)
Inductive Operand : Type :=
| ONull
| OInt (z : Z)
| OReal (r : Real64)
| OText (s : string).

Definition operand (v : SqlVal) : Operand :=
  match v with
  | SNull => ONull
  | SInt z => OInt z
  | SText s => OText s
  end.

(** NUMERIC affinity on a TEXT operand ([applyNumericAffinity]). *)
Definition numeric_affinity (v : SqlVal) : Operand :=
  match v with
  | SText s =>
      match parse_numeric s with
      | NumInt z => OInt z
      | NumReal r => OReal r
      | NotNum => OText s
      end
  | _ => operand v
  end.

Definition text_affinity (v : SqlVal) : Operand :=
  match v with
  | SInt z => OText (string_of_Z z)
  | _ => operand v
  end.

(** The value stored into a column: INTEGER affinity keeps a number in
    text as an INTEGER when it is one, or when it is a REAL with an
    integral value in the 64-bit range.  (A REAL with a fractional part
    would be stored as REAL, a storage class the file does not hold; no
    statement of the source stores into an INTEGER column.) *)
Definition real_to_int (r : Real64) : option Z :=
  match r with
  | RFin m e =>
      if (0 <=? e)%Z then Some (m * 2 ^ e)%Z
      else if (m mod 2 ^ (- e) =? 0)%Z then Some (m / 2 ^ (- e))%Z else None
  | RInf _ => None
  end.

Definition store_affinity (a : Affinity) (v : SqlVal) : SqlVal :=
  match a with
  | AInteger =>
      match numeric_affinity v with
      | OInt z => SInt z
      | OReal r =>
          match real_to_int r with
          | Some z => if in_int64 z then SInt z else v
          | None => v
          end
      | _ => v
      end
  | AText => match text_affinity v with OText s => SText s | _ => v end
  | ANone => v
  end.

(** A REAL and an INTEGER are equal when their values are
    ([sqlite3IntFloatCompare]); two REALs likewise. *)
Definition real_eq_int (r : Real64) (z : Z) : bool :=
  match r with
  | RFin m e =>
      if (0 <=? e)%Z then (m * 2 ^ e =? z)%Z else (m =? z * 2 ^ (- e))%Z
  | RInf _ => false
  end.

Definition real_eq (r1 r2 : Real64) : bool :=
  match r1, r2 with
  | RFin m1 e1, RFin m2 e2 =>
      let e := Z.min e1 e2 in (m1 * 2 ^ (e1 - e) =? m2 * 2 ^ (e2 - e))%Z
  | RInf a, RInf b => Bool.eqb a b
  | _, _ => false
  end.

(** [=] on two operands: NULL is unknown ([None]); numbers compare by
    value; a number never equals a TEXT; TEXT compares by [BINARY]
    collation. *)
Definition cmp_eq (a b : Operand) : option bool :=
  match a, b with
  | ONull, _ | _, ONull => None
  | OInt x, OInt y => Some (Z.eqb x y)
  | OInt x, OReal r | OReal r, OInt x => Some (real_eq_int r x)
  | OReal r1, OReal r2 => Some (real_eq r1 r2)
  | OText s, OText t => Some (String.eqb s t)
  | _, _ => Some false
  end.

(** [a = b] on two operands with their affinities: SQLite first applies
    numeric affinity to the side without numeric affinity when the other
    side has it, else text affinity to a side with no affinity when the
    other side is TEXT. *)
Definition sql_eq (x : SqlVal * Affinity) (y : SqlVal * Affinity) : option bool :=
  let '(v1, a1) := x in
  let '(v2, a2) := y in
  let '(o1, o2) :=
    match a1, a2 with
    | AInteger, AInteger => (operand v1, operand v2)
    | AInteger, _ => (operand v1, numeric_affinity v2)
    | _, AInteger => (numeric_affinity v1, operand v2)
    | AText, ANone => (operand v1, text_affinity v2)
    | ANone, AText => (text_affinity v1, operand v2)
    | _, _ => (operand v1, operand v2)
    end in
  cmp_eq o1 o2.

(** Binding the parameters of [cursor.execute]: Python's [sqlite3] raises
    [OverflowError] for an [int] outside the 64-bit range. *)
Definition overflow_error : Exc := OverflowError "Python int too large to convert to SQLite INTEGER".

Definition bind_error (ps : list SqlVal) : option Exc :=
  if forallb (fun v => match v with SInt z => in_int64 z | _ => true end) ps
  then None else Some overflow_error.

(** ** Tables and statements *)

Record Table : Type := mkTable {
  t_cols : list (string * Affinity);
  t_rows : list (list SqlVal)
}.

(** The contents of one database file. *)
Abbreviation Db := (gmap string Table).

(** Expressions and conditions of the WHERE clauses of the source:
    a column, the [i]-th [?] parameter, a scalar subquery
    [(SELECT col FROM table WHERE cond)], equality and OR. *)
Inductive Expr : Type :=
| ECol (c : string)
| EParam (i : nat)
| ESub (col table : string) (w : Cond)
with Cond : Type :=
| CEq (a b : Expr)
| COr (c1 c2 : Cond)
| CAnd (c1 c2 : Cond).

(** [SELECT cols FROM table WHERE w]; [None] is [SELECT *]. *)
Record Query : Type := mkQuery {
  q_cols : option (list string);
  q_table : string;
  q_where : Cond
}.

Inductive Stmt : Type :=
| SSelect (q : Query)
| SUpdate (table col : string) (v : Expr) (w : Cond).

Definition Row := list SqlVal.

Fixpoint col_index (c : string) (cols : list (string * Affinity)) : option (nat * Affinity) :=
  match cols with
  | [] => None
  | (c', a) :: r =>
      if String.eqb c c' then Some (0, a)
      else option_map (fun '(i, a') => (S i, a')) (col_index c r)
  end.

Definition get_table (db : Db) (t : string) : Outcome Table :=
  match db !! t with
  | Some tb => Ok tb
  | None => Raise (OperationalError ("no such table: " ++ t))
  end.

Definition get_col (tb : Table) (c : string) : Outcome (nat * Affinity) :=
  match col_index c (t_cols tb) with
  | Some ia => Ok ia
  | None => Raise (OperationalError ("no such column: " ++ c))
  end.

(** SQL three-valued OR. *)
Definition sql_or (a b : option bool) : option bool :=
  match a, b with
  | Some true, _ | _, Some true => Some true
  | Some false, Some false => Some false
  | _, _ => None
  end.

(** SQL three-valued AND. *)
Definition sql_and (a b : option bool) : option bool :=
  match a, b with
  | Some false, _ | _, Some false => Some false
  | Some true, Some true => Some true
  | _, _ => None
  end.

(** Outcome-returning filter: [filter] whose predicate may raise. *)
Fixpoint filter_out {A} (p : A -> Outcome bool) (l : list A) : Outcome (list A) :=
  match l with
  | [] => Ok []
  | x :: r =>
      match p x, filter_out p r with
      | Ok b, Ok r' => Ok (if b then x :: r' else r')
      | Raise e, _ | _, Raise e => Raise e
      end
  end.

(** Evaluation of an expression in the row [row] of table [tb]; a
    subquery's value has the affinity of the column it selects, and is
    NULL when it returns no row. *)
Fixpoint eval_expr (db : Db) (ps : list SqlVal) (tb : Table) (row : Row) (e : Expr)
  : Outcome (SqlVal * Affinity) :=
  match e with
  | ECol c =>
      match get_col tb c with
      | Ok (i, a) => Ok (default SNull (row !! i), a)
      | Raise x => Raise x
      end
  | EParam i =>
      match ps !! i with
      | Some v => Ok (v, ANone)
      | None => Raise (ProgrammingError "Incorrect number of bindings supplied.")
      end
  | ESub col t w =>
      match get_table db t with
      | Raise x => Raise x
      | Ok tb' =>
          match get_col tb' col with
          | Raise x => Raise x
          | Ok (i, a) =>
              match filter_out (fun r => match eval_cond db ps tb' r w with
                                         | Ok b => Ok (bool_decide (b = Some true))
                                         | Raise x => Raise x end) (t_rows tb') with
              | Raise x => Raise x
              | Ok [] => Ok (SNull, a)
              | Ok (r :: _) => Ok (default SNull (r !! i), a)
              end
          end
      end
  end
with eval_cond (db : Db) (ps : list SqlVal) (tb : Table) (row : Row) (c : Cond)
  : Outcome (option bool) :=
  match c with
  | CEq a b =>
      match eval_expr db ps tb row a, eval_expr db ps tb row b with
      | Ok x, Ok y => Ok (sql_eq x y)
      | Raise x, _ | _, Raise x => Raise x
      end
  | COr c1 c2 =>
      match eval_cond db ps tb row c1, eval_cond db ps tb row c2 with
      | Ok x, Ok y => Ok (sql_or x y)
      | Raise x, _ | _, Raise x => Raise x
      end
  | CAnd c1 c2 =>
      match eval_cond db ps tb row c1, eval_cond db ps tb row c2 with
      | Ok x, Ok y => Ok (sql_and x y)
      | Raise x, _ | _, Raise x => Raise x
      end
  end.

Definition row_matches (db : Db) (ps : list SqlVal) (tb : Table) (w : Cond) (r : Row)
  : Outcome bool :=
  match eval_cond db ps tb r w with
  | Ok b => Ok (bool_decide (b = Some true))
  | Raise x => Raise x
  end.

Fixpoint project (idx : list nat) (r : Row) : Row :=
  match idx with
  | [] => []
  | i :: rest => default SNull (r !! i) :: project rest r
  end.

Fixpoint col_indices (tb : Table) (cs : list string) : Outcome (list nat) :=
  match cs with
  | [] => Ok []
  | c :: rest =>
      match get_col tb c, col_indices tb rest with
      | Ok (i, _), Ok idx => Ok (i :: idx)
      | Raise x, _ | _, Raise x => Raise x
      end
  end.

(** The rows of a SELECT, in table order. *)
Definition run_query (db : Db) (ps : list SqlVal) (q : Query) : Outcome (list Row) :=
  match get_table db (q_table q) with
  | Raise x => Raise x
  | Ok tb =>
      match filter_out (row_matches db ps tb (q_where q)) (t_rows tb) with
      | Raise x => Raise x
      | Ok rows =>
          match q_cols q with
          | None => Ok rows
          | Some cs =>
              match col_indices tb cs with
              | Ok idx => Ok (map (project idx) rows)
              | Raise x => Raise x
              end
          end
      end
  end.

(** Replace the [i]-th field of every matching row. *)
Fixpoint update_rows (db : Db) (ps : list SqlVal) (tb : Table) (i : nat) (a : Affinity)
    (v : Expr) (w : Cond) (rows : list Row) : Outcome (list Row) :=
  match rows with
  | [] => Ok []
  | r :: rest =>
      match row_matches db ps tb w r, eval_expr db ps tb r v,
            update_rows db ps tb i a v w rest with
      | Ok true, Ok (x, _), Ok rest' => Ok (<[i := store_affinity a x]> r :: rest')
      | Ok false, _, Ok rest' => Ok (r :: rest')
      | Raise x, _, _ => Raise x
      | Ok true, Raise x, _ => Raise x
      | _, _, Raise x => Raise x
      end
  end.

(** An UPDATE: the new contents of the file. *)
Definition run_update (db : Db) (ps : list SqlVal) (t c : string) (v : Expr) (w : Cond)
  : Outcome Db :=
  match get_table db t with
  | Raise x => Raise x
  | Ok tb =>
      match get_col tb c with
      | Raise x => Raise x
      | Ok (i, a) =>
          match update_rows db ps tb i a v w (t_rows tb) with
          | Raise x => Raise x
          | Ok rows' => Ok (<[t := mkTable (t_cols tb) rows']> db)
          end
      end
  end.

(** [cursor.execute(stmt, params)] on a database view: the rows it makes
    available to [fetchone]/[fetchall] and the view after it. *)
Definition exec_stmt (db : Db) (st : Stmt) (ps : list SqlVal) : Outcome (list Row * Db) :=
  match st with
  | SSelect q =>
      match run_query db ps q with Ok rows => Ok (rows, db) | Raise x => Raise x end
  | SUpdate t c v w =>
      match run_update db ps t c v w with Ok db' => Ok ([], db') | Raise x => Raise x end
  end.

(** [cursor.fetchone()]: the first row, [None] when there is none. *)
Definition fetchone (rows : list Row) : option Row := head rows.

(** ** Reading a comparison

    What [=] between a field of an INTEGER column and a TEXT parameter
    [s] amounts to: the parameter, under numeric affinity, is an INTEGER
    or a REAL equal to the field's integer; or it is not a number and
    stays TEXT, equal only to a field holding the same text. *)
Definition text_denotes_int (s : string) (z : Z) : bool :=
  match parse_numeric s with
  | NumInt k => (z =? k)%Z
  | NumReal r => real_eq_int r z
  | NotNum => false
  end.

Definition int_field_matches (f : option SqlVal) (s : string) : bool :=
  match f with
  | Some (SInt z) => text_denotes_int s z
  | Some (SText t) =>
      match parse_numeric s with NotNum => String.eqb t s | _ => false end
  | _ => false
  end.

(** ** Lemmas *)

(** An INTEGER column against an integer parameter: equal exactly when
    the field is that integer. *)
Lemma sql_eq_int_param v id :
  sql_eq (v, AInteger) (SInt id, ANone) = Some true <-> v = SInt id.
Proof.
  destruct v as [| a | t]; simpl; split; intros H; try congruence.
  - injection H as H. apply Z.eqb_eq in H. by subst.
  - injection H as ->. by rewrite Z.eqb_refl.
Qed.

Lemma default_null_lookup (r : list SqlVal) i v :
  v <> SNull -> default SNull (r !! i) = v <-> r !! i = Some v.
Proof. destruct (r !! i); simpl; split; congruence. Qed.

(** A predicate that never raises filters like [List.filter]. *)
Lemma filter_out_total {A} (p : A -> Outcome bool) (f : A -> bool) (l : list A) :
  (forall x, p x = Ok (f x)) -> filter_out p l = Ok (List.filter f l).
Proof. intros Hp. induction l as [| x r IH]; simpl; [done |]. by rewrite Hp, IH. Qed.


(** [WHERE col = ?k] on an INTEGER column with a TEXT parameter [s]: the
    rows whose field is an integer [s] denotes, or, when [s] is not a
    number, the rows whose field is the same text. *)
Lemma int_col_eq_text db ps tb col i k s r :
  get_col tb col = Ok (i, AInteger) -> ps !! k = Some (SText s) ->
  row_matches db ps tb (CEq (ECol col) (EParam k)) r = Ok (int_field_matches (r !! i) s).
Proof.
  intros Hc Hk. unfold row_matches, int_field_matches, text_denotes_int. simpl.
  rewrite Hc, Hk. simpl. f_equal.
  destruct (r !! i) as [[| z | t] |]; simpl; [done | | | done];
    destruct (parse_numeric s); simpl; try done;
    match goal with |- bool_decide (Some ?b = Some true) = _ => by destruct b end.
Qed.

(** A SELECT of named columns is a filter followed by a projection. *)
Lemma exec_select_filter db ps cols t w tb idx (f : Row -> bool) :
  db !! t = Some tb ->
  (forall r, row_matches db ps tb w r = Ok (f r)) ->
  col_indices tb cols = Ok idx ->
  exec_stmt db (SSelect (mkQuery (Some cols) t w)) ps =
    Ok (map (project idx) (List.filter f (t_rows tb)), db).
Proof.
  intros Ht Hf Hc. unfold exec_stmt, run_query, get_table. simpl. rewrite Ht.
  by rewrite (filter_out_total _ f), Hc.
Qed.

(** [SELECT *] is a filter. *)
Lemma exec_select_star_filter db ps t w tb (f : Row -> bool) :
  db !! t = Some tb ->
  (forall r, row_matches db ps tb w r = Ok (f r)) ->
  exec_stmt db (SSelect (mkQuery None t w)) ps = Ok (List.filter f (t_rows tb), db).
Proof.
  intros Ht Hf. unfold exec_stmt, run_query, get_table. simpl. rewrite Ht.
  by rewrite (filter_out_total _ f).
Qed.

(** [WHERE col = ?k] on a TEXT column with a TEXT parameter is an exact,
    case-sensitive string comparison. *)
Lemma text_col_eq_param db ps tb col i k s r :
  get_col tb col = Ok (i, AText) -> ps !! k = Some (SText s) ->
  row_matches db ps tb (CEq (ECol col) (EParam k)) r =
    Ok (bool_decide (r !! i = Some (SText s))).
Proof.
  intros Hc Hk. unfold row_matches. simpl. rewrite Hc, Hk. simpl. f_equal.
  apply bool_decide_ext. transitivity (default SNull (r !! i) = SText s).
  - destruct (default SNull (r !! i)) as [| z | t]; simpl; split; intros H; try congruence.
    + injection H as H. apply String.eqb_eq in H. by subst.
    + injection H as ->. by rewrite String.eqb_refl.
  - by apply default_null_lookup.
Qed.

(** What an outcome-returning filter keeps satisfies its predicate. *)
Lemma filter_out_sound {A} (p : A -> Outcome bool) (l l' : list A) x :
  filter_out p l = Ok l' -> x ∈ l' -> x ∈ l /\ p x = Ok true.
Proof.
  revert l'. induction l as [| y l IH]; intros l' Hf Hx; simpl in Hf.
  - injection Hf as <-. by apply elem_of_nil in Hx.
  - destruct (p y) as [[] |] eqn:Hp; [| | done];
      destruct (filter_out p l) as [l0 |] eqn:Hl; try done; injection Hf as <-.
    + apply elem_of_cons in Hx as [-> | Hx]; [split; [left | done] |].
      destruct (IH l0 eq_refl Hx). split; [by right | done].
    + destruct (IH l0 eq_refl Hx). split; [by right | done].
Qed.

(** A row returned by [SELECT *] is a row of the table on which the
    [WHERE] clause is true. *)
Lemma run_query_star_sound db ps t w rows r :
  run_query db ps (mkQuery None t w) = Ok rows -> r ∈ rows ->
  exists tb, db !! t = Some tb /\ r ∈ t_rows tb /\ row_matches db ps tb w r = Ok true.
Proof.
  unfold run_query, get_table. simpl. destruct (db !! t) as [tb |]; [| done].
  destruct (filter_out _ _) as [rows' |] eqn:Hf; [| done]. intros [= <-] Hr.
  exists tb. destruct (filter_out_sound _ _ _ _ Hf Hr). done.
Qed.

(** [WHERE c1 AND c2] is true on a row only when both are. *)
Lemma row_matches_and db ps tb c1 c2 r :
  row_matches db ps tb (CAnd c1 c2) r = Ok true ->
  row_matches db ps tb c1 r = Ok true /\ row_matches db ps tb c2 r = Ok true.
Proof.
  unfold row_matches. simpl.
  destruct (eval_cond db ps tb r c1) as [[[] |] |], (eval_cond db ps tb r c2) as [[[] |] |];
    simpl; intros H; try done; by apply bool_decide_eq_true in H.
Qed.

(** [WHERE c1 OR c2] on conditions that each evaluate to a truth value. *)
Lemma row_matches_or db ps tb c1 c2 r b1 b2 :
  row_matches db ps tb c1 r = Ok b1 -> row_matches db ps tb c2 r = Ok b2 ->
  row_matches db ps tb (COr c1 c2) r = Ok (b1 || b2).
Proof.
  unfold row_matches. simpl.
  destruct (eval_cond db ps tb r c1) as [x |], (eval_cond db ps tb r c2) as [y |]; try done.
  intros [= <-] [= <-]. f_equal. by destruct x as [[] |], y as [[] |].
Qed.

(** Two INTEGER operands are compared as stored: equal, and not NULL. *)
Lemma sql_eq_int_int x k :
  sql_eq (x, AInteger) (k, AInteger) = Some true <-> x = k /\ k <> SNull.
Proof.
  destruct x as [| a | a], k as [| b | b]; simpl; split; try (intros [? ?]; congruence);
    try congruence.
  - intros [= E]. apply Z.eqb_eq in E. by subst.
  - intros [[= ->] _]. by rewrite Z.eqb_refl.
  - intros [= E]. apply String.eqb_eq in E. by subst.
  - intros [[= ->] _]. by rewrite String.eqb_refl.
Qed.

(** The first row [find] returns is the head of [filter]. *)
Lemma find_filter_head {A} (f : A -> bool) (l : list A) : List.find f l = head (List.filter f l).
Proof. induction l as [| x l IH]; simpl; [done |]. by destruct (f x). Qed.

(** A list with an element satisfying [f] has a first such element. *)
Lemma filter_head_Some {A} (f : A -> bool) (l : list A) x :
  x ∈ l -> f x = true -> exists y, head (List.filter f l) = Some y /\ f y = true.
Proof.
  induction l as [| z l IH]; [by intros ?%elem_of_nil |]. intros Hx Hf. simpl.
  destruct (f z) eqn:Hz; [by exists z |].
  apply elem_of_cons in Hx as [-> | Hx]; [congruence | by apply IH].
Qed.

(** [WHERE c1 AND c2] on conditions that each evaluate to a truth value. *)
Lemma row_matches_and_eval db ps tb c1 c2 r b1 b2 :
  row_matches db ps tb c1 r = Ok b1 -> row_matches db ps tb c2 r = Ok b2 ->
  row_matches db ps tb (CAnd c1 c2) r = Ok (b1 && b2).
Proof.
  unfold row_matches. simpl.
  destruct (eval_cond db ps tb r c1) as [x |], (eval_cond db ps tb r c2) as [y |]; try done.
  intros [= <-] [= <-]. f_equal. by destruct x as [[] |], y as [[] |].
Qed.

(** The indices of columns that all exist. *)
Lemma col_indices_single tb c i a : get_col tb c = Ok (i, a) -> col_indices tb [c] = Ok [i].
Proof. intros H. simpl. by rewrite H. Qed.
