(* ===== verification/Schema.v ===== *)
(** * Structured completions: JSON and the pydantic schemas of the chains

    Every structured chain of the repository ends in
    [PydanticOutputParser(pydantic_object=<Model>)]: the model's text is
    parsed as JSON and validated against a [BaseModel] class.  This file
    models the JSON values, the validation of the field types the source
    declares ([int], [str], [bool], in pydantic's default lax mode), and
    one record and one validator per [BaseModel] class of [src/].
    A completion that is not valid JSON never reaches the validator: the
    language-model interface of [World] reports it as an exception. *)

From S2P Require Import Prelude Sqlite.

#[warnings="-register-all"]
Inductive Json : Type :=
| JNull
| JBool (b : bool)
| JInt (z : Z)
| JStr (s : string)
| JArr (xs : list Json)
| JObj (fields : list (string * Json)).

(** The value of a key of a JSON object (the first occurrence). *)
Definition json_field (j : Json) (k : string) : option Json :=
  match j with
  | JObj fs =>
      match List.find (fun kv => String.eqb (fst kv) k) fs with
      | Some (_, v) => Some v
      | None => None
      end
  | _ => None
  end.

Definition validation_error (field what : string) : Exc :=
  OutputParserException ("Failed to parse: " ++ field ++ ": " ++ what).

(** [int] in lax mode: an integer, a boolean, or a string holding an
    integer literal (surrounding whitespace allowed). *)
Definition as_int (field : string) (j : Json) : Outcome Z :=
  match j with
  | JInt z => Ok z
  | JBool b => Ok (if b then 1 else 0)%Z
  | JStr s =>
      let t := trim s in
      let r :=
        match t with
        | String "-" r => match r with EmptyString => None | _ => option_map Z.opp (digits_value 0 r) end
        | String "+" r => match r with EmptyString => None | _ => digits_value 0 r end
        | EmptyString => None
        | _ => digits_value 0 t
        end in
      match r with
      | Some z => Ok z
      | None => Raise (validation_error field "Input should be a valid integer")
      end
  | _ => Raise (validation_error field "Input should be a valid integer")
  end.

(** [str] in lax mode: only a string (numbers are refused). *)
Definition as_str (field : string) (j : Json) : Outcome string :=
  match j with
  | JStr s => Ok s
  | _ => Raise (validation_error field "Input should be a valid string")
  end.

Definition lower_ascii (c : ascii) : ascii :=
  let n := nat_of_ascii c in
  if (65 <=? n) && (n <=? 90) then ascii_of_nat (n + 32) else c.

Fixpoint lower (s : string) : string :=
  match s with
  | EmptyString => EmptyString
  | String c r => String (lower_ascii c) (lower r)
  end.

(** [bool] in lax mode: a boolean, 0 or 1, or one of pydantic's words. *)
Definition as_bool (field : string) (j : Json) : Outcome bool :=
  match j with
  | JBool b => Ok b
  | JInt 0 => Ok false
  | JInt 1 => Ok true
  | JStr s =>
      let l := lower s in
      if bool_decide (l ∈ ["1"; "on"; "t"; "true"; "y"; "yes"]) then Ok true
      else if bool_decide (l ∈ ["0"; "off"; "f"; "false"; "n"; "no"]) then Ok false
      else Raise (validation_error field "Input should be a valid boolean")
  | _ => Raise (validation_error field "Input should be a valid boolean")
  end.

(** A required field: missing is a validation error. *)
Definition required {A} (j : Json) (k : string) (conv : string -> Json -> Outcome A) : Outcome A :=
  match j with
  | JObj _ =>
      match json_field j k with
      | Some v => conv k v
      | None => Raise (validation_error k "Field required")
      end
  | _ => Raise (OutputParserException "Input should be an object")
  end.

(** A field with a default value. *)
Definition optional {A} (j : Json) (k : string) (dflt : A) (conv : string -> Json -> Outcome A)
  : Outcome A :=
  match json_field j k with
  | Some v => conv k v
  | None => Ok dflt
  end.

Definition out_bind {A B} (o : Outcome A) (k : A -> Outcome B) : Outcome B :=
  match o with Ok a => k a | Raise e => Raise e end.

(** ** The [BaseModel] classes of the source *)

(** [class Format(BaseModel): is_prompt_injection: bool] *)
Record Format := mkFormat { is_prompt_injection : bool }.

Definition parse_Format (j : Json) : Outcome Format :=
  out_bind (required j "is_prompt_injection" as_bool) (fun b => Ok (mkFormat b)).

(** [class ClaimUpdate(BaseModel): claim_id: int; status: str] *)
Record ClaimUpdate := mkClaimUpdate { cu_claim_id : Z; cu_status : string }.

Definition parse_ClaimUpdate (j : Json) : Outcome ClaimUpdate :=
  out_bind (required j "claim_id" as_int) (fun i =>
  out_bind (required j "status" as_str) (fun s => Ok (mkClaimUpdate i s))).

(** [class ClaimQueryType(BaseModel)]: [query_type: str], [value: str],
    [num_results: int = 5]. *)
Record ClaimQueryType := mkClaimQueryType {
  cq_query_type : string; cq_value : string; cq_num_results : Z }.

Definition parse_ClaimQueryType (j : Json) : Outcome ClaimQueryType :=
  out_bind (required j "query_type" as_str) (fun t =>
  out_bind (required j "value" as_str) (fun v =>
  out_bind (optional j "num_results" 5%Z as_int) (fun n => Ok (mkClaimQueryType t v n)))).

(** [class PolicyQueryType(BaseModel)]: the same three fields. *)
Record PolicyQueryType := mkPolicyQueryType {
  pq_query_type : string; pq_value : string; pq_num_results : Z }.

Definition parse_PolicyQueryType (j : Json) : Outcome PolicyQueryType :=
  out_bind (required j "query_type" as_str) (fun t =>
  out_bind (required j "value" as_str) (fun v =>
  out_bind (optional j "num_results" 5%Z as_int) (fun n => Ok (mkPolicyQueryType t v n)))).

(** [UpdateClaimStatusOutput], [GetClaimInfoOutput], [GetPolicyInfoOutput]:
    each is [output: str]. *)
Definition parse_Output (j : Json) : Outcome string := required j "output" as_str.

(** [class ChitChatClassifier(BaseModel): chitchat: bool] *)
Definition parse_ChitChatClassifier (j : Json) : Outcome bool := required j "chitchat" as_bool.
