(* ===== verification/World.v ===== *)
(** * The world a turn runs in: files, connections, trace, language model

    The chains of the repository reach outside Python through two
    collaborators: [sqlite3] connections to database files, and the
    language model behind [prompt | llm | parser].  A [World] holds the
    database files by path, the connections opened so far (a connection's
    id is its position), the trace of every external call in the order it
    happened, and a schedule of database faults (an [OperationalError] such
    as "database is locked" raised by the [n]-th [execute] or [commit]),
    which makes the environment's nondeterminism an explicit input.  A
    statement whose scheduled fault is [None] is prepared and run on the
    connection's view; its parameters are bound ([bind_error]) before it
    steps, so an integer out of the 64-bit range raises [OverflowError]
    and the statement has no effect.

    The language model is the interface [LLM]: a completion for a prompt
    identified by [PromptId] from the variables the code passes to
    [chain.invoke].  Every theorem about a chain is stated for every
    instance of [LLM]. *)

From S2P Require Import Prelude Sqlite Schema.

(** ** Chat messages and the variables of a prompt *)
Inductive Role : Type := Human | AI.

Record Message : Type := mkMessage { msg_role : Role; msg_content : string }.

(** A prompt variable: a string, a chat history, or the format
    instructions [PydanticOutputParser.get_format_instructions()] derives
    from the [BaseModel] class named [model] (library-generated text,
    kept symbolic). *)
Inductive TVal : Type :=
| TStr (s : string)
| THist (h : list Message)
| TFormat (model : string).

(** The prompts of the source, one per [prompt | llm | parser] pipeline. *)
Inductive PromptId : Type :=
| PInjection         (** [IsPromptInjection] *)
| PExtractUpdate     (** [ExtractClaimToUpdate] *)
| PUpdateResponse    (** [UpdateClaimStatusChain.chain] *)
| PExtractClaim      (** [ExtractClaimQuery] *)
| PClaimResponse     (** [GetClaimInfoChain.chain] *)
| PExtractPolicy     (** [ExtractPolicyQuery] *)
| PPolicyResponse    (** [GetPolicyInfoChain.chain] *)
| PChitchatClass     (** [ChitChatClassifierChain] *)
| PChitchatResponse. (** [ChitChatResponseChain] *)

#[export] Instance PromptId_eq_dec : EqDecision PromptId.
Proof. solve_decision. Defined.

(** The language model with its output parser: a JSON completion for a
    structured prompt, or text for a [StrOutputParser] prompt.  An
    unreachable service or a completion that is not JSON is a [Raise]. *)
Class LLM : Type := {
  llm_complete : PromptId -> gmap string TVal -> Outcome Json;
  llm_text : PromptId -> gmap string TVal -> Outcome string
}.

(** ** Connections and the trace *)

(** A connection: the file it opened, whether it is still open, and its
    open transaction (Python's [sqlite3] begins one implicitly before an
    UPDATE; its statements see it, [commit] writes it to the file,
    [close] discards it). *)
Record Conn : Type := mkConn {
  conn_path : string;
  conn_open : bool;
  conn_txn : option Db
}.

Inductive Event : Type :=
| EConnect (c : nat) (path : string)
| EExecute (c : nat) (st : Stmt) (ps : list SqlVal)
| ECommit (c : nat)
| ECursorClose (c : nat)
| EClose (c : nat)
| ELlm (p : PromptId)
| EPrint (s : string).

Record World : Type := mkWorld {
  w_files : gmap string Db;
  w_conns : list Conn;
  w_trace : list Event;
  w_faults : list (option Exc)
}.

Definition emit (e : Event) : PyM World unit :=
  py_modify (fun w => mkWorld (w_files w) (w_conns w) (w_trace w ++ [e]) (w_faults w)).

Definition set_conns (w : World) (cs : list Conn) : World :=
  mkWorld (w_files w) cs (w_trace w) (w_faults w).

(** [print(s)] *)
Definition py_print (s : string) : PyM World unit := emit (EPrint s).

(** [sqlite3.connect(path)]: creates an empty database file when there is
    none at [path]. *)
Definition sqlite_connect (path : string) : PyM World nat :=
  fun w =>
    let c := length (w_conns w) in
    let files := match w_files w !! path with
                 | Some _ => w_files w
                 | None => <[path := ∅]> (w_files w)
                 end in
    (Ok c, mkWorld files (w_conns w ++ [mkConn path true None])
                   (w_trace w ++ [EConnect c path]) (w_faults w)).

(** The database a connection's statements see. *)
Definition conn_view (w : World) (cn : Conn) : Db :=
  match conn_txn cn with
  | Some d => d
  | None => default ∅ (w_files w !! conn_path cn)
  end.

Definition closed_error : Exc := ProgrammingError "Cannot operate on a closed database.".

Definition get_conn (w : World) (c : nat) : Outcome Conn :=
  match w_conns w !! c with
  | Some cn => if conn_open cn then Ok cn else Raise closed_error
  | None => Raise closed_error
  end.

(** [cursor.execute(st, ps)] on connection [c]: the rows it makes
    available.  The next scheduled fault, if any, is raised instead. *)
Definition cursor_execute (c : nat) (st : Stmt) (ps : list SqlVal) : PyM World (list Row) :=
  emit (EExecute c st ps) ≫= fun _ => py_state (fun w =>
  match get_conn w c with
  | Raise e => (Raise e, w)
  | Ok cn =>
      let '(fault, rest) := match w_faults w with f :: r => (f, r) | [] => (None, []) end in
      let w1 := mkWorld (w_files w) (w_conns w) (w_trace w) rest in
      match fault with
      | Some e => (Raise e, w1)
      | None =>
          match exec_stmt (conn_view w1 cn) st ps with
          | Raise e => (Raise e, w1)
          | Ok (rows, d') =>
              match bind_error ps with
              | Some e => (Raise e, w1)
              | None =>
                  match st with
                  | SSelect _ => (Ok rows, w1)
                  | SUpdate _ _ _ _ =>
                      (Ok rows, set_conns w1 (<[c := mkConn (conn_path cn) true (Some d')]> (w_conns w1)))
                  end
              end
          end
      end
  end).

(** [con.commit()]: the transaction becomes the file's contents. *)
Definition con_commit (c : nat) : PyM World unit :=
  emit (ECommit c) ≫= fun _ => py_state (fun w =>
  match get_conn w c with
  | Raise e => (Raise e, w)
  | Ok cn =>
      let '(fault, rest) := match w_faults w with f :: r => (f, r) | [] => (None, []) end in
      match fault, conn_txn cn with
      | Some e, _ => (Raise e, mkWorld (w_files w) (w_conns w) (w_trace w) rest)
      | None, None => (Ok tt, mkWorld (w_files w) (w_conns w) (w_trace w) rest)
      | None, Some d =>
          (Ok tt, mkWorld (<[conn_path cn := d]> (w_files w))
                          (<[c := mkConn (conn_path cn) true None]> (w_conns w))
                          (w_trace w) rest)
      end
  end).

(** [cursor.close()] *)
Definition cursor_close (c : nat) : PyM World unit := emit (ECursorClose c).

(** [con.close()]: an open transaction is rolled back. *)
Definition con_close (c : nat) : PyM World unit :=
  emit (EClose c) ≫= fun _ => py_state (fun w =>
  match w_conns w !! c with
  | Some cn => (Ok tt, set_conns w (<[c := mkConn (conn_path cn) false None]> (w_conns w)))
  | None => (Ok tt, w)
  end).

(** [(prompt | llm | parser).invoke(vars)] *)
Definition llm_invoke {llm : LLM} (p : PromptId) (vars : gmap string TVal) : PyM World Json :=
  emit (ELlm p) ≫= fun _ => py_lift (llm_complete p vars).

Definition llm_invoke_text {llm : LLM} (p : PromptId) (vars : gmap string TVal) : PyM World string :=
  emit (ELlm p) ≫= fun _ => py_lift (llm_text p vars).

(** The database path the chains open (relative to the working
    directory of [streamlit run app.py]). *)
Definition chains_db_path : string := "SecureShield/secure_shield.db".

(** ** Evaluating chains symbolically *)

Lemma lookup_snoc_length {A} (l : list A) (x : A) : (l ++ [x]) !! length l = Some x.
Proof. by apply list_lookup_middle. Qed.

Lemma insert_snoc_length {A} (l : list A) (x y : A) : <[length l := y]> (l ++ [x]) = l ++ [y].
Proof. induction l as [| a l IH]; simpl; [done |]. by rewrite IH. Qed.

(** A SELECT that returns rows ran on the open connection's view and
    changed neither the files nor the connections. *)
Lemma cursor_select_sound c q ps w rows w' :
  cursor_execute c (SSelect q) ps w = (Ok rows, w') ->
  exists cn, w_conns w !! c = Some cn /\ conn_open cn = true /\
    run_query (conn_view w cn) ps q = Ok rows /\
    w_files w' = w_files w /\ w_conns w' = w_conns w.
Proof.
  unfold cursor_execute, emit, get_conn, conn_view, exec_stmt.
  cbv [mbind PyM_bind py_modify py_state]. simpl.
  destruct (w_conns w !! c) as [cn |]; simpl; [| congruence].
  destruct (conn_open cn) eqn:Ho; simpl; [| congruence].
  destruct (w_faults w) as [| [f |] fs]; simpl; [| congruence |];
    destruct (run_query _ ps q) as [rs |] eqn:Hq; simpl; try congruence;
    destruct (bind_error ps); try congruence; intros [= <- <-]; by exists cn.
Qed.

Create Rewrite HintDb pyworld.
#[export] Hint Rewrite @lookup_snoc_length @insert_snoc_length : pyworld.
#[export] Hint Rewrite @lookup_insert_eq : pyworld.

Arguments exec_stmt : simpl never.
Arguments bind_error : simpl never.
Arguments fetchone : simpl never.
Arguments dict_getitem : simpl never.

(** Rewrite with every hypothesis whose left side occurs in the goal. *)
Ltac rewrite_hyps :=
  repeat match goal with
  | H : ?d !! ?k = Some ?v |- context [dict_getitem ?d ?k] =>
      rewrite (dict_getitem_Some d k v H)
  | H : ?x = _ |- context [?x] => progress rewrite H
  end.

(** Unfold the world primitives, then alternate evaluation and rewriting. *)
Ltac world_run :=
  unfold llm_invoke, llm_invoke_text, sqlite_connect, cursor_execute, con_commit,
    con_close, cursor_close, emit, py_print, get_conn, conn_view, set_conns;
  py_unfold;
  repeat (progress (simpl; rewrite_hyps; autorewrite with pyworld)).

(** ** Invariants of programs over the world

    [preserves R m]: every run of [m] relates the world before to the
    world after by the preorder [R].  The combinators of the monad keep
    it, so a chain has an invariant as soon as each primitive it calls
    has it. *)
Definition preserves {S} (R : S -> S -> Prop) {A} (m : PyM S A) : Prop :=
  forall w, R w (snd (m w)).

(** Existing database files keep their contents. *)
Definition files_kept (w w' : World) : Prop :=
  forall p d, w_files w !! p = Some d -> w_files w' !! p = Some d.

(** The trace grows by events satisfying [P] only. *)
Definition trace_only (P : Event -> Prop) (w w' : World) : Prop :=
  exists new, w_trace w' = w_trace w ++ new /\ Forall P new.

Section Preserves.
Context {S : Type} (R : S -> S -> Prop) `{!PreOrder R}.

Lemma preserves_ret {A} (a : A) : preserves R (mret a).
Proof. intros w. simpl. reflexivity. Qed.

Lemma preserves_lift {A} (o : Outcome A) : preserves R (py_lift o).
Proof. intros w. simpl. reflexivity. Qed.

Lemma preserves_bind {A B} (m : PyM S A) (k : A -> PyM S B) :
  preserves R m -> (forall a, preserves R (k a)) -> preserves R (m ≫= k).
Proof.
  intros Hm Hk w. cbv [mbind PyM_bind]. specialize (Hm w).
  destruct (m w) as [[a | e] w'] eqn:E; simpl in *; [| done].
  by etransitivity; [| apply Hk].
Qed.

Lemma preserves_throw {A} (e : Exc) : preserves R (mthrow e : PyM S A).
Proof. intros w. simpl. reflexivity. Qed.

(** A bind on a lifted outcome: only its value reaches the continuation. *)
Lemma preserves_lift_bind {A B} (o : Outcome A) (k : A -> PyM S B) :
  (forall a, o = Ok a -> preserves R (k a)) -> preserves R (py_lift o ≫= k).
Proof. intros Hk w. destruct o as [a |]; simpl; [by apply Hk | reflexivity]. Qed.

Lemma preserves_try_except {A} (m : PyM S A) (h : Exc -> option (PyM S A)) :
  preserves R m -> (forall e k, h e = Some k -> preserves R k) ->
  preserves R (py_try_except m h).
Proof.
  intros Hm Hh w. unfold py_try_except. specialize (Hm w).
  destruct (m w) as [[a | e] w'] eqn:E; simpl in *; [done |].
  destruct (h e) as [k |] eqn:Hk; simpl; [| done].
  by etransitivity; [| apply (Hh e k Hk)].
Qed.

Lemma preserves_try_finally {A} (m : PyM S A) (fin : PyM S unit) :
  preserves R m -> preserves R fin -> preserves R (py_try_finally m fin).
Proof.
  intros Hm Hf w. unfold py_try_finally. specialize (Hm w).
  destruct (m w) as [r w1]. specialize (Hf w1).
  destruct (fin w1) as [[] w2]; simpl in *; by etransitivity.
Qed.
End Preserves.

#[export] Instance files_kept_preorder : PreOrder files_kept.
Proof. split; [by intros w p d | intros w1 w2 w3 H12 H23 p d Hp; auto]. Qed.

#[export] Instance trace_only_preorder P : PreOrder (trace_only P).
Proof.
  split.
  - intros w. exists []. by rewrite app_nil_r.
  - intros w1 w2 w3 [n1 [E1 F1]] [n2 [E2 F2]]. exists (n1 ++ n2).
    rewrite E2, E1, app_assoc. split; [done | by apply Forall_app].
Qed.

Ltac prim_unfold :=
  intros ?w; unfold llm_invoke, llm_invoke_text, sqlite_connect, cursor_execute,
    con_commit, con_close, cursor_close, emit, py_print, get_conn, set_conns;
  py_unfold; simpl; repeat (case_match; simpl).

Ltac files_kept_tac := prim_unfold; intros ?p ?d ?Hp; simpl in *; try done.

Lemma emit_files_kept e : preserves files_kept (emit e).
Proof. by files_kept_tac. Qed.

Lemma connect_files_kept path : preserves files_kept (sqlite_connect path).
Proof.
  files_kept_tac. destruct (decide (p = path)) as [-> | Hne]; [congruence |].
  by rewrite lookup_insert_ne.
Qed.

Lemma execute_files_kept c st ps : preserves files_kept (cursor_execute c st ps).
Proof. by files_kept_tac. Qed.

Lemma close_files_kept c : preserves files_kept (con_close c).
Proof. by files_kept_tac. Qed.

Lemma cursor_close_files_kept c : preserves files_kept (cursor_close c).
Proof. by files_kept_tac. Qed.

Lemma print_files_kept s : preserves files_kept (py_print s).
Proof. by files_kept_tac. Qed.

Lemma llm_files_kept {llm : LLM} p vars : preserves files_kept (llm_invoke p vars).
Proof. by files_kept_tac. Qed.

Lemma llm_text_files_kept {llm : LLM} p vars : preserves files_kept (llm_invoke_text p vars).
Proof. by files_kept_tac. Qed.

Ltac trace_only_tac :=
  prim_unfold; eexists; (split; [rewrite <- ?app_assoc; reflexivity | repeat constructor; auto]).

Section TraceOnly.
Context (P : Event -> Prop).

Lemma emit_trace_only e : P e -> preserves (trace_only P) (emit e).
Proof. intros He. trace_only_tac. Qed.

Lemma connect_trace_only path :
  (forall c, P (EConnect c path)) -> preserves (trace_only P) (sqlite_connect path).
Proof. intros He. trace_only_tac. Qed.

Lemma execute_trace_only c st ps :
  P (EExecute c st ps) -> preserves (trace_only P) (cursor_execute c st ps).
Proof. intros He. trace_only_tac. Qed.

Lemma commit_trace_only c : P (ECommit c) -> preserves (trace_only P) (con_commit c).
Proof. intros He. trace_only_tac. Qed.

Lemma close_trace_only c : P (EClose c) -> preserves (trace_only P) (con_close c).
Proof. intros He. trace_only_tac. Qed.

Lemma cursor_close_trace_only c :
  P (ECursorClose c) -> preserves (trace_only P) (cursor_close c).
Proof. intros He. trace_only_tac. Qed.

Lemma print_trace_only s : P (EPrint s) -> preserves (trace_only P) (py_print s).
Proof. intros He. trace_only_tac. Qed.

Lemma llm_trace_only {llm : LLM} p vars :
  P (ELlm p) -> preserves (trace_only P) (llm_invoke p vars).
Proof. intros He. trace_only_tac. Qed.

Lemma llm_text_trace_only {llm : LLM} p vars :
  P (ELlm p) -> preserves (trace_only P) (llm_invoke_text p vars).
Proof. intros He. trace_only_tac. Qed.
End TraceOnly.

Create HintDb preserve discriminated.
#[export] Hint Resolve preserves_ret preserves_lift preserves_throw emit_files_kept connect_files_kept
  execute_files_kept close_files_kept cursor_close_files_kept print_files_kept
  llm_files_kept llm_text_files_kept emit_trace_only connect_trace_only
  execute_trace_only commit_trace_only close_trace_only cursor_close_trace_only
  print_trace_only llm_trace_only llm_text_trace_only : preserve.

(** Decompose a program into its primitives and discharge each one. *)
Ltac solve_preserves :=
  repeat match goal with
  | |- PreOrder _ => typeclasses eauto
  | |- preserves _ (py_lift _ ≫= _) => apply preserves_lift_bind; last intros ?a ?Ho
  | |- preserves _ (_ ≫= _) => apply preserves_bind; last intros ?
  | a : Empty_set |- _ => destruct a
  | |- preserves _ (py_try_except _ _) => apply preserves_try_except; last intros ?e ?k ?Hk
  | |- preserves _ (py_try_finally _ _) => apply preserves_try_finally
  | |- preserves _ (match ?x with _ => _ end) => destruct x
  | |- preserves _ (if ?b then _ else _) => destruct b
  | H : (if ?b then _ else _) = Some _ |- _ => destruct b
  | H : Some _ = Some _ |- _ => injection H as <-
  | H : None = Some _ |- _ => discriminate H
  | |- preserves _ _ => solve [eauto with preserve typeclass_instances]
  end.

(** Side conditions [P e] of [trace_only] on a concrete event. *)
#[export] Hint Extern 2 => cbv beta; intros; discriminate : preserve.

(** A SELECT on an open connection with no fault scheduled returns the
    rows of the query on the connection's view and logs the statement. *)
Lemma cursor_select_run c q ps w cn rows :
  w_conns w !! c = Some cn -> conn_open cn = true -> w_faults w = [] ->
  exec_stmt (conn_view w cn) (SSelect q) ps = Ok (rows, conn_view w cn) -> bind_error ps = None ->
  cursor_execute c (SSelect q) ps w =
    (Ok rows, mkWorld (w_files w) (w_conns w) (w_trace w ++ [EExecute c (SSelect q) ps]) []).
Proof.
  intros Hc Ho Hf He Hb. unfold cursor_execute, emit, get_conn.
  cbv [mbind PyM_bind py_modify py_state]. simpl. rewrite Hc, Ho, Hf. simpl.
  unfold conn_view in *. simpl. by rewrite He, Hb.
Qed.
