(* ===== verification/Relational.v ===== *)
(** * Two runs of a program: relational reasoning over [PyM]

    [related R m1 m2]: started in states related by [R], the programs
    [m1] and [m2] have the same outcome and leave states related by [R].
    The monad's combinators compose it, as they compose [preserves].

    For the chains, the relation is [same_db p]: the database the file
    [p] holds (a missing file reads as the empty database [connect]
    creates) and the scheduled faults are the same in both worlds; the
    rest of the world (other files, connections, trace) may differ.  Two
    runs open their connection at different indices, so after
    [connect] the relation is [same_conn p c1 c2]: connection [c1] of
    the first world and [c2] of the second are the same connection to
    [p].  A program related to itself under [same_db p] answers as a
    function of that database and the faults only.

    [quiet p]: a run started with no fault scheduled leaves the
    database of [p] and the (empty) fault list as they were; it is a
    [preserves] invariant of every primitive but [commit]. *)

From S2P Require Import Prelude Sqlite World.

Definition related {S A} (R : S -> S -> Prop) (m1 m2 : PyM S A) : Prop :=
  forall s1 s2, R s1 s2 -> fst (m1 s1) = fst (m2 s2) /\ R (snd (m1 s1)) (snd (m2 s2)).

Definition same_db (p : string) (w1 w2 : World) : Prop :=
  default ∅ (w_files w1 !! p) = default ∅ (w_files w2 !! p) /\ w_faults w1 = w_faults w2.

Definition same_conn (p : string) (c1 c2 : nat) (w1 w2 : World) : Prop :=
  same_db p w1 w2 /\
  exists cn, w_conns w1 !! c1 = Some cn /\ w_conns w2 !! c2 = Some cn /\ conn_path cn = p.

Definition quiet (p : string) (w w' : World) : Prop := w_faults w = [] -> same_db p w' w.

(** ** Combinators *)

Section Related.
Context {S : Type} (R : S -> S -> Prop).

Lemma related_ret {A} (a : A) : related R (mret a) (mret a).
Proof. by intros s1 s2 Hs. Qed.

Lemma related_lift {A} (o : Outcome A) : related R (py_lift o) (py_lift o).
Proof. by intros s1 s2 Hs. Qed.

Lemma related_throw {A} (e : Exc) : related R (mthrow e : PyM S A) (mthrow e).
Proof. by intros s1 s2 Hs. Qed.

Lemma related_bind {A B} (m1 m2 : PyM S A) (k1 k2 : A -> PyM S B) :
  related R m1 m2 -> (forall a, related R (k1 a) (k2 a)) -> related R (m1 ≫= k1) (m2 ≫= k2).
Proof.
  intros Hm Hk s1 s2 Hs. cbv [mbind PyM_bind]. destruct (Hm s1 s2 Hs) as [E H'].
  destruct (m1 s1) as [[a | e] s1'], (m2 s2) as [r2 s2']; simpl in *; subst; [by apply Hk | done].
Qed.

Lemma related_try_except {A} (m1 m2 : PyM S A) (h : Exc -> option (PyM S A)) :
  related R m1 m2 -> (forall e k, h e = Some k -> related R k k) ->
  related R (py_try_except m1 h) (py_try_except m2 h).
Proof.
  intros Hm Hh s1 s2 Hs. unfold py_try_except. destruct (Hm s1 s2 Hs) as [E H'].
  destruct (m1 s1) as [[a | e] s1'], (m2 s2) as [r2 s2']; simpl in *; subst; [done |].
  destruct (h e) as [k |] eqn:Hk; [by apply (Hh e k Hk) | done].
Qed.
End Related.

(** ** Primitives *)

Section Prims.
Context (p : string).

Lemma same_conn_db c1 c2 w1 w2 : same_conn p c1 c2 w1 w2 -> same_db p w1 w2.
Proof. by intros [? _]. Qed.

(** A step that only logs keeps both relations. *)
Lemma emit_same_conn c1 c2 e : related (same_conn p c1 c2) (emit e) (emit e).
Proof. by intros w1 w2 Hw. Qed.

Lemma llm_same_conn {llm : LLM} c1 c2 q vars :
  related (same_conn p c1 c2) (llm_invoke q vars) (llm_invoke q vars).
Proof. by intros w1 w2 Hw. Qed.

(** The same statement on the same connection: the same rows, the same
    fault consumed, the same transaction. *)
Lemma execute_same_conn c1 c2 st ps :
  related (same_conn p c1 c2) (cursor_execute c1 st ps) (cursor_execute c2 st ps).
Proof.
  intros w1 w2 ([Hd Hf] & cn & H1 & H2 & Hp).
  unfold cursor_execute, emit, get_conn, conn_view, set_conns.
  cbv [mbind PyM_bind py_modify py_state]. simpl. rewrite H1, H2.
  assert (Hv : match conn_txn cn with Some d => d | None => default ∅ (w_files w1 !! p) end =
               match conn_txn cn with Some d => d | None => default ∅ (w_files w2 !! p) end)
    by (destruct (conn_txn cn); [done | exact Hd]).
  destruct (conn_open cn); simpl; [| by split; [| split; [done | eauto]]].
  rewrite Hf, !Hp, Hv.
  destruct (w_faults w2) as [| [e |] fs]; simpl;
    repeat (case_match; simpl); (split; [done |]); (split; [by split |]);
    first [ by eauto
          | eexists; cbn; (split; [| split]);
            [ apply list_lookup_insert_eq; eapply lookup_lt_Some; eauto
            | apply list_lookup_insert_eq; eapply lookup_lt_Some; eauto | done ] ].
Qed.

(** [connect(p)] gives each run a fresh connection to [p]; what follows
    runs on two worlds where these are the same connection. *)
Lemma connect_same_db {A} (k1 k2 : nat -> PyM World A) :
  (forall c1 c2, related (same_conn p c1 c2) (k1 c1) (k2 c2)) ->
  related (same_db p) (sqlite_connect p ≫= k1) (sqlite_connect p ≫= k2).
Proof.
  intros Hk w1 w2 [Hd Hf]. cbv [mbind PyM_bind]. unfold sqlite_connect.
  edestruct Hk as [E H]; [| split; [exact E | exact (same_conn_db _ _ _ _ H)]].
  split; [split |].
  - simpl. destruct (w_files w1 !! p) eqn:E1, (w_files w2 !! p) eqn:E2;
      rewrite ?lookup_insert_eq, ?E1, ?E2; simpl in *; by rewrite ?Hd.
  - done.
  - eexists. simpl. by rewrite !lookup_snoc_length.
Qed.

(** ** [quiet] *)

#[export] Instance quiet_preorder : PreOrder (quiet p).
Proof.
  split; [by intros w _ |].
  intros w1 w2 w3 H12 H23 Hf. destruct (H12 Hf) as [D12 F12].
  destruct (H23 ltac:(by rewrite F12)) as [D23 F23]. split; congruence.
Qed.

Lemma emit_quiet e : preserves (quiet p) (emit e).
Proof. by intros w _. Qed.

Lemma llm_quiet {llm : LLM} q vars : preserves (quiet p) (llm_invoke q vars).
Proof. by intros w _. Qed.

Lemma llm_text_quiet {llm : LLM} q vars : preserves (quiet p) (llm_invoke_text q vars).
Proof. by intros w _. Qed.

Lemma connect_quiet q : preserves (quiet p) (sqlite_connect q).
Proof.
  intros w _. unfold sqlite_connect. split; [simpl | done].
  destruct (w_files w !! q) eqn:E; [done |].
  destruct (decide (p = q)) as [-> | Hne]; [by rewrite lookup_insert_eq, E |].
  by rewrite lookup_insert_ne.
Qed.

(** Without a fault scheduled, [execute] consumes none and writes no file. *)
Lemma execute_quiet c st ps : preserves (quiet p) (cursor_execute c st ps).
Proof.
  intros w Hf. unfold cursor_execute, emit, get_conn, set_conns.
  cbv [mbind PyM_bind py_modify py_state]. simpl. rewrite Hf.
  repeat (case_match; simpl); by split.
Qed.
End Prims.

Create HintDb related discriminated.
#[export] Hint Resolve related_ret related_lift related_throw emit_same_conn llm_same_conn
  execute_same_conn : related.
#[export] Hint Resolve emit_quiet llm_quiet llm_text_quiet connect_quiet execute_quiet : preserve.

(** Decompose two copies of a program, equal up to the connection they
    use, into related primitives. *)
Ltac solve_related :=
  repeat match goal with
  | |- related _ (_ ≫= _) (_ ≫= _) => apply related_bind; [| intros ?]
  | |- related _ (py_try_except _ ?h) (py_try_except _ ?h) =>
      apply related_try_except; [| intros ?e ?k ?Hk]
  | a : Empty_set |- _ => destruct a
  | |- related _ (match ?x with _ => _ end) (match ?x with _ => _ end) => destruct x
  | |- related _ (if ?b then _ else _) (if ?b then _ else _) => destruct b
  | H : Some _ = Some _ |- _ => injection H as <-
  | |- related _ _ _ => solve [eauto with related]
  end.
