(* ===== verification/PyRepr.v ===== *)
(** * Python's [str] and [repr] of the values the chains print

    The lookup chains build their status with f-strings such as
    [f"Claims for policy {value}: {results}"], where [results] is the list
    of tuples [cursor.fetchall()] returns: its text is Python's [repr] of a
    list of tuples of [int], [str] and [None].  A character of a Rocq
    [string] is read as the code point 0..255 (Latin-1). *)

From S2P Require Import Prelude Sqlite.

Definition chr (n : nat) : string := String (ascii_of_nat n) EmptyString.

Definition hex_digit (n : nat) : string :=
  chr (if n <? 10 then 48 + n else 87 + n).

(** [str.isprintable] on code points below 256. *)
Definition py_printable (c : ascii) : bool :=
  let n := nat_of_ascii c in
  ((32 <=? n) && (n <=? 126)) || ((161 <=? n) && negb (n =? 173)).

(** One character inside a [repr] quoted with [q]. *)
Definition py_escape_char (q : ascii) (c : ascii) : string :=
  let n := nat_of_ascii c in
  if n =? 92 then chr 92 ++ chr 92
  else if Ascii.eqb c q then chr 92 ++ String q EmptyString
  else if n =? 9 then chr 92 ++ "t"
  else if n =? 10 then chr 92 ++ "n"
  else if n =? 13 then chr 92 ++ "r"
  else if py_printable c then String c EmptyString
  else chr 92 ++ "x" ++ hex_digit (n / 16) ++ hex_digit (n mod 16).

Fixpoint py_escape (q : ascii) (s : string) : string :=
  match s with
  | EmptyString => EmptyString
  | String c r => py_escape_char q c ++ py_escape q r
  end.

Fixpoint has_char (c : ascii) (s : string) : bool :=
  match s with
  | EmptyString => false
  | String d r => Ascii.eqb c d || has_char c r
  end.

(** [repr(s)]: single quotes, unless [s] has a single quote and no double
    quote. *)
Definition py_repr_str (s : string) : string :=
  let sq := ascii_of_nat 39 in
  let dq := ascii_of_nat 34 in
  let q := if has_char sq s && negb (has_char dq s) then dq else sq in
  String q (py_escape q s ++ String q EmptyString).

(** [repr] and [str] of a value read from sqlite3 ([int], [str], [None]). *)
Definition py_repr_val (v : SqlVal) : string :=
  match v with
  | SNull => "None"
  | SInt z => string_of_Z z
  | SText s => py_repr_str s
  end.

Definition py_str_val (v : SqlVal) : string :=
  match v with
  | SNull => "None"
  | SInt z => string_of_Z z
  | SText s => s
  end.

(** [repr] of a row, a Python tuple: a 1-tuple keeps its trailing comma. *)
Definition py_repr_tuple (r : Row) : string :=
  match r with
  | [v] => "(" ++ py_repr_val v ++ ",)"
  | _ => "(" ++ String.concat ", " (map py_repr_val r) ++ ")"
  end.

(** [repr] (and [str]) of the list [fetchall()] returns. *)
Definition py_repr_rows (rows : list Row) : string :=
  "[" ++ String.concat ", " (map py_repr_tuple rows) ++ "]".

Example py_repr_samples :
  py_repr_rows [[SInt 1; SText "Car"; SText "pending"]; [SInt 2; SText "it's"; SNull]] =
    ("[(1, 'Car', 'pending'), (2, " ++ chr 34 ++ "it's" ++ chr 34 ++ ", None)]")%string /\
  py_repr_tuple [SInt 5] = "(5,)" /\
  py_repr_str ("a" ++ chr 10 ++ chr 92) = ("'a" ++ chr 92 ++ "n" ++ chr 92 ++ chr 92 ++ "'")%string.
Proof. repeat split; reflexivity. Qed.
