(* ===== verification/UpdateClaimStatus.v ===== *)
(** * [Chains/Update_Claim_Status.py]: the claim-status update chain

    [UpdateClaimStatusChain.invoke] is the only code of the repository
    that writes the database.  It asks the language model for a
    [ClaimUpdate] ([ExtractClaimToUpdate]), opens a connection, looks the
    claim up, and only when a row is found runs the UPDATE and commits it
    inside [try/except sqlite3.OperationalError/finally]; then it asks the
    model to phrase the outcome ['success'], ['not_found'] or ['error'].
    A [claim_id] outside the 64-bit range cannot be bound: the lookup at
    line 114 raises [OverflowError], outside any [try].

    The file holds the SQL of the source as [Stmt] values, the chain as a
    [PyM World] program, an abstract specification of its effect on the
    Claims table ([claim_exists], [set_claim_status]) with the refinement
    lemmas that the SQL implements it, and the theorems on every path. *)

From S2P Require Import Prelude Sqlite Schema World.

(** ** The SQL of the chain *)

(** ["SELECT claim_id FROM Claims WHERE claim_id = ?"] *)
Definition select_claim_id_sql : Stmt :=
  SSelect (mkQuery (Some ["claim_id"]) "Claims" (CEq (ECol "claim_id") (EParam 0))).

(** ["UPDATE Claims SET status = ? WHERE claim_id = ?"] *)
Definition update_status_sql : Stmt :=
  SUpdate "Claims" "status" (EParam 0) (CEq (ECol "claim_id") (EParam 1)).

(** The dicts the chain passes to its two prompts. *)
Definition extract_update_vars (ui ch : TVal) : gmap string TVal :=
  <["user_input" := ui]> (<["chat_history" := ch]>
    {[ "format_instructions" := TFormat "ClaimUpdate" ]}).

Definition update_response_vars (ui ch : TVal) (status : string) : gmap string TVal :=
  <["user_input" := ui]> (<["chat_history" := ch]>
    (<["status" := TStr status]>
      {[ "format_instructions" := TFormat "UpdateClaimStatusOutput" ]})).

Section Chain.
Context {llm : LLM}.

  (** [ExtractClaimToUpdate.invoke(inputs)] *)
Definition extract_claim_to_update (inputs : gmap string TVal) : PyM World ClaimUpdate :=
    ui ← py_lift (dict_getitem inputs "user_input");
    ch ← py_lift (dict_getitem inputs "chat_history");
    j ← llm_invoke PExtractUpdate (extract_update_vars ui ch);
    py_lift (parse_ClaimUpdate j).

  (** The [else] branch: the UPDATE and commit, [except
      sqlite3.OperationalError], and the [finally] that closes the cursor
      and the connection.  Its value is [self.status]. *)
Definition update_found_branch (con : nat) (claim_id : Z) (status : string) : PyM World string :=
    py_try_finally
      (py_try_except
         (cursor_execute con update_status_sql [SText status; SInt claim_id];;
          con_commit con;;
          mret "success")
         (fun e => if is_operational_error e
                   then Some (py_print ("Error: " ++ exc_str e);; mret "error")
                   else None))
      (cursor_close con;; con_close con).

  (** [UpdateClaimStatusChain.invoke(user_input, config)].  [self.status]
      is written on every path before it is read, so it is the value
      [status_out] here. *)
Definition update_claim_status_invoke (user_input : gmap string TVal) : PyM World string :=
    claim_info ← extract_claim_to_update user_input;
    let claim_id := cu_claim_id claim_info in
    let status := cu_status claim_info in
    con ← sqlite_connect chains_db_path;
    query_results ← cursor_execute con select_claim_id_sql [SInt claim_id];
    status_out ← (match fetchone query_results with
                  | None => mret "not_found"
                  | Some _ => update_found_branch con claim_id status
                  end);
    ui ← py_lift (dict_getitem user_input "user_input");
    ch ← py_lift (dict_getitem user_input "chat_history");
    response ← llm_invoke PUpdateResponse (update_response_vars ui ch status_out);
    py_lift (parse_Output response).
End Chain.

(** ** Abstract specification of the effect on the Claims table *)

(** The Claims table has an INTEGER [claim_id] column and a TEXT
    [status] column, every row has one field per column, and an INTEGER
    stored in [claim_id] is a 64-bit integer, as every INTEGER SQLite
    stores is. *)
Definition claims_schema (tb : Table) (ci si : nat) : Prop :=
  col_index "claim_id" (t_cols tb) = Some (ci, AInteger) /\
  col_index "status" (t_cols tb) = Some (si, AText) /\
  Forall (fun r => length r = length (t_cols tb)) (t_rows tb) /\
  Forall (fun r => match r !! ci with Some (SInt z) => in_int64 z = true | _ => True end) (t_rows tb).

(** A row is the claim [id] when its [claim_id] field is the integer [id]. *)
Definition is_claim (ci : nat) (id : Z) (r : Row) : bool :=
  bool_decide (r !! ci = Some (SInt id)).

Definition claim_exists (tb : Table) (ci : nat) (id : Z) : bool :=
  existsb (is_claim ci id) (t_rows tb).

(** Every row of claim [id] gets status [s]; the others are unchanged. *)
Definition set_claim_status (tb : Table) (ci si : nat) (id : Z) (s : string) : Table :=
  mkTable (t_cols tb)
    (map (fun r => if is_claim ci id r then <[si := SText s]> r else r) (t_rows tb)).

(** The contract of the update capability (spec 4.4): the status the
    composer is told and the Claims table after the call.  A [claim_id]
    that [sqlite3] cannot bind (outside the 64-bit range) raises
    [OverflowError], and nothing is written. *)
Definition update_contract (tb : Table) (ci si : nat) (cu : ClaimUpdate) : Outcome string * Table :=
  if negb (in_int64 (cu_claim_id cu)) then (Raise overflow_error, tb)
  else if claim_exists tb ci (cu_claim_id cu)
  then (Ok "success", set_claim_status tb ci si (cu_claim_id cu) (cu_status cu))
  else (Ok "not_found", tb).

(** The response the composer's completion parses to. *)
Definition composed {llm : LLM} (ui ch : TVal) (status : string) : Outcome string :=
  out_bind (llm_complete PUpdateResponse (update_response_vars ui ch status)) parse_Output.

(** ** A concrete world: the scenario of spec.md section 8

    Claims 1 and 2 are ['pending']; the model extracts claim [id] with
    status ['approved'] and phrases every outcome as one sentence. *)
Definition demo_claims : Table :=
  mkTable [("claim_id", AInteger); ("policy_id", AInteger); ("user_id", AInteger);
           ("claim_type", AText); ("status", AText)]
          [[SInt 1; SInt 10; SInt 3; SText "Car"; SText "pending"];
           [SInt 2; SInt 11; SInt 4; SText "Health"; SText "pending"]].

Definition demo_db : Db := {[ "Claims" := demo_claims ]}.

Definition demo_world_faults (fs : list (option Exc)) : World :=
  mkWorld {[ chains_db_path := demo_db ]} [] [] fs.

Definition demo_world : World := demo_world_faults [].

Definition demo_inputs (text : string) : gmap string TVal :=
  <["user_input" := TStr text]> {[ "chat_history" := THist [] ]}.

Definition demo_llm (id : Z) : LLM := {|
  llm_complete := fun p _ =>
    match p with
    | PExtractUpdate => Ok (JObj [("claim_id", JInt id); ("status", JStr "approved")])
    | _ => Ok (JObj [("output", JStr "Done.")])
    end;
  llm_text := fun _ _ => Ok "" |}.

(** A model whose extraction does not validate: [claim_id] is not an
    integer. *)
Definition demo_bad_llm : LLM := {|
  llm_complete := fun p _ =>
    match p with
    | PExtractUpdate => Ok (JObj [("claim_id", JStr "two"); ("status", JStr "approved")])
    | _ => Ok (JObj [("output", JStr "Done.")])
    end;
  llm_text := fun _ _ => Ok "" |}.

Definition demo_request (id : Z) : string := "update claim " ++ string_of_Z id ++ " to approved".

(** ** The SQL implements the specification *)

Section Refinement.
Context (tb : Table) (ci si : nat) (Hschema : claims_schema tb ci si).

Lemma claim_id_col : get_col tb "claim_id" = Ok (ci, AInteger).
  Proof. unfold get_col. by rewrite (proj1 Hschema). Qed.

Lemma status_col : get_col tb "status" = Ok (si, AText).
  Proof. unfold get_col. by rewrite (proj1 (proj2 Hschema)). Qed.

  (** A claim that exists has an id [sqlite3] can bind. *)
Lemma claim_exists_in_int64 id : claim_exists tb ci id = true -> in_int64 id = true.
  Proof.
    intros [r [Hr Hc]]%existsb_exists. unfold is_claim in Hc. apply bool_decide_eq_true in Hc.
    destruct Hschema as (_ & _ & _ & Hw). rewrite List.Forall_forall in Hw.
    specialize (Hw r Hr). unfold Row in *. by rewrite Hc in Hw.
  Qed.

  (** [WHERE claim_id = ?] with the integer parameter [id] selects exactly
      the rows of claim [id]: SQLite's affinity rules leave the integer
      unchanged, and NULL or TEXT fields never compare equal to it. *)
Lemma claim_id_eq_matches db ps k id r :
    ps !! k = Some (SInt id) ->
    row_matches db ps tb (CEq (ECol "claim_id") (EParam k)) r = Ok (is_claim ci id r).
  Proof.
    intros Hk. unfold row_matches, is_claim. simpl.
    rewrite claim_id_col, Hk. simpl. f_equal. apply bool_decide_ext.
    transitivity (default SNull (r !! ci) = SInt id).
    - apply sql_eq_int_param.
    - by apply default_null_lookup.
  Qed.
End Refinement.

Section Refinement2.
Context (tb : Table) (ci si : nat) (Hschema : claims_schema tb ci si).

  (** The lookup returns one row [(id,)] per row of claim [id]. *)
Lemma select_claim_id_refines db id :
    db !! "Claims" = Some tb ->
    exec_stmt db select_claim_id_sql [SInt id] =
      Ok (map (fun _ => [SInt id]) (List.filter (is_claim ci id) (t_rows tb)), db).
  Proof.
    intros Htb. unfold exec_stmt, run_query, get_table. simpl. rewrite Htb.
    rewrite (filter_out_total _ (is_claim ci id)); last first.
    { intros r. by apply (claim_id_eq_matches tb ci si Hschema _ _ 0). }
    simpl. rewrite (claim_id_col tb ci si Hschema). simpl. do 2 f_equal.
    apply map_ext_in. intros r Hr. apply List.filter_In in Hr as [_ Hr].
    unfold is_claim in Hr. apply bool_decide_eq_true in Hr. simpl. by rewrite Hr.
  Qed.

Lemma fetchone_select_claim_if id :
    fetchone (map (fun _ => [SInt id]) (List.filter (is_claim ci id) (t_rows tb))) =
    if claim_exists tb ci id then Some [SInt id] else None.
  Proof.
    unfold claim_exists, fetchone. induction (t_rows tb) as [| r rs IH]; simpl; [done |].
    by destruct (is_claim ci id r).
  Qed.

Lemma update_rows_refines db id s w rows :
    (forall r, row_matches db [SText s; SInt id] tb w r = Ok (is_claim ci id r)) ->
    update_rows db [SText s; SInt id] tb si AText (EParam 0) w rows =
      Ok (map (fun r => if is_claim ci id r then <[si := SText s]> r else r) rows).
  Proof.
    intros Hw. induction rows as [| r rs IH]; simpl; [done |].
    rewrite Hw, IH. by destruct (is_claim ci id r).
  Qed.

  (** The UPDATE is [set_claim_status] on the Claims table. *)
Lemma update_status_refines db id s :
    db !! "Claims" = Some tb ->
    exec_stmt db update_status_sql [SText s; SInt id] =
      Ok ([], <["Claims" := set_claim_status tb ci si id s]> db).
  Proof.
    intros Htb. unfold exec_stmt, run_update, get_table. simpl. rewrite Htb.
    rewrite (status_col tb ci si Hschema).
    rewrite (update_rows_refines db id s); [done |].
    intros r. by apply (claim_id_eq_matches tb ci si Hschema _ _ 1).
  Qed.
End Refinement2.

(** The chain's two statements bind the claim id: they bind exactly when
    it is a 64-bit integer. *)
Lemma bind_claim_id id s :
  in_int64 id = true -> bind_error [SInt id] = None /\ bind_error [SText s; SInt id] = None.
Proof. intros H. unfold bind_error. simpl. by rewrite H. Qed.

Lemma bind_claim_id_overflow id : in_int64 id = false -> bind_error [SInt id] = Some overflow_error.
Proof. intros H. unfold bind_error. simpl. by rewrite H. Qed.

(** ** Runs of the chain, path by path

    The hypotheses every run shares: the request dict holds ["user_input"]
    and ["chat_history"], the chains' database file exists and its Claims
    table has the schema of [claims_schema]. *)
Section Runs.
Context {llm : LLM} (inputs : gmap string TVal) (ui ch : TVal) (w : World)
          (db : Db) (tb : Table) (ci si : nat).
Hypothesis Hui : inputs !! "user_input" = Some ui.
Hypothesis Hch : inputs !! "chat_history" = Some ch.
Hypothesis Hfile : w_files w !! chains_db_path = Some db.
Hypothesis Hclaims : db !! "Claims" = Some tb.
Hypothesis Hschema : claims_schema tb ci si.

Local Ltac run_chain :=
    unfold update_claim_status_invoke, extract_claim_to_update, update_found_branch;
    world_run;
    rewrite ?(select_claim_id_refines tb ci si Hschema _ _ Hclaims); world_run;
    rewrite ?fetchone_select_claim_if; rewrite_hyps; world_run;
    rewrite ?(update_status_refines tb ci si Hschema _ _ _ Hclaims); world_run;
    rewrite <- ?app_assoc; simpl.

  (** The connection the chain opens. *)
Let c := length (w_conns w).

Section Extracted.
Context (j : Json) (cu : ClaimUpdate).
Hypothesis Hllm : llm_complete PExtractUpdate (extract_update_vars ui ch) = Ok j.
Hypothesis Hparse : parse_ClaimUpdate j = Ok cu.

    (** Found, no fault: the UPDATE is committed and the connection closed. *)
Lemma update_run_found :
      w_faults w = [] ->
      claim_exists tb ci (cu_claim_id cu) = true ->
      update_claim_status_invoke inputs w =
        (composed ui ch "success",
         mkWorld (<[chains_db_path := <["Claims" := set_claim_status tb ci si
                                                     (cu_claim_id cu) (cu_status cu)]> db]>
                    (w_files w))
                 (w_conns w ++ [mkConn chains_db_path false None])
                 (w_trace w ++ [ELlm PExtractUpdate; EConnect c chains_db_path;
                                EExecute c select_claim_id_sql [SInt (cu_claim_id cu)];
                                EExecute c update_status_sql
                                  [SText (cu_status cu); SInt (cu_claim_id cu)];
                                ECommit c; ECursorClose c; EClose c; ELlm PUpdateResponse])
                 []).
    Proof.
      intros Hf He.
      destruct (bind_claim_id (cu_claim_id cu) (cu_status cu)) as [Hb1 Hb2];
        [exact (claim_exists_in_int64 tb ci si Hschema _ He) |].
      run_chain. unfold composed. by destruct (llm_complete PUpdateResponse _).
    Qed.

    (** Not found, no fault: no UPDATE, and the connection is never closed. *)
Lemma update_run_not_found :
      w_faults w = [] ->
      in_int64 (cu_claim_id cu) = true ->
      claim_exists tb ci (cu_claim_id cu) = false ->
      update_claim_status_invoke inputs w =
        (composed ui ch "not_found",
         mkWorld (w_files w)
                 (w_conns w ++ [mkConn chains_db_path true None])
                 (w_trace w ++ [ELlm PExtractUpdate; EConnect c chains_db_path;
                                EExecute c select_claim_id_sql [SInt (cu_claim_id cu)];
                                ELlm PUpdateResponse])
                 []).
    Proof.
      intros Hf Hi He. destruct (bind_claim_id (cu_claim_id cu) (cu_status cu) Hi) as [Hb1 Hb2].
      run_chain. unfold composed. by destruct (llm_complete PUpdateResponse _).
    Qed.

    (** Found, the UPDATE raises [OperationalError m]: it is printed, the
        status is ['error'], nothing is written, and [finally] closes. *)
Lemma update_run_operational_error m fs :
      w_faults w = None :: Some (OperationalError m) :: fs ->
      claim_exists tb ci (cu_claim_id cu) = true ->
      update_claim_status_invoke inputs w =
        (composed ui ch "error",
         mkWorld (w_files w)
                 (w_conns w ++ [mkConn chains_db_path false None])
                 (w_trace w ++ [ELlm PExtractUpdate; EConnect c chains_db_path;
                                EExecute c select_claim_id_sql [SInt (cu_claim_id cu)];
                                EExecute c update_status_sql
                                  [SText (cu_status cu); SInt (cu_claim_id cu)];
                                EPrint ("Error: " ++ m); ECursorClose c; EClose c;
                                ELlm PUpdateResponse])
                 fs).
    Proof.
      intros Hf He.
      destruct (bind_claim_id (cu_claim_id cu) (cu_status cu)) as [Hb1 Hb2];
        [exact (claim_exists_in_int64 tb ci si Hschema _ He) |].
      run_chain. unfold composed. by destruct (llm_complete PUpdateResponse _).
    Qed.

    (** Found, the UPDATE raises another database error (an
        [IntegrityError], say): it escapes [except OperationalError] and
        propagates, after [finally] has closed the connection. *)
Lemma update_run_other_db_error e fs :
      w_faults w = None :: Some e :: fs ->
      is_operational_error e = false ->
      claim_exists tb ci (cu_claim_id cu) = true ->
      update_claim_status_invoke inputs w =
        (Raise e,
         mkWorld (w_files w)
                 (w_conns w ++ [mkConn chains_db_path false None])
                 (w_trace w ++ [ELlm PExtractUpdate; EConnect c chains_db_path;
                                EExecute c select_claim_id_sql [SInt (cu_claim_id cu)];
                                EExecute c update_status_sql
                                  [SText (cu_status cu); SInt (cu_claim_id cu)];
                                ECursorClose c; EClose c])
                 fs).
    Proof.
      intros Hf Ho He.
      destruct (bind_claim_id (cu_claim_id cu) (cu_status cu)) as [Hb1 Hb2];
        [exact (claim_exists_in_int64 tb ci si Hschema _ He) |].
      by run_chain.
    Qed.

    (** The lookup itself raises (outside any [try]): the exception
        propagates and the connection stays open. *)
Lemma update_run_select_error e fs :
      w_faults w = Some e :: fs ->
      update_claim_status_invoke inputs w =
        (Raise e,
         mkWorld (w_files w)
                 (w_conns w ++ [mkConn chains_db_path true None])
                 (w_trace w ++ [ELlm PExtractUpdate; EConnect c chains_db_path;
                                EExecute c select_claim_id_sql [SInt (cu_claim_id cu)]])
                 fs).
    Proof. intros Hf. by run_chain. Qed.

    (** A [claim_id] outside the 64-bit range: binding the lookup's
        parameter raises [OverflowError] (line 114, outside any [try]);
        it propagates and the connection stays open. *)
Lemma update_run_overflow :
      w_faults w = [] ->
      in_int64 (cu_claim_id cu) = false ->
      update_claim_status_invoke inputs w =
        (Raise overflow_error,
         mkWorld (w_files w)
                 (w_conns w ++ [mkConn chains_db_path true None])
                 (w_trace w ++ [ELlm PExtractUpdate; EConnect c chains_db_path;
                                EExecute c select_claim_id_sql [SInt (cu_claim_id cu)]])
                 []).
    Proof. intros Hf Hi. pose proof (bind_claim_id_overflow _ Hi) as Hb. by run_chain. Qed.

    (** Found, the UPDATE runs and [con.commit()] raises
        [OperationalError m] (a locked file): it is printed, the status is
        ['error'], and [finally] closes the connection, which discards the
        uncommitted UPDATE. *)
Lemma update_run_commit_error m fs :
      w_faults w = None :: None :: Some (OperationalError m) :: fs ->
      claim_exists tb ci (cu_claim_id cu) = true ->
      update_claim_status_invoke inputs w =
        (composed ui ch "error",
         mkWorld (w_files w)
                 (w_conns w ++ [mkConn chains_db_path false None])
                 (w_trace w ++ [ELlm PExtractUpdate; EConnect c chains_db_path;
                                EExecute c select_claim_id_sql [SInt (cu_claim_id cu)];
                                EExecute c update_status_sql
                                  [SText (cu_status cu); SInt (cu_claim_id cu)];
                                ECommit c; EPrint ("Error: " ++ m); ECursorClose c; EClose c;
                                ELlm PUpdateResponse])
                 fs).
    Proof.
      intros Hf He.
      destruct (bind_claim_id (cu_claim_id cu) (cu_status cu)) as [Hb1 Hb2];
        [exact (claim_exists_in_int64 tb ci si Hschema _ He) |].
      run_chain. unfold composed. by destruct (llm_complete PUpdateResponse _).
    Qed.
End Extracted.

  (** The extraction fails (service error, or a completion that does not
      validate as a [ClaimUpdate]): no connection is opened. *)
Lemma update_run_extract_error e :
    out_bind (llm_complete PExtractUpdate (extract_update_vars ui ch)) parse_ClaimUpdate = Raise e ->
    update_claim_status_invoke inputs w =
      (Raise e, mkWorld (w_files w) (w_conns w) (w_trace w ++ [ELlm PExtractUpdate]) (w_faults w)).
  Proof.
    intros He. unfold update_claim_status_invoke, extract_claim_to_update. world_run.
    destruct (llm_complete PExtractUpdate _); simpl in *; [| congruence].
    by rewrite He.
  Qed.
(** ** Properties of the chain *)

(** C1 (refinement). Without database faults, the update chain
    implements its contract: the committed Claims table is the contract's
    table ([set_claim_status] when the claim exists, unchanged otherwise)
    and the composer is told the contract's status ('success' or
    'not_found'); a [claim_id] that [sqlite3] cannot bind (outside the
    64-bit range) raises the contract's [OverflowError] instead, before
    the composer is called, and writes nothing. *)
Theorem update_claim_status_refines_contract (j : Json) (cu : ClaimUpdate) :
  llm_complete PExtractUpdate (extract_update_vars ui ch) = Ok j ->
  parse_ClaimUpdate j = Ok cu ->
  w_faults w = [] ->
  fst (update_claim_status_invoke inputs w) =
    out_bind (fst (update_contract tb ci si cu)) (composed ui ch) /\
  w_files (snd (update_claim_status_invoke inputs w)) !! chains_db_path =
    Some (<["Claims" := snd (update_contract tb ci si cu)]> db).
Proof.
  intros Hj Hp Hf. unfold update_contract.
  destruct (in_int64 (cu_claim_id cu)) eqn:Hi; simpl.
  - destruct (claim_exists tb ci (cu_claim_id cu)) eqn:He.
    + rewrite (update_run_found j cu) by done. simpl. by rewrite lookup_insert_eq.
    + rewrite (update_run_not_found j cu) by done. simpl. by rewrite insert_id.
  - rewrite (update_run_overflow j cu) by done. simpl. by rewrite insert_id.
Qed.

(** C2 (safety). Without faults, the events of one call contain an
    UPDATE statement if and only if the claim exists: the write is
    conditional on the existence check. *)
Theorem update_writes_iff_claim_exists (j : Json) (cu : ClaimUpdate) :
  llm_complete PExtractUpdate (extract_update_vars ui ch) = Ok j ->
  parse_ClaimUpdate j = Ok cu ->
  w_faults w = [] ->
  exists new_events,
    w_trace (snd (update_claim_status_invoke inputs w)) = w_trace w ++ new_events /\
    ((exists c' ps, EExecute c' update_status_sql ps ∈ new_events) <->
     claim_exists tb ci (cu_claim_id cu) = true).
Proof.
  intros Hj Hp Hf. destruct (claim_exists tb ci (cu_claim_id cu)) eqn:He.
  - rewrite (update_run_found j cu) by done. eexists. split; [done |].
    split; [done | intros _]. do 2 eexists. rewrite list_elem_of_In. simpl. tauto.
  - destruct (in_int64 (cu_claim_id cu)) eqn:Hi;
      [rewrite (update_run_not_found j cu) by done | rewrite (update_run_overflow j cu) by done];
      eexists; (split; [done |]); (split; [| done]); intros (c' & ps & Hin);
      rewrite list_elem_of_In in Hin; simpl in Hin;
      unfold select_claim_id_sql, update_status_sql in Hin; intuition congruence.
Qed.

(** C3 (error). When the UPDATE raises [sqlite3.OperationalError], the
    chain reports 'error' to the composer, the file is unchanged, and the
    connection is closed by [finally]. *)
Theorem update_operational_error_reports_error (j : Json) (cu : ClaimUpdate) m fs :
  llm_complete PExtractUpdate (extract_update_vars ui ch) = Ok j ->
  parse_ClaimUpdate j = Ok cu ->
  w_faults w = None :: Some (OperationalError m) :: fs ->
  claim_exists tb ci (cu_claim_id cu) = true ->
  fst (update_claim_status_invoke inputs w) = composed ui ch "error" /\
  w_files (snd (update_claim_status_invoke inputs w)) = w_files w /\
  w_conns (snd (update_claim_status_invoke inputs w)) !! length (w_conns w) =
    Some (mkConn chains_db_path false None).
Proof.
  intros Hj Hp Hf He. rewrite (update_run_operational_error j cu Hj Hp m fs) by done.
  simpl. by rewrite lookup_snoc_length.
Qed.

(** C4 (error). When [con.commit()] raises [sqlite3.OperationalError]
    after the UPDATE ran, the chain reports 'error' to the composer, the
    file keeps its contents (closing the connection in [finally] discards
    the uncommitted UPDATE), and the connection is closed. *)
Theorem update_commit_error_discards_update (j : Json) (cu : ClaimUpdate) m fs :
  llm_complete PExtractUpdate (extract_update_vars ui ch) = Ok j ->
  parse_ClaimUpdate j = Ok cu ->
  w_faults w = None :: None :: Some (OperationalError m) :: fs ->
  claim_exists tb ci (cu_claim_id cu) = true ->
  fst (update_claim_status_invoke inputs w) = composed ui ch "error" /\
  w_files (snd (update_claim_status_invoke inputs w)) = w_files w /\
  w_conns (snd (update_claim_status_invoke inputs w)) !! length (w_conns w) =
    Some (mkConn chains_db_path false None).
Proof.
  intros Hj Hp Hf He. rewrite (update_run_commit_error j cu Hj Hp m fs) by done.
  simpl. by rewrite lookup_snoc_length.
Qed.

(** C5 (error). Any other database error raised by the UPDATE is not
    caught: it propagates out of the chain, nothing is committed, and the
    connection is closed on the way out. *)
Theorem update_db_error_propagates (j : Json) (cu : ClaimUpdate) e fs :
  llm_complete PExtractUpdate (extract_update_vars ui ch) = Ok j ->
  parse_ClaimUpdate j = Ok cu ->
  w_faults w = None :: Some e :: fs ->
  is_operational_error e = false ->
  claim_exists tb ci (cu_claim_id cu) = true ->
  fst (update_claim_status_invoke inputs w) = Raise e /\
  w_files (snd (update_claim_status_invoke inputs w)) = w_files w /\
  w_conns (snd (update_claim_status_invoke inputs w)) !! length (w_conns w) =
    Some (mkConn chains_db_path false None).
Proof.
  intros Hj Hp Hf Ho He. rewrite (update_run_other_db_error j cu Hj Hp e fs) by done.
  simpl. by rewrite lookup_snoc_length.
Qed.

(** C6 (safety, divergence from spec 4.4). When the claim is not found,
    the chain returns with its connection still open: [con.close()] is
    only in the [finally] of the found branch. *)
Theorem update_not_found_leaves_connection_open (j : Json) (cu : ClaimUpdate) :
  llm_complete PExtractUpdate (extract_update_vars ui ch) = Ok j ->
  parse_ClaimUpdate j = Ok cu ->
  w_faults w = [] ->
  claim_exists tb ci (cu_claim_id cu) = false ->
  w_conns (snd (update_claim_status_invoke inputs w)) !! length (w_conns w) =
    Some (mkConn chains_db_path true None).
Proof.
  intros Hj Hp Hf He. destruct (in_int64 (cu_claim_id cu)) eqn:Hi;
    [rewrite (update_run_not_found j cu) by done | rewrite (update_run_overflow j cu) by done];
    simpl; by rewrite lookup_snoc_length.
Qed.

(** C8 (error). A database error raised by the existence check (a missing
    Claims table, a locked file) is outside any [try]: it propagates out of
    the chain, and the connection stays open. *)
Theorem update_select_error_propagates (j : Json) (cu : ClaimUpdate) e fs :
  llm_complete PExtractUpdate (extract_update_vars ui ch) = Ok j ->
  parse_ClaimUpdate j = Ok cu ->
  w_faults w = Some e :: fs ->
  fst (update_claim_status_invoke inputs w) = Raise e /\
  w_conns (snd (update_claim_status_invoke inputs w)) !! length (w_conns w) =
    Some (mkConn chains_db_path true None).
Proof.
  intros Hj Hp Hf. rewrite (update_run_select_error j cu Hj Hp e fs) by done.
  simpl. by rewrite lookup_snoc_length.
Qed.

(** C7 (error). When extraction fails (the service raises, or the
    completion is not a valid [ClaimUpdate]), the chain raises before any
    connection is opened: no statement is executed on a value that did
    not validate. *)
Theorem update_extract_error_no_database e :
  out_bind (llm_complete PExtractUpdate (extract_update_vars ui ch)) parse_ClaimUpdate = Raise e ->
  fst (update_claim_status_invoke inputs w) = Raise e /\
  w_conns (snd (update_claim_status_invoke inputs w)) = w_conns w /\
  w_files (snd (update_claim_status_invoke inputs w)) = w_files w.
Proof. intros He. by rewrite (update_run_extract_error e). Qed.
End Runs.

(** ** Witnesses: the theorems at the concrete world *)

Lemma demo_claims_schema : claims_schema demo_claims 0 4.
Proof. split; [reflexivity | split; [reflexivity | repeat constructor]]. Qed.

Ltac demo_hyps := first [ reflexivity | apply demo_claims_schema ].

(** Spec scenario: "update claim 2 to approved" with claim 2 pending;
    and a claim id of [2^63], which [sqlite3] cannot bind. *)
Lemma update_claim_status_refines_contract_witness :
  (fst (update_claim_status_invoke (llm := demo_llm 2) (demo_inputs (demo_request 2)) demo_world) =
     composed (llm := demo_llm 2) (TStr (demo_request 2)) (THist []) "success" /\
   w_files (snd (update_claim_status_invoke (llm := demo_llm 2) (demo_inputs (demo_request 2)) demo_world))
     !! chains_db_path = Some (<["Claims" := set_claim_status demo_claims 0 4 2 "approved"]> demo_db)) /\
  (fst (update_claim_status_invoke (llm := demo_llm (2 ^ 63)) (demo_inputs (demo_request (2 ^ 63))) demo_world) =
     Raise overflow_error /\
   w_files (snd (update_claim_status_invoke (llm := demo_llm (2 ^ 63)) (demo_inputs (demo_request (2 ^ 63)))
                   demo_world)) !! chains_db_path = Some demo_db).
Proof.
  split.
  - apply (update_claim_status_refines_contract (llm := demo_llm 2) (demo_inputs (demo_request 2))
             (TStr (demo_request 2)) (THist []) demo_world demo_db demo_claims 0 4
             ltac:(demo_hyps) ltac:(demo_hyps) ltac:(demo_hyps) ltac:(demo_hyps) ltac:(demo_hyps)
             (JObj [("claim_id", JInt 2); ("status", JStr "approved")]) (mkClaimUpdate 2 "approved"));
      demo_hyps.
  - apply (update_claim_status_refines_contract (llm := demo_llm (2 ^ 63)) (demo_inputs (demo_request (2 ^ 63)))
             (TStr (demo_request (2 ^ 63))) (THist []) demo_world demo_db demo_claims 0 4
             ltac:(demo_hyps) ltac:(demo_hyps) ltac:(demo_hyps) ltac:(demo_hyps) ltac:(demo_hyps)
             (JObj [("claim_id", JInt (2 ^ 63)); ("status", JStr "approved")])
             (mkClaimUpdate (2 ^ 63) "approved"));
      demo_hyps.
Defined.

(** Spec scenario: "update claim 999 to approved", claim 999 absent. *)
Lemma update_writes_iff_claim_exists_witness :
  exists new_events,
    w_trace (snd (update_claim_status_invoke (llm := demo_llm 999) (demo_inputs (demo_request 999)) demo_world)) =
      w_trace demo_world ++ new_events /\
    ((exists c' ps, EExecute c' update_status_sql ps ∈ new_events) <->
     claim_exists demo_claims 0 999 = true).
Proof.
  apply (update_writes_iff_claim_exists (llm := demo_llm 999) (demo_inputs (demo_request 999))
           (TStr (demo_request 999)) (THist []) demo_world demo_db demo_claims 0 4
           ltac:(demo_hyps) ltac:(demo_hyps) ltac:(demo_hyps) ltac:(demo_hyps) ltac:(demo_hyps)
           (JObj [("claim_id", JInt 999); ("status", JStr "approved")]) (mkClaimUpdate 999 "approved"));
    demo_hyps.
Defined.

Lemma update_operational_error_reports_error_witness :
  let w := demo_world_faults [None; Some (OperationalError "database is locked")] in
  fst (update_claim_status_invoke (llm := demo_llm 2) (demo_inputs (demo_request 2)) w) =
    composed (llm := demo_llm 2) (TStr (demo_request 2)) (THist []) "error" /\
  w_files (snd (update_claim_status_invoke (llm := demo_llm 2) (demo_inputs (demo_request 2)) w)) = w_files w /\
  w_conns (snd (update_claim_status_invoke (llm := demo_llm 2) (demo_inputs (demo_request 2)) w)) !! length (w_conns w) =
    Some (mkConn chains_db_path false None).
Proof.
  apply (update_operational_error_reports_error (llm := demo_llm 2) (demo_inputs (demo_request 2))
           (TStr (demo_request 2)) (THist [])
           (demo_world_faults [None; Some (OperationalError "database is locked")])
           demo_db demo_claims 0 4
           ltac:(demo_hyps) ltac:(demo_hyps) ltac:(demo_hyps) ltac:(demo_hyps) ltac:(demo_hyps)
           (JObj [("claim_id", JInt 2); ("status", JStr "approved")]) (mkClaimUpdate 2 "approved")
           "database is locked" []); demo_hyps.
Defined.

Lemma update_db_error_propagates_witness :
  let w := demo_world_faults [None; Some (IntegrityError "constraint failed")] in
  fst (update_claim_status_invoke (llm := demo_llm 2) (demo_inputs (demo_request 2)) w) =
    Raise (IntegrityError "constraint failed") /\
  w_files (snd (update_claim_status_invoke (llm := demo_llm 2) (demo_inputs (demo_request 2)) w)) = w_files w /\
  w_conns (snd (update_claim_status_invoke (llm := demo_llm 2) (demo_inputs (demo_request 2)) w)) !! length (w_conns w) =
    Some (mkConn chains_db_path false None).
Proof.
  apply (update_db_error_propagates (llm := demo_llm 2) (demo_inputs (demo_request 2))
           (TStr (demo_request 2)) (THist [])
           (demo_world_faults [None; Some (IntegrityError "constraint failed")])
           demo_db demo_claims 0 4
           ltac:(demo_hyps) ltac:(demo_hyps) ltac:(demo_hyps) ltac:(demo_hyps) ltac:(demo_hyps)
           (JObj [("claim_id", JInt 2); ("status", JStr "approved")]) (mkClaimUpdate 2 "approved")
           (IntegrityError "constraint failed") []); demo_hyps.
Defined.

Lemma update_not_found_leaves_connection_open_witness :
  w_conns (snd (update_claim_status_invoke (llm := demo_llm 999) (demo_inputs (demo_request 999)) demo_world))
    !! 0 = Some (mkConn chains_db_path true None).
Proof.
  apply (update_not_found_leaves_connection_open (llm := demo_llm 999) (demo_inputs (demo_request 999))
           (TStr (demo_request 999)) (THist []) demo_world demo_db demo_claims 0 4
           ltac:(demo_hyps) ltac:(demo_hyps) ltac:(demo_hyps) ltac:(demo_hyps) ltac:(demo_hyps)
           (JObj [("claim_id", JInt 999); ("status", JStr "approved")]) (mkClaimUpdate 999 "approved"));
    demo_hyps.
Defined.

Lemma update_extract_error_no_database_witness :
  fst (update_claim_status_invoke (llm := demo_bad_llm) (demo_inputs (demo_request 2)) demo_world) =
    Raise (validation_error "claim_id" "Input should be a valid integer") /\
  w_conns (snd (update_claim_status_invoke (llm := demo_bad_llm) (demo_inputs (demo_request 2)) demo_world)) =
    w_conns demo_world /\
  w_files (snd (update_claim_status_invoke (llm := demo_bad_llm) (demo_inputs (demo_request 2)) demo_world)) =
    w_files demo_world.
Proof.
  apply (update_extract_error_no_database (llm := demo_bad_llm) (demo_inputs (demo_request 2))
           (TStr (demo_request 2)) (THist []) demo_world
           ltac:(demo_hyps) ltac:(demo_hyps)); demo_hyps.
Defined.


Lemma update_select_error_propagates_witness :
  let w := demo_world_faults [Some (OperationalError "no such table: Claims")] in
  fst (update_claim_status_invoke (llm := demo_llm 2) (demo_inputs (demo_request 2)) w) =
    Raise (OperationalError "no such table: Claims") /\
  w_conns (snd (update_claim_status_invoke (llm := demo_llm 2) (demo_inputs (demo_request 2)) w))
    !! length (w_conns w) = Some (mkConn chains_db_path true None).
Proof. intros w. eapply (update_select_error_propagates (llm := demo_llm 2)); demo_hyps. Defined.

Lemma update_commit_error_discards_update_witness :
  let w := demo_world_faults [None; None; Some (OperationalError "database is locked")] in
  fst (update_claim_status_invoke (llm := demo_llm 2) (demo_inputs (demo_request 2)) w) =
    composed (llm := demo_llm 2) (TStr (demo_request 2)) (THist []) "error" /\
  w_files (snd (update_claim_status_invoke (llm := demo_llm 2) (demo_inputs (demo_request 2)) w)) = w_files w /\
  w_conns (snd (update_claim_status_invoke (llm := demo_llm 2) (demo_inputs (demo_request 2)) w))
    !! length (w_conns w) = Some (mkConn chains_db_path false None).
Proof. intros w. eapply (update_commit_error_discards_update (llm := demo_llm 2)); demo_hyps. Defined.
