(* ===== verification/ClaimInfo.v ===== *)
(** * [Chains/Get_Claim_Info.py]: the claim lookup chain

    [GetClaimInfoChain.invoke] opens a connection, asks the model for a
    [ClaimQueryType] ([ExtractClaimQuery]), and dispatches on its
    [query_type] with a closed [if/elif] chain over ['claim_status'],
    ['claims_by_client'], ['claims_by_policy'] and ['claim_details']; any
    other value gives ["Invalid query type."].  Every exception of the
    [try] becomes the status [f"Error: {e}"].  The status is then phrased
    by the model.  The chain never commits, and never closes its
    connection. *)

From S2P Require Import Prelude Sqlite Schema World PyRepr.

(** ** The SQL of the chain *)

(** ["SELECT status FROM Claims WHERE claim_id = ?"] *)
Definition claim_status_sql : Stmt :=
  SSelect (mkQuery (Some ["status"]) "Claims" (CEq (ECol "claim_id") (EParam 0))).

(** ["SELECT claim_id, claim_type, status FROM Claims WHERE user_id =
      (SELECT client_id FROM Clients WHERE name = ? OR client_id = ?)"] *)
Definition claims_by_client_sql : Stmt :=
  SSelect (mkQuery (Some ["claim_id"; "claim_type"; "status"]) "Claims"
    (CEq (ECol "user_id")
         (ESub "client_id" "Clients"
               (COr (CEq (ECol "name") (EParam 0)) (CEq (ECol "client_id") (EParam 1)))))).

(** ["SELECT claim_id, claim_type, status FROM Claims WHERE policy_id = ?"] *)
Definition claims_by_policy_sql : Stmt :=
  SSelect (mkQuery (Some ["claim_id"; "claim_type"; "status"]) "Claims"
    (CEq (ECol "policy_id") (EParam 0))).

(** ["SELECT * FROM Claims WHERE claim_id = ?"] *)
Definition claim_details_sql : Stmt :=
  SSelect (mkQuery None "Claims" (CEq (ECol "claim_id") (EParam 0))).

Definition extract_claim_vars (ui ch : TVal) : gmap string TVal :=
  <["user_input" := ui]> (<["chat_history" := ch]>
    {[ "format_instructions" := TFormat "ClaimQueryType" ]}).

Definition claim_response_vars (ui ch : TVal) (status : string) : gmap string TVal :=
  <["user_input" := ui]> (<["chat_history" := ch]>
    (<["status" := TStr status]>
      {[ "format_instructions" := TFormat "GetClaimInfoOutput" ]})).

(** [if results:] on what [fetchall()] returned. *)
Definition rows_truthy (rows : list Row) : bool :=
  match rows with [] => false | _ => true end.

Section Chain.
Context {llm : LLM}.

(** [ExtractClaimQuery.invoke(inputs)] *)
Definition extract_claim_query (inputs : gmap string TVal) : PyM World ClaimQueryType :=
  ui ← py_lift (dict_getitem inputs "user_input");
  ch ← py_lift (dict_getitem inputs "chat_history");
  j ← llm_invoke PExtractClaim (extract_claim_vars ui ch);
  py_lift (parse_ClaimQueryType j).

(** The [if/elif] chain on [query_type]; its value is [self.status].
    [if result:] holds for a non-empty tuple, whose [result[0]] is its
    first field. *)
Definition claim_query_branch (con : nat) (query_info : ClaimQueryType) : PyM World string :=
  let query_type := cq_query_type query_info in
  let value := cq_value query_info in
  if String.eqb query_type "claim_status" then
    rows ← cursor_execute con claim_status_sql [SText value];
    match fetchone rows with
    | Some (v :: _) => mret ("The status of claim " ++ value ++ " is: " ++ py_str_val v)%string
    | _ => mret ("Claim " ++ value ++ " not found in the database.")%string
    end
  else if String.eqb query_type "claims_by_client" then
    results ← cursor_execute con claims_by_client_sql [SText value; SText value];
    if rows_truthy results
    then mret ("Claims for client '" ++ value ++ "': " ++ py_repr_rows results)%string
    else mret ("No claims found for client '" ++ value ++ "'.")%string
  else if String.eqb query_type "claims_by_policy" then
    results ← cursor_execute con claims_by_policy_sql [SText value];
    if rows_truthy results
    then mret ("Claims for policy " ++ value ++ ": " ++ py_repr_rows results)%string
    else mret ("No claims found for policy " ++ value ++ ".")%string
  else if String.eqb query_type "claim_details" then
    rows ← cursor_execute con claim_details_sql [SText value];
    match fetchone rows with
    | Some (r :: rs) =>
        mret ("Claim details for claim_id " ++ value ++ ": " ++ py_repr_tuple (r :: rs))%string
    | _ => mret ("No details found for claim " ++ value ++ ".")%string
    end
  else mret "Invalid query type.".

(** [GetClaimInfoChain.invoke(user_input, config)] *)
Definition get_claim_info_invoke (user_input : gmap string TVal) : PyM World string :=
  con ← sqlite_connect chains_db_path;
  status ← py_try_except
             (query_info ← extract_claim_query user_input;
              claim_query_branch con query_info)
             (fun e => Some (mret ("Error: " ++ exc_str e)%string));
  ui ← py_lift (dict_getitem user_input "user_input");
  ch ← py_lift (dict_getitem user_input "chat_history");
  response ← llm_invoke PClaimResponse (claim_response_vars ui ch status);
  py_lift (parse_Output response).
End Chain.

(** ** Specification-side definitions *)

(** The values of [query_type] the [if/elif] chain tests. *)
Definition claim_query_types : list string :=
  ["claim_status"; "claims_by_client"; "claims_by_policy"; "claim_details"].

(** The response the composer's completion parses to. *)
Definition claim_composed {llm : LLM} (ui ch : TVal) (status : string) : Outcome string :=
  out_bind (llm_complete PClaimResponse (claim_response_vars ui ch status)) parse_Output.

(** The Claims columns the policy query reads: [policy_id] is INTEGER. *)
Definition claims_policy_schema (tb : Table) (pi ci ti si : nat) : Prop :=
  get_col tb "policy_id" = Ok (pi, AInteger) /\ get_col tb "claim_id" = Ok (ci, AInteger) /\
  get_col tb "claim_type" = Ok (ti, AText) /\ get_col tb "status" = Ok (si, AText).

(** The rows of policy [value]: those whose [policy_id] is an integer
    the text [value] denotes as a number (["10"], [" 10 "], ["10.0"] and
    ["1e1"] all denote 10), or, when [value] is not a number, holds that
    very text. *)
Definition policy_rows (tb : Table) (pi ci ti si : nat) (value : string) : list Row :=
  map (project [ci; ti; si]) (List.filter (fun r => int_field_matches (r !! pi) value) (t_rows tb)).

(** The Clients table has a TEXT [name] and an INTEGER [client_id]. *)
Definition clients_schema (clients : Table) (ni cci : nat) : Prop :=
  get_col clients "name" = Ok (ni, AText) /\ get_col clients "client_id" = Ok (cci, AInteger).

Definition claims_client_schema (tb : Table) (ui ci ti si : nat) : Prop :=
  get_col tb "user_id" = Ok (ui, AInteger) /\ get_col tb "claim_id" = Ok (ci, AInteger) /\
  get_col tb "claim_type" = Ok (ti, AText) /\ get_col tb "status" = Ok (si, AText).

(** A row of Clients a ['claims_by_client'] value designates: its name
    is the value, or its [client_id] is an integer the value denotes. *)
Definition client_match (ni cci : nat) (value : string) (r : Row) : bool :=
  bool_decide (r !! ni = Some (SText value)) || int_field_matches (r !! cci) value.

(** The [client_id] of the one client the value designates; NULL when no
    client matches.  (When several do, the scalar subquery returns the
    first one SQLite's plan for the OR visits, which the SQL does not
    fix; the key is then left NULL here and no theorem uses it.) *)
Definition client_key (clients : Table) (ni cci : nat) (value : string) : SqlVal :=
  match List.filter (client_match ni cci value) (t_rows clients) with
  | [r] => default SNull (r !! cci)
  | _ => SNull
  end.

(** The claims of the user [key], projected on (claim_id, claim_type,
    status); none for a NULL key. *)
Definition client_rows (tb : Table) (ui ci ti si : nat) (key : SqlVal) : list Row :=
  map (project [ci; ti; si])
      (List.filter (fun r => bool_decide (key <> SNull /\ r !! ui = Some key)) (t_rows tb)).

(** ** A concrete world *)
Definition demo_claims_table : Table :=
  mkTable [("claim_id", AInteger); ("policy_id", AInteger); ("user_id", AInteger);
           ("claim_type", AText); ("status", AText)]
          [[SInt 1; SInt 10; SInt 3; SText "Car"; SText "pending"];
           [SInt 2; SInt 11; SInt 4; SText "Health"; SText "approved"];
           [SInt 3; SInt 10; SInt 3; SText "Car"; SText "rejected"]].

Definition demo_clients_table : Table :=
  mkTable [("client_id", AInteger); ("name", AText)] [[SInt 3; SText "Ana"]; [SInt 4; SText "Rui"]].

Definition demo_claim_db : Db :=
  <["Claims" := demo_claims_table]> {[ "Clients" := demo_clients_table ]}.

Definition demo_claim_world (fs : list (option Exc)) : World :=
  mkWorld {[ chains_db_path := demo_claim_db ]} [] [] fs.

Definition demo_claim_inputs : gmap string TVal :=
  <["user_input" := TStr "show me the claims"]> {[ "chat_history" := THist [] ]}.

(** A model that extracts [(query_type, value)] and answers "Done.". *)
Definition demo_claim_llm (qt value : string) : LLM := {|
  llm_complete := fun p _ =>
    match p with
    | PExtractClaim => Ok (JObj [("query_type", JStr qt); ("value", JStr value)])
    | _ => Ok (JObj [("output", JStr "Done.")])
    end;
  llm_text := fun _ _ => Ok "" |}.

(** ** Invariants of the chain *)

(** C9 (invariant). The claim lookup chain is read-only: for every
    request, model and world, every database file that exists keeps its
    contents (it executes SELECTs only and never commits). *)
Theorem get_claim_info_read_only {llm : LLM} (inputs : gmap string TVal) :
  preserves files_kept (get_claim_info_invoke inputs).
Proof.
  unfold get_claim_info_invoke, extract_claim_query, claim_query_branch. cbv zeta.
  solve_preserves.
Qed.

(** C10 (safety, divergence from spec 4.4). The claim lookup chain never
    closes the connection it opens, on any path. *)
Theorem get_claim_info_never_closes {llm : LLM} (inputs : gmap string TVal) :
  preserves (trace_only (fun e => forall c, e <> EClose c)) (get_claim_info_invoke inputs).
Proof.
  unfold get_claim_info_invoke, extract_claim_query, claim_query_branch. cbv zeta.
  solve_preserves.
Qed.

(** The subquery's condition on a row of Clients. *)
Lemma client_match_row db v clients ni cci r :
  get_col clients "name" = Ok (ni, AText) -> get_col clients "client_id" = Ok (cci, AInteger) ->
  row_matches db [SText v; SText v] clients
    (COr (CEq (ECol "name") (EParam 0)) (CEq (ECol "client_id") (EParam 1))) r =
  Ok (client_match ni cci v r).
Proof.
  intros Hn Hc. apply row_matches_or; [by apply text_col_eq_param | by apply int_col_eq_text].
Qed.

(** C33 (equivalence): when at most one row of Clients has the value
    as its name or as its [client_id] (the case where the result does not
    depend on the order SQLite scans Clients in), the ['claims_by_client']
    statement, whose [WHERE user_id = (SELECT client_id FROM Clients
    WHERE name = ? OR client_id = ?)] is a scalar subquery, returns
    exactly the claims of that client, projected on (claim_id,
    claim_type, status) in table order, and no claim when no client
    matches. *)
Theorem claims_by_client_unique_match db tb clients ui ci ti si ni cci v :
  db !! "Claims" = Some tb -> db !! "Clients" = Some clients ->
  claims_client_schema tb ui ci ti si -> clients_schema clients ni cci ->
  length (List.filter (client_match ni cci v) (t_rows clients)) <= 1 ->
  exec_stmt db claims_by_client_sql [SText v; SText v] =
    Ok (client_rows tb ui ci ti si (client_key clients ni cci v), db).
Proof.
  intros Ht Hc (Hu & Hci & Hti & Hsi) (Hn & Hcc) H1.
  apply exec_select_filter; [done | | by simpl; rewrite Hci, Hti, Hsi].
  intros r. unfold row_matches. cbn [eval_cond eval_expr]. rewrite Hu.
  unfold get_table. rewrite Hc.
  rewrite (filter_out_total _ (client_match ni cci v)).
  2: { intros r'. exact (client_match_row db v clients ni cci r' Hn Hcc). }
  rewrite Hcc. unfold client_key.
  destruct (List.filter (client_match ni cci v) (t_rows clients)) as [| r' [| r'' rs]];
    simpl in H1; [| | lia]; f_equal; apply bool_decide_ext; rewrite sql_eq_int_int.
  - split; [by intros [_ ?] | by intros [? _]].
  - split; intros [H2 H3]; split; try done; by apply default_null_lookup.
Qed.

(** A witness of C33 on the demo database: the value "Ana" designates
    client 3 only, whose claims 1 and 3 come back in table order; the
    value "4.0" designates client 4 by its id. *)
Lemma claims_by_client_unique_match_witness :
  exec_stmt demo_claim_db claims_by_client_sql [SText "Ana"; SText "Ana"] =
    Ok (client_rows demo_claims_table 2 0 3 4 (client_key demo_clients_table 1 0 "Ana"),
        demo_claim_db) /\
  client_rows demo_claims_table 2 0 3 4 (client_key demo_clients_table 1 0 "Ana") =
    [[SInt 1; SText "Car"; SText "pending"]; [SInt 3; SText "Car"; SText "rejected"]] /\
  client_rows demo_claims_table 2 0 3 4 (client_key demo_clients_table 1 0 "4.0") =
    [[SInt 2; SText "Health"; SText "approved"]].
Proof.
  split; [| split; reflexivity].
  apply (claims_by_client_unique_match demo_claim_db demo_claims_table demo_clients_table
           2 0 3 4 1 0 "Ana"); try reflexivity; repeat split; reflexivity.
Defined.

(** ** Runs of the chain *)
Section Runs.
Context {llm : LLM} (inputs : gmap string TVal) (ui ch : TVal) (w : World) (db : Db).
Hypothesis Hui : inputs !! "user_input" = Some ui.
Hypothesis Hch : inputs !! "chat_history" = Some ch.
Hypothesis Hfile : w_files w !! chains_db_path = Some db.
Context (j : Json) (q : ClaimQueryType).
Hypothesis Hllm : llm_complete PExtractClaim (extract_claim_vars ui ch) = Ok j.
Hypothesis Hparse : parse_ClaimQueryType j = Ok q.

Local Ltac run_claim :=
  unfold get_claim_info_invoke, extract_claim_query, claim_query_branch;
  world_run; rewrite <- ?app_assoc; simpl.

Lemma claim_run_invalid :
  cq_query_type q ∉ claim_query_types ->
  get_claim_info_invoke inputs w =
    (claim_composed ui ch "Invalid query type.",
     mkWorld (w_files w) (w_conns w ++ [mkConn chains_db_path true None])
             (w_trace w ++ [EConnect (length (w_conns w)) chains_db_path;
                            ELlm PExtractClaim; ELlm PClaimResponse])
             (w_faults w)).
Proof.
  intros Hq. unfold claim_query_types in Hq.
  assert ((cq_query_type q =? "claim_status")%string = false) by (apply String.eqb_neq; set_solver).
  assert ((cq_query_type q =? "claims_by_client")%string = false) by (apply String.eqb_neq; set_solver).
  assert ((cq_query_type q =? "claims_by_policy")%string = false) by (apply String.eqb_neq; set_solver).
  assert ((cq_query_type q =? "claim_details")%string = false) by (apply String.eqb_neq; set_solver).
  run_claim. unfold claim_composed. by destruct (llm_complete PClaimResponse _).
Qed.

Lemma claim_run_status_fault e fs :
  cq_query_type q = "claim_status" ->
  w_faults w = Some e :: fs ->
  get_claim_info_invoke inputs w =
    (claim_composed ui ch ("Error: " ++ exc_str e),
     mkWorld (w_files w) (w_conns w ++ [mkConn chains_db_path true None])
             (w_trace w ++ [EConnect (length (w_conns w)) chains_db_path; ELlm PExtractClaim;
                            EExecute (length (w_conns w)) claim_status_sql [SText (cq_value q)];
                            ELlm PClaimResponse])
             fs).
Proof.
  intros Hq Hf. run_claim. unfold claim_composed. by destruct (llm_complete PClaimResponse _).
Qed.

(** C13 (functional). A ['claims_by_policy'] query lists every row of
    Claims whose [policy_id] equals the extracted value, a TEXT parameter
    that SQLite converts by numeric affinity before comparing it with the
    INTEGER column (so ["10"], ["10.0"] and ["1e1"] all select policy 10),
    projected on (claim_id, claim_type, status), whatever [num_results]
    says; with no row it reports that none was found. *)
Theorem claims_by_policy_lists_all_rows tb pi ci ti si :
  db !! "Claims" = Some tb ->
  claims_policy_schema tb pi ci ti si ->
  cq_query_type q = "claims_by_policy" ->
  w_faults w = [] ->
  fst (get_claim_info_invoke inputs w) =
    claim_composed ui ch
      (let rows := policy_rows tb pi ci ti si (cq_value q) in
       if rows_truthy rows
       then "Claims for policy " ++ cq_value q ++ ": " ++ py_repr_rows rows
       else "No claims found for policy " ++ cq_value q ++ ".").
Proof.
  intros Htb (Hp & Hc & Ht & Hs) Hq Hf. run_claim. unfold claims_by_policy_sql.
  rewrite (exec_select_filter _ _ _ _ _ tb [ci; ti; si]
             (fun r => int_field_matches (r !! pi) (cq_value q)));
    [| done | intros r; by apply int_col_eq_text | by simpl; rewrite Hc, Ht, Hs].
  simpl. unfold policy_rows, claim_composed.
  by destruct (rows_truthy _); destruct (llm_complete PClaimResponse _).
Qed.

(** C11 (error). A [query_type] outside the four the chain tests (spec
    section 8: a malformed extraction such as 'claim_history') gives the
    status "Invalid query type." and executes no SQL statement. *)
Theorem claim_invalid_query_type_no_sql :
  cq_query_type q ∉ claim_query_types ->
  fst (get_claim_info_invoke inputs w) = claim_composed ui ch "Invalid query type." /\
  exists new_events,
    w_trace (snd (get_claim_info_invoke inputs w)) = w_trace w ++ new_events /\
    forall c st ps, EExecute c st ps ∉ new_events.
Proof.
  intros Hq. rewrite claim_run_invalid by done. split; [done |].
  eexists. split; [done |]. intros c st ps Hin.
  rewrite list_elem_of_In in Hin. simpl in Hin. intuition congruence.
Qed.

(** C12 (error, divergence from spec 4.4 and 7). A database error of
    the lookup is caught by [except Exception] and its text is handed
    verbatim to the composer as "Error: <exception text>". *)
Theorem claim_db_error_echoed e fs :
  cq_query_type q = "claim_status" ->
  w_faults w = Some e :: fs ->
  fst (get_claim_info_invoke inputs w) = claim_composed ui ch ("Error: " ++ exc_str e).
Proof. intros Hq Hf. by rewrite (claim_run_status_fault e fs). Qed.
End Runs.

(** ** Witnesses *)

Ltac demo_claim_hyps := first [ reflexivity | set_solver | split ].

(** Spec scenario: the model returns the query type 'claim_history'. *)
Lemma claim_invalid_query_type_no_sql_witness :
  fst (get_claim_info_invoke (llm := demo_claim_llm "claim_history" "5") demo_claim_inputs (demo_claim_world [])) =
    claim_composed (llm := demo_claim_llm "claim_history" "5")
      (TStr "show me the claims") (THist []) "Invalid query type." /\
  exists new_events,
    w_trace (snd (get_claim_info_invoke (llm := demo_claim_llm "claim_history" "5")
                    demo_claim_inputs (demo_claim_world []))) = w_trace (demo_claim_world []) ++ new_events /\
    forall c st ps, EExecute c st ps ∉ new_events.
Proof.
  eapply (claim_invalid_query_type_no_sql (llm := demo_claim_llm "claim_history" "5"));
    unfold claim_query_types; demo_claim_hyps.
Defined.

Lemma claim_db_error_echoed_witness :
  fst (get_claim_info_invoke (llm := demo_claim_llm "claim_status" "2") demo_claim_inputs
         (demo_claim_world [Some (OperationalError "database is locked")])) =
    claim_composed (llm := demo_claim_llm "claim_status" "2") (TStr "show me the claims") (THist [])
      ("Error: " ++ exc_str (OperationalError "database is locked")).
Proof.
  eapply (claim_db_error_echoed (llm := demo_claim_llm "claim_status" "2")); demo_claim_hyps.
Defined.

(** Policy "10.0" (a TEXT value, a REAL under numeric affinity) selects the
    claims of the INTEGER policy 10. *)
Lemma claims_by_policy_lists_all_rows_witness :
  policy_rows demo_claims_table 1 0 3 4 "10.0" =
    [[SInt 1; SText "Car"; SText "pending"]; [SInt 3; SText "Car"; SText "rejected"]] /\
  fst (get_claim_info_invoke (llm := demo_claim_llm "claims_by_policy" "10.0") demo_claim_inputs
         (demo_claim_world [])) =
    claim_composed (llm := demo_claim_llm "claims_by_policy" "10.0") (TStr "show me the claims") (THist [])
      (let rows := policy_rows demo_claims_table 1 0 3 4 "10.0" in
       if rows_truthy rows
       then "Claims for policy " ++ "10.0" ++ ": " ++ py_repr_rows rows
       else "No claims found for policy " ++ "10.0" ++ ".").
Proof.
  split; [reflexivity |].
  eapply (claims_by_policy_lists_all_rows (llm := demo_claim_llm "claims_by_policy" "10.0")
            demo_claim_inputs (TStr "show me the claims") (THist []) (demo_claim_world []) demo_claim_db);
    repeat split; reflexivity.
Defined.
