(* ===== verification/PolicyInfo.v ===== *)
(** * [Chains/Get_Policy_Info.py]: the policy lookup chain

    [GetPolicyInfoChain.invoke] has the shape of the claim lookup chain:
    connect, then inside [try/except Exception] extract a
    [PolicyQueryType] and dispatch on ['policy_details'],
    ['policies_by_client'] and ['policies_by_type'], any other value
    giving ["Invalid query type."]; then the model phrases the status. *)

From S2P Require Import Prelude Sqlite Schema World PyRepr ClaimInfo.

(** ** The SQL of the chain *)

(** ["SELECT * FROM Policies WHERE policy_id = ?"] *)
Definition policy_details_sql : Stmt :=
  SSelect (mkQuery None "Policies" (CEq (ECol "policy_id") (EParam 0))).

(** ["SELECT policy_id, policy_type, policy_level FROM Policies WHERE user_id =
      (SELECT client_id FROM Clients WHERE name = ? OR client_id = ?)"] *)
Definition policies_by_client_sql : Stmt :=
  SSelect (mkQuery (Some ["policy_id"; "policy_type"; "policy_level"]) "Policies"
    (CEq (ECol "user_id")
         (ESub "client_id" "Clients"
               (COr (CEq (ECol "name") (EParam 0)) (CEq (ECol "client_id") (EParam 1)))))).

(** ["SELECT policy_id, user_id, policy_level FROM Policies WHERE policy_type = ?"] *)
Definition policies_by_type_sql : Stmt :=
  SSelect (mkQuery (Some ["policy_id"; "user_id"; "policy_level"]) "Policies"
    (CEq (ECol "policy_type") (EParam 0))).

Definition extract_policy_vars (ui ch : TVal) : gmap string TVal :=
  <["user_input" := ui]> (<["chat_history" := ch]>
    {[ "format_instructions" := TFormat "PolicyQueryType" ]}).

Definition policy_response_vars (ui ch : TVal) (status : string) : gmap string TVal :=
  <["user_input" := ui]> (<["chat_history" := ch]>
    (<["status" := TStr status]>
      {[ "format_instructions" := TFormat "GetPolicyInfoOutput" ]})).

Section Chain.
Context {llm : LLM}.

(** [ExtractPolicyQuery.invoke(inputs)] *)
Definition extract_policy_query (inputs : gmap string TVal) : PyM World PolicyQueryType :=
  ui ← py_lift (dict_getitem inputs "user_input");
  ch ← py_lift (dict_getitem inputs "chat_history");
  j ← llm_invoke PExtractPolicy (extract_policy_vars ui ch);
  py_lift (parse_PolicyQueryType j).

(** The [if/elif] chain on [query_type]; its value is [self.status]. *)
Definition policy_query_branch (con : nat) (query_info : PolicyQueryType) : PyM World string :=
  let query_type := pq_query_type query_info in
  let value := pq_value query_info in
  if String.eqb query_type "policy_details" then
    rows ← cursor_execute con policy_details_sql [SText value];
    match fetchone rows with
    | Some (r :: rs) =>
        mret ("Policy details for policy_id " ++ value ++ ": " ++ py_repr_tuple (r :: rs))%string
    | _ => mret ("No details found for policy " ++ value ++ ".")%string
    end
  else if String.eqb query_type "policies_by_client" then
    results ← cursor_execute con policies_by_client_sql [SText value; SText value];
    if rows_truthy results
    then mret ("Policies for client '" ++ value ++ "': " ++ py_repr_rows results)%string
    else mret ("No policies found for client '" ++ value ++ "'.")%string
  else if String.eqb query_type "policies_by_type" then
    results ← cursor_execute con policies_by_type_sql [SText value];
    if rows_truthy results
    then mret ("Policies of type '" ++ value ++ "': " ++ py_repr_rows results)%string
    else mret ("No policies found for type '" ++ value ++ "'.")%string
  else mret "Invalid query type.".

(** [GetPolicyInfoChain.invoke(user_input, config)] *)
Definition get_policy_info_invoke (user_input : gmap string TVal) : PyM World string :=
  con ← sqlite_connect chains_db_path;
  status ← py_try_except
             (query_info ← extract_policy_query user_input;
              policy_query_branch con query_info)
             (fun e => Some (mret ("Error: " ++ exc_str e)%string));
  ui ← py_lift (dict_getitem user_input "user_input");
  ch ← py_lift (dict_getitem user_input "chat_history");
  response ← llm_invoke PPolicyResponse (policy_response_vars ui ch status);
  py_lift (parse_Output response).
End Chain.

(** ** Specification-side definitions *)

Definition policy_query_types : list string :=
  ["policy_details"; "policies_by_client"; "policies_by_type"].

Definition policy_composed {llm : LLM} (ui ch : TVal) (status : string) : Outcome string :=
  out_bind (llm_complete PPolicyResponse (policy_response_vars ui ch status)) parse_Output.

(** The Policies columns the type query reads: [policy_type] is TEXT. *)
Definition policies_type_schema (tb : Table) (ti pi ui li : nat) : Prop :=
  get_col tb "policy_type" = Ok (ti, AText) /\ get_col tb "policy_id" = Ok (pi, AInteger) /\
  get_col tb "user_id" = Ok (ui, AInteger) /\ get_col tb "policy_level" = Ok (li, AText).

(** The policies whose type is exactly [value] (case-sensitive). *)
Definition policies_of_type (tb : Table) (ti pi ui li : nat) (value : string) : list Row :=
  map (project [pi; ui; li])
      (List.filter (fun r => bool_decide (r !! ti = Some (SText value))) (t_rows tb)).

(** ** A concrete world *)
Definition demo_policies_table : Table :=
  mkTable [("policy_id", AInteger); ("user_id", AInteger); ("policy_type", AText);
           ("policy_level", AText)]
          [[SInt 10; SInt 3; SText "Car"; SText "Gold"];
           [SInt 11; SInt 4; SText "Health"; SText "Silver"];
           [SInt 12; SInt 4; SText "Car"; SText "Bronze"]].

Definition demo_policy_world : World :=
  mkWorld {[ chains_db_path := {[ "Policies" := demo_policies_table ]} ]} [] [] [].

Definition demo_policy_llm (qt value : string) : LLM := {|
  llm_complete := fun p _ =>
    match p with
    | PExtractPolicy => Ok (JObj [("query_type", JStr qt); ("value", JStr value)])
    | _ => Ok (JObj [("output", JStr "Done.")])
    end;
  llm_text := fun _ _ => Ok "" |}.

(** ** Properties of the chain *)

(** C14 (invariant). The policy lookup chain is read-only: every
    existing database file keeps its contents. *)
Theorem get_policy_info_read_only {llm : LLM} (inputs : gmap string TVal) :
  preserves files_kept (get_policy_info_invoke inputs).
Proof.
  unfold get_policy_info_invoke, extract_policy_query, policy_query_branch. cbv zeta.
  solve_preserves.
Qed.

Section Runs.
Context {llm : LLM} (inputs : gmap string TVal) (ui ch : TVal) (w : World) (db : Db).
Hypothesis Hui : inputs !! "user_input" = Some ui.
Hypothesis Hch : inputs !! "chat_history" = Some ch.
Hypothesis Hfile : w_files w !! chains_db_path = Some db.
Context (j : Json) (q : PolicyQueryType).
Hypothesis Hllm : llm_complete PExtractPolicy (extract_policy_vars ui ch) = Ok j.
Hypothesis Hparse : parse_PolicyQueryType j = Ok q.

Local Ltac run_policy :=
  unfold get_policy_info_invoke, extract_policy_query, policy_query_branch;
  world_run; rewrite <- ?app_assoc; simpl.

Lemma policy_run_invalid :
  pq_query_type q ∉ policy_query_types ->
  get_policy_info_invoke inputs w =
    (policy_composed ui ch "Invalid query type.",
     mkWorld (w_files w) (w_conns w ++ [mkConn chains_db_path true None])
             (w_trace w ++ [EConnect (length (w_conns w)) chains_db_path;
                            ELlm PExtractPolicy; ELlm PPolicyResponse])
             (w_faults w)).
Proof.
  intros Hq. unfold policy_query_types in Hq.
  assert ((pq_query_type q =? "policy_details")%string = false) by (apply String.eqb_neq; set_solver).
  assert ((pq_query_type q =? "policies_by_client")%string = false) by (apply String.eqb_neq; set_solver).
  assert ((pq_query_type q =? "policies_by_type")%string = false) by (apply String.eqb_neq; set_solver).
  run_policy. unfold policy_composed. by destruct (llm_complete PPolicyResponse _).
Qed.

(** C15 (error). A [query_type] outside the three the chain tests gives
    "Invalid query type." and executes no SQL statement. *)
Theorem policy_invalid_query_type_no_sql :
  pq_query_type q ∉ policy_query_types ->
  fst (get_policy_info_invoke inputs w) = policy_composed ui ch "Invalid query type." /\
  exists new_events,
    w_trace (snd (get_policy_info_invoke inputs w)) = w_trace w ++ new_events /\
    forall c st ps, EExecute c st ps ∉ new_events.
Proof.
  intros Hq. rewrite policy_run_invalid by done. split; [done |].
  eexists. split; [done |]. intros c st ps Hin.
  rewrite list_elem_of_In in Hin. simpl in Hin. intuition congruence.
Qed.

(** C16 (functional). A ['policies_by_type'] query lists the policies
    whose [policy_type] is exactly the extracted value: the comparison is
    a case-sensitive string equality, so 'car' finds no 'Car' policy. *)
Theorem policies_by_type_exact_match tb ti pi uix li :
  db !! "Policies" = Some tb ->
  policies_type_schema tb ti pi uix li ->
  pq_query_type q = "policies_by_type" ->
  w_faults w = [] ->
  fst (get_policy_info_invoke inputs w) =
    policy_composed ui ch
      (let rows := policies_of_type tb ti pi uix li (pq_value q) in
       if rows_truthy rows
       then "Policies of type '" ++ pq_value q ++ "': " ++ py_repr_rows rows
       else "No policies found for type '" ++ pq_value q ++ "'.").
Proof.
  intros Htb (Ht & Hp & Hu & Hl) Hq Hf. run_policy. unfold policies_by_type_sql.
  rewrite (exec_select_filter _ _ _ _ _ tb [pi; uix; li]
             (fun r => bool_decide (r !! ti = Some (SText (pq_value q)))));
    [| done | intros r; by apply text_col_eq_param | by simpl; rewrite Hp, Hu, Hl].
  simpl. unfold policies_of_type, policy_composed.
  by destruct (rows_truthy _); destruct (llm_complete PPolicyResponse _).
Qed.
End Runs.

(** ** Witnesses *)

Lemma policy_invalid_query_type_no_sql_witness :
  fst (get_policy_info_invoke (llm := demo_policy_llm "policy_history" "10") demo_claim_inputs
         demo_policy_world) =
    policy_composed (llm := demo_policy_llm "policy_history" "10")
      (TStr "show me the claims") (THist []) "Invalid query type." /\
  exists new_events,
    w_trace (snd (get_policy_info_invoke (llm := demo_policy_llm "policy_history" "10")
                    demo_claim_inputs demo_policy_world)) = w_trace demo_policy_world ++ new_events /\
    forall c st ps, EExecute c st ps ∉ new_events.
Proof.
  eapply (policy_invalid_query_type_no_sql (llm := demo_policy_llm "policy_history" "10"));
    unfold policy_query_types; first [reflexivity | set_solver].
Defined.

(** 'car' in lower case matches none of the two 'Car' policies. *)
Lemma policies_by_type_exact_match_witness :
  policies_of_type demo_policies_table 2 0 1 3 "car" = [] /\
  policies_of_type demo_policies_table 2 0 1 3 "Car" <> [] /\
  fst (get_policy_info_invoke (llm := demo_policy_llm "policies_by_type" "car") demo_claim_inputs
         demo_policy_world) =
    policy_composed (llm := demo_policy_llm "policies_by_type" "car") (TStr "show me the claims") (THist [])
      (let rows := policies_of_type demo_policies_table 2 0 1 3 "car" in
       if rows_truthy rows
       then "Policies of type '" ++ "car" ++ "': " ++ py_repr_rows rows
       else "No policies found for type '" ++ "car" ++ "'.").
Proof.
  split; [reflexivity | split; [discriminate |]].
  eapply (policies_by_type_exact_match (llm := demo_policy_llm "policies_by_type" "car")
            demo_claim_inputs (TStr "show me the claims") (THist []) demo_policy_world);
    repeat split; reflexivity.
Defined.
