(* ===== verification/Idempotence.v ===== *)
(** * Determinism and idempotence of the lookup chains

    Spec section 8: "invoking a read-only capability twice with
    identical QueryIntent yields identical ExecutionStatus outcome
    (barring underlying data changes)".  [GetClaimInfoChain.invoke] and
    [GetPolicyInfoChain.invoke] open a fresh connection to
    [SecureShield/secure_shield.db] on every call and never close it
    (C10), so a second call runs on a world with one more connection and a
    longer trace.  The relational lemmas of [Relational] show that the
    answer does not depend on either: it is a function of the database
    file and of the scheduled faults, for every model.  Since the chains
    only read, a second call, with no fault scheduled, sees the same
    database and answers the same. *)

From S2P Require Import Prelude Sqlite Schema World Relational PyRepr ClaimInfo PolicyInfo.

Section Lookups.
Context {llm : LLM}.

Lemma get_claim_info_related inputs :
  related (same_db chains_db_path) (get_claim_info_invoke inputs) (get_claim_info_invoke inputs).
Proof.
  unfold get_claim_info_invoke. apply connect_same_db. intros c1 c2.
  unfold extract_claim_query, claim_query_branch. cbv zeta. solve_related.
Qed.

Lemma get_policy_info_related inputs :
  related (same_db chains_db_path) (get_policy_info_invoke inputs) (get_policy_info_invoke inputs).
Proof.
  unfold get_policy_info_invoke. apply connect_same_db. intros c1 c2.
  unfold extract_policy_query, policy_query_branch. cbv zeta. solve_related.
Qed.

Lemma get_claim_info_quiet inputs : preserves (quiet chains_db_path) (get_claim_info_invoke inputs).
Proof. unfold get_claim_info_invoke, extract_claim_query, claim_query_branch. cbv zeta. solve_preserves. Qed.

Lemma get_policy_info_quiet inputs : preserves (quiet chains_db_path) (get_policy_info_invoke inputs).
Proof. unfold get_policy_info_invoke, extract_policy_query, policy_query_branch. cbv zeta. solve_preserves. Qed.

(** A program whose runs are related and quiet answers the same when run
    again on the world it leaves. *)
Lemma rerun_same_answer {A} (m : PyM World A) w :
  related (same_db chains_db_path) m m -> preserves (quiet chains_db_path) m ->
  w_faults w = [] -> fst (m (snd (m w))) = fst (m w).
Proof. intros Hr Hq Hf. apply Hr. by apply Hq. Qed.

(** C26 (functional, spec section 8): the lookup chains are
    deterministic and idempotent.  For every request and model, the
    answer of [GetClaimInfoChain.invoke] and of [GetPolicyInfoChain.invoke]
    is the same on any two worlds with the same database at
    [SecureShield/secure_shield.db] and the same scheduled faults, however
    their other files, connections and traces differ; and with no fault
    scheduled, calling a chain again on the world its first call left
    gives the same answer. *)
Theorem lookup_chains_idempotent inputs w w' :
  same_db chains_db_path w w' ->
  (fst (get_claim_info_invoke inputs w) = fst (get_claim_info_invoke inputs w') /\
   fst (get_policy_info_invoke inputs w) = fst (get_policy_info_invoke inputs w')) /\
  (w_faults w = [] ->
   fst (get_claim_info_invoke inputs (snd (get_claim_info_invoke inputs w))) =
     fst (get_claim_info_invoke inputs w) /\
   fst (get_policy_info_invoke inputs (snd (get_policy_info_invoke inputs w))) =
     fst (get_policy_info_invoke inputs w)).
Proof.
  intros Hw. split; [split; [apply get_claim_info_related | apply get_policy_info_related]; done |].
  intros Hf. split; apply rerun_same_answer; auto using get_claim_info_related,
    get_policy_info_related, get_claim_info_quiet, get_policy_info_quiet.
Qed.
End Lookups.

(** The demo database, seen by a world that also has another connection
    and a longer trace. *)
Definition demo_busy_world : World :=
  mkWorld {[ chains_db_path := demo_claim_db ]} [mkConn "other.db" true None] [EPrint "warm-up"] [].

Lemma lookup_chains_idempotent_witness :
  same_db chains_db_path (demo_claim_world []) demo_busy_world /\
  fst (get_claim_info_invoke (llm := demo_claim_llm "claims_by_client" "Ana") demo_claim_inputs
         (demo_claim_world [])) =
    fst (get_claim_info_invoke (llm := demo_claim_llm "claims_by_client" "Ana") demo_claim_inputs
           demo_busy_world) /\
  fst (get_claim_info_invoke (llm := demo_claim_llm "claims_by_client" "Ana") demo_claim_inputs
         (snd (get_claim_info_invoke (llm := demo_claim_llm "claims_by_client" "Ana") demo_claim_inputs
                 (demo_claim_world [])))) =
    fst (get_claim_info_invoke (llm := demo_claim_llm "claims_by_client" "Ana") demo_claim_inputs
           (demo_claim_world [])).
Proof.
  assert (Hw : same_db chains_db_path (demo_claim_world []) demo_busy_world) by (split; reflexivity).
  destruct (lookup_chains_idempotent (llm := demo_claim_llm "claims_by_client" "Ana")
              demo_claim_inputs (demo_claim_world []) demo_busy_world Hw) as [[H1 _] H2].
  split; [exact Hw | split; [exact H1 | exact (proj1 (H2 eq_refl))]].
Defined.
