(* ===== verification/Guard.v ===== *)
(** * [Chains/Prompt_Injection_Tolerance.py]: the prompt-injection guard

    [IsPromptInjection.invoke(inputs)] sends [inputs["user_input"]] and the
    format instructions of [Format] to the model and parses the answer as
    a [Format]; [MainChatbot.process_user_input] reads its
    [is_prompt_injection].  The guard reads nothing else: not the chat
    history, not the database. *)

From S2P Require Import Prelude Sqlite Schema World.

Definition injection_vars (ui : TVal) : gmap string TVal :=
  <["user_input" := ui]> {[ "format_instructions" := TFormat "Format" ]}.

(** [IsPromptInjection.invoke(inputs)] *)
Definition is_prompt_injection_invoke {llm : LLM} (inputs : gmap string TVal) : PyM World Format :=
  ui ← py_lift (dict_getitem inputs "user_input");
  j ← llm_invoke PInjection (injection_vars ui);
  py_lift (parse_Format j).

(** The fixed refusal of [process_user_input]. *)
Definition refusal_message : string :=
  "It was detected prompt injection risks or malicious content in your input.".

(** The guard's verdict on an input, as a pure function of the model. *)
Definition guard_verdict {llm : LLM} (ui : TVal) : Outcome bool :=
  out_bind (llm_complete PInjection (injection_vars ui))
           (fun j => out_bind (parse_Format j) (fun f => Ok (is_prompt_injection f))).

Lemma is_prompt_injection_run {llm : LLM} inputs ui w :
  inputs !! "user_input" = Some ui ->
  is_prompt_injection_invoke inputs w =
    (out_bind (llm_complete PInjection (injection_vars ui)) parse_Format,
     mkWorld (w_files w) (w_conns w) (w_trace w ++ [ELlm PInjection]) (w_faults w)).
Proof.
  intros Hui. unfold is_prompt_injection_invoke. world_run.
  by destruct (llm_complete PInjection _).
Qed.

(** The guard only consults the model: for every input and model
    its one effect is the injection prompt's model call; it opens no
    database, reads no history and prints nothing. *)
Lemma guard_only_asks_model {llm : LLM} (inputs : gmap string TVal) :
  preserves (trace_only (fun e => e = ELlm PInjection)) (is_prompt_injection_invoke inputs).
Proof. unfold is_prompt_injection_invoke. solve_preserves. Qed.
