(* ===== verification/Memory.v ===== *)
(** * Session memory: [MemoryManager] and [RunnableWithMessageHistory]

    [MainChatbot] keeps chat histories in a [MemoryManager] ([from .memory
    import MemoryManager]), whose code is not in the repository: this file
    models it from spec.md (sections 3 and 6) as a store of ordered
    message logs keyed by (user id, conversation id), created empty on
    first access and only ever appended to.  The chains are wrapped in
    LangChain's [RunnableWithMessageHistory]: it loads the session's
    history into the input key ["chat_history"], runs the chain, and on
    success appends the human input and the chain's answer. *)

From S2P Require Import Prelude World.

Abbreviation Store := (gmap (string * string) (list Message)).

(** [get_session_history(user_id, conversation_id)]: the history, created
    empty on first access. *)
Definition get_session_history (st : Store) (key : string * string) : list Message * Store :=
  match st !! key with
  | Some h => (h, st)
  | None => ([], <[key := []]> st)
  end.

(** Appending messages to one session. *)
Definition add_messages (st : Store) (key : string * string) (msgs : list Message) : Store :=
  <[key := default [] (st !! key) ++ msgs]> st.

(** ** Properties of the store *)

(** Appending extends the session's log: earlier messages are kept in
    order. *)
Lemma add_messages_extends st key msgs :
  add_messages st key msgs !! key = Some (fst (get_session_history st key) ++ msgs).
Proof.
  unfold add_messages, get_session_history. rewrite lookup_insert_eq.
  by destruct (st !! key).
Qed.

(** Other sessions are untouched (spec 5: no cross-key interference). *)
Lemma add_messages_other st key key' msgs :
  key <> key' -> add_messages st key msgs !! key' = st !! key'.
Proof. intros Hne. unfold add_messages. by rewrite lookup_insert_ne. Qed.

Lemma get_session_history_other st key key' :
  key <> key' -> snd (get_session_history st key) !! key' = st !! key'.
Proof.
  intros Hne. unfold get_session_history.
  destruct (st !! key); simpl; [done |]. by rewrite lookup_insert_ne.
Qed.

(** Reading a history a second time finds the one the first read made. *)
Lemma get_session_history_idem st key :
  get_session_history (snd (get_session_history st key)) key = get_session_history st key.
Proof.
  unfold get_session_history. destruct (st !! key) eqn:E; simpl; [by rewrite E |].
  by rewrite lookup_insert_eq.
Qed.
