(* ===== verification/Chitchat.v ===== *)
(** * [Chains/Chitchat.py]: the chit-chat chains

    [ChitChatResponseChain] passes its input dict straight to a prompt
    whose only template variable is [{customer_input}] (its system and
    human templates), plus the [chat_history] placeholder that
    [generate_prompt_templates(..., memory=True)] adds; its parser is
    [StrOutputParser].  [ChitChatClassifierChain] builds the dict
    [customer_input], [chat_history], [format_instructions] itself and
    parses a [ChitChatClassifier].  Formatting a prompt whose variable is
    missing from the input raises [KeyError]. *)

From S2P Require Import Prelude Sqlite Schema World.

Definition chitchat_class_vars (ci ch : TVal) : gmap string TVal :=
  <["customer_input" := ci]> (<["chat_history" := ch]>
    {[ "format_instructions" := TFormat "ChitChatClassifier" ]}).

Section Chains.
Context {llm : LLM}.

(** [ChitChatResponseChain.invoke(input, config)]: the prompt needs the
    variables [customer_input] and [chat_history] of [input]. *)
Definition chitchat_response_invoke (input : gmap string TVal) : PyM World string :=
  _ ← py_lift (dict_getitem input "customer_input");
  _ ← py_lift (dict_getitem input "chat_history");
  llm_invoke_text PChitchatResponse input.

(** [ChitChatClassifierChain.invoke(input)] *)
Definition chitchat_classifier_invoke (input : gmap string TVal) : PyM World bool :=
  ci ← py_lift (dict_getitem input "customer_input");
  ch ← py_lift (dict_getitem input "chat_history");
  j ← llm_invoke PChitchatClass (chitchat_class_vars ci ch);
  py_lift (parse_ChitChatClassifier j).
End Chains.

Definition demo_chitchat_llm : LLM := {|
  llm_complete := fun _ _ => Ok (JObj [("chitchat", JBool true)]);
  llm_text := fun _ _ => Ok "Hello! How can I help with your insurance today?" |}.

Definition demo_chitchat_world : World := mkWorld ∅ [] [] [].

(** [ChitChatResponseChain] called with a dict that has no
    [customer_input] (the dict of the chat page, [{"user_input": ...}]
    plus the history) raises [KeyError] on its own template variable,
    before any model call. *)
Lemma chitchat_response_needs_customer_input {llm : LLM} (input : gmap string TVal) w :
  input !! "customer_input" = None ->
  chitchat_response_invoke input w = (Raise (KeyError "customer_input"), w).
Proof.
  intros H. unfold chitchat_response_invoke. py_unfold. simpl.
  by rewrite (dict_getitem_None _ _ H).
Qed.
