(* ===== verification/Streamlit.v ===== *)
(** * The part of Streamlit the pages use

    A Streamlit page is a script re-run from the top on every interaction.
    What survives a run is [st.session_state], a dict-like store with
    attribute access; what a run shows is a sequence of elements (titles,
    errors, chat messages).  [st.navigation(pages)] registers the pages of
    the app, and [st.switch_page(path)] ends the run (Streamlit raises its
    rerun exception) when [path] is a registered page and raises
    [StreamlitAPIException] otherwise.

    A page runs in [PageState]: the [World] of the chains (the pages open
    [sqlite3] connections too), the session state, the elements shown and
    the registered pages.  The Python values the pages store are [PyVal]. *)

From S2P Require Import Prelude Sqlite World.

(** The Python values the pages keep in the session state. *)
Inductive PyVal : Type :=
| PNone
| PBool (b : bool)
| PInt (z : Z)
| PStr (s : string)
| PMsgs (ms : list (string * string)).   (** a list of [{"role", "content"}] dicts *)

(** [bool(v)] *)
Definition py_truthy (v : PyVal) : bool :=
  match v with
  | PNone => false
  | PBool b => b
  | PInt z => negb (Z.eqb z 0)
  | PStr s => negb (String.eqb s "")
  | PMsgs ms => negb (Nat.eqb (length ms) 0)
  end.

(** [str(v)], as in an f-string. *)
Definition py_str (v : PyVal) : string :=
  match v with
  | PNone => "None"
  | PBool b => if b then "True" else "False"
  | PInt z => string_of_Z z
  | PStr s => s
  | PMsgs _ => "[...]"
  end.

(** A column value as the Python value [sqlite3] returns. *)
Definition py_of_sql (v : SqlVal) : PyVal :=
  match v with SNull => PNone | SInt z => PInt z | SText s => PStr s end.

Abbreviation SessionState := (gmap string PyVal).

(** The double-quote character (Streamlit quotes keys in its messages). *)
Definition dq : string := String (ascii_of_nat 34) EmptyString.

Inductive UiElement : Type :=
| UTitle (s : string)
| UError (s : string)
| USuccess (s : string)
| UWarning (s : string)
| UMarkdown (s : string)
| UChatMessage (role content : string).

Record PageState : Type := mkPageState {
  pg_world : World;
  pg_session : SessionState;
  pg_shown : list UiElement;
  pg_pages : list string        (** the paths registered by [st.navigation] *)
}.

Definition page_world {A} (m : PyM World A) : PyM PageState A :=
  fun s => let (r, w') := m (pg_world s) in
           (r, mkPageState w' (pg_session s) (pg_shown s) (pg_pages s)).

Definition st_show (u : UiElement) : PyM PageState unit :=
  py_modify (fun s => mkPageState (pg_world s) (pg_session s) (pg_shown s ++ [u]) (pg_pages s)).

Definition ss_set (k : string) (v : PyVal) : PyM PageState unit :=
  py_modify (fun s => mkPageState (pg_world s) (<[k := v]> (pg_session s)) (pg_shown s) (pg_pages s)).

(** [k in st.session_state] *)
Definition ss_contains (k : string) : PyM PageState bool :=
  py_state (fun s => (Ok (bool_decide (is_Some (pg_session s !! k))), s)).

(** [st.session_state[k]] *)
Definition ss_getitem (k : string) : PyM PageState PyVal :=
  py_state (fun s =>
    match pg_session s !! k with
    | Some v => (Ok v, s)
    | None => (Raise (KeyError ("st.session_state has no key " ++ dq ++ k ++ dq ++
                                  ". Did you forget to initialize it?")), s)
    end).

(** [st.session_state.k] *)
Definition ss_getattr (k : string) : PyM PageState PyVal :=
  py_state (fun s =>
    match pg_session s !! k with
    | Some v => (Ok v, s)
    | None => (Raise (AttributeError ("st.session_state has no attribute " ++ dq ++ k ++ dq ++
                                        ". Did you forget to initialize it?")), s)
    end).

(** [st.navigation(pages)] *)
Definition st_navigation (paths : list string) : PyM PageState unit :=
  py_modify (fun s => mkPageState (pg_world s) (pg_session s) (pg_shown s) paths).

(** [st.switch_page(path)]: never returns. *)
Definition st_switch_page (path : string) : PyM PageState unit :=
  py_state (fun s =>
    if bool_decide (path ∈ pg_pages s) then (Raise (RerunException path), s)
    else (Raise (StreamlitAPIException ("Could not find page: " ++ path ++ ".")), s)).

(** A name a module reads at run time: bound, or [NameError]. *)
Definition py_name (globals : list string) (n : string) : Outcome unit :=
  if bool_decide (n ∈ globals) then Ok tt
  else Raise (NameError ("name '" ++ n ++ "' is not defined")).

(** ** Running page programs *)

Lemma page_world_run {A} (m : PyM World A) s :
  page_world m s =
    (fst (m (pg_world s)), mkPageState (snd (m (pg_world s))) (pg_session s) (pg_shown s) (pg_pages s)).
Proof. unfold page_world. by destruct (m (pg_world s)). Qed.
