(* ===== verification/Login.v ===== *)
(** * [app_pages/Login.py]: the login page

    The module opens a [sqlite3] connection to ["secure_shield.db"] at
    import (line 6), defines three queries on the [Employees] table, and
    renders a form whose submission checks the fields, the e-mail, the
    password, and on success stores [username], [user_email] and
    [logged_in] in the session state, calls
    [update_user_conversation_id(username)] and switches to the chat page.

    The module's global names are a parameter [globals]: the page as
    shipped imports [sqlitecloud], [streamlit] and [time] but not
    [sqlite3], and nothing defines [update_user_conversation_id].

    The queries are proved sound (a row [verify_user] returns has the
    credentials) and complete on a connection with no fault scheduled (a
    registered e-mail is found, the right password finds a row): together
    they say when a run logs the employee in. *)

From S2P Require Import Prelude Sqlite World PyRepr Streamlit.

Definition login_db_path : string := "secure_shield.db".

(** The names bound when line 6 runs. *)
Definition login_globals : list string := ["sqlitecloud"; "st"; "time"].

Definition email_exists_sql : Stmt :=
  SSelect (mkQuery (Some ["email"]) "Employees" (CEq (ECol "email") (EParam 0))).

Definition verify_user_sql : Stmt :=
  SSelect (mkQuery None "Employees"
    (CAnd (CEq (ECol "email") (EParam 0)) (CEq (ECol "password") (EParam 1)))).

Definition username_by_email_sql : Stmt :=
  SSelect (mkQuery (Some ["first_name"]) "Employees" (CEq (ECol "email") (EParam 0))).

(** [check_if_email_exists(email)] *)
Definition check_if_email_exists (conn : nat) (email : string) : PyM World bool :=
  rows ← cursor_execute conn email_exists_sql [SText email];
  mret (bool_decide (fetchone rows <> None)).

(** [verify_user(email, password)] *)
Definition verify_user (conn : nat) (email password : string) : PyM World (option Row) :=
  rows ← cursor_execute conn verify_user_sql [SText email; SText password];
  mret (fetchone rows).

(** [get_username_by_email(email)]: [result[0] if result else None]. *)
Definition get_username_by_email (conn : nat) (email : string) : PyM World PyVal :=
  rows ← cursor_execute conn username_by_email_sql [SText email];
  mret (match fetchone rows with Some (v :: _) => py_of_sql v | _ => PNone end).

(** [if user:] on a row: a tuple is true when it is not empty. *)
Definition row_truthy (user : option Row) : bool :=
  match user with Some (_ :: _) => true | _ => false end.

(** The values of the form's widgets in this run. *)
Record LoginForm : Type := mkLoginForm { lf_email : string; lf_password : string; lf_submit : bool }.

Section Page.
(** The function line 52 calls; no module of the repository defines it. *)
Context (update_user_conversation_id : PyVal -> PyM PageState unit).
Context (globals : list string).

Definition login_failed (msg : string) : PyM PageState unit :=
  st_show (UError msg);; ss_set "logged_in" (PBool false).

(** The body of [if submit:] (lines 35-57). *)
Definition login_submit (conn : nat) (email password : string) : PyM PageState unit :=
  if String.eqb email "" || String.eqb password "" then login_failed "Please fill all fields"
  else
    registered ← page_world (check_if_email_exists conn email);
    if negb registered then login_failed "Email not registered"
    else
      user ← page_world (verify_user conn email password);
      if row_truthy user then
        username ← page_world (get_username_by_email conn email);
        ss_set "username" username;;
        ss_set "user_email" (PStr email);;
        ss_set "logged_in" (PBool true);;
        st_show (USuccess ("Welcome, " ++ py_str username ++ "!"));;
        py_lift (py_name globals "update_user_conversation_id");;
        update_user_conversation_id username;;
        st_switch_page "app_pages/Chatbot.py"
      else login_failed "Incorrect password".

(** A run of the page script with the form's values [f]. *)
Definition login_page (f : LoginForm) : PyM PageState unit :=
  py_lift (py_name globals "sqlite3");;
  conn ← page_world (sqlite_connect login_db_path);
  st_show (UTitle "Login");;
  if lf_submit f then login_submit conn (lf_email f) (lf_password f) else mret tt.
End Page.

(** ** Specification of a login *)

(** The [Employees] table has TEXT columns [email] and [password]. *)
Definition employees_schema (tb : Table) (ie ip : nat) : Prop :=
  col_index "email" (t_cols tb) = Some (ie, AText) /\
  col_index "password" (t_cols tb) = Some (ip, AText).

(** Some employee has exactly this e-mail and this password. *)
Definition has_credentials (tb : Table) (ie ip : nat) (email password : string) : Prop :=
  exists r, r ∈ t_rows tb /\ r !! ie = Some (SText email) /\ r !! ip = Some (SText password).

(** An [Employees] table with one employee, and a first run of the page. *)
Definition demo_employees : Table :=
  mkTable [("email", AText); ("password", AText); ("first_name", AText)]
          [[SText "ana@secureshield.pt"; SText "pw123"; SText "Ana"]].

Definition demo_login_state : PageState :=
  mkPageState (mkWorld {[ login_db_path := {[ "Employees" := demo_employees ]} ]} [] [] []) ∅ [] [].

(** The page with its missing import added. *)
Definition demo_fixed_globals : list string := "sqlite3" :: login_globals.

Definition demo_login_form (password : string) : LoginForm :=
  mkLoginForm "ana@secureshield.pt" password true.

(** Connection [c] of [w] is open on a database whose [Employees] table
    is [tb], and no fault is scheduled. *)
Definition login_conn (w : World) (c : nat) (tb : Table) : Prop :=
  exists cn, w_conns w !! c = Some cn /\ conn_open cn = true /\ w_faults w = [] /\
    conn_view w cn !! "Employees" = Some tb.

(** ** Running the page *)

Lemma py_name_bound g n : n ∈ g -> py_name g n = Ok tt.
Proof. intros H. unfold py_name. by rewrite bool_decide_eq_true_2. Qed.

Lemma py_name_unbound g n : n ∉ g -> py_name g n = Raise (NameError ("name '" ++ n ++ "' is not defined")).
Proof. intros H. unfold py_name. by rewrite bool_decide_eq_false_2. Qed.

(** The queries of the page only read. *)
Lemma check_if_email_exists_world c e w b w' :
  check_if_email_exists c e w = (Ok b, w') ->
  w_files w' = w_files w /\ w_conns w' = w_conns w.
Proof.
  unfold check_if_email_exists. cbv [mbind PyM_bind mret PyM_ret].
  destruct (cursor_execute _ _ _ w) as [[rows |] w1] eqn:E; [| done]. intros [= _ <-].
  destruct (cursor_select_sound _ _ _ _ _ _ E) as (cn & _ & _ & _ & ? & ?). done.
Qed.

(** A row [verify_user] returns is an employee with these credentials. *)
Lemma verify_user_sound c e p w u w' cn tb ie ip :
  employees_schema tb ie ip ->
  w_conns w !! c = Some cn -> conn_view w cn !! "Employees" = Some tb ->
  verify_user c e p w = (Ok u, w') -> row_truthy u = true ->
  has_credentials tb ie ip e p.
Proof.
  intros [He Hp] Hc Ht. unfold verify_user. cbv [mbind PyM_bind mret PyM_ret].
  destruct (cursor_execute _ _ _ w) as [[rows |] w1] eqn:E; [| done]. intros [= <- _].
  destruct (cursor_select_sound _ _ _ _ _ _ E) as (cn' & Hc' & _ & Hq & _).
  rewrite Hc in Hc'. injection Hc' as <-. unfold fetchone.
  destruct rows as [| r rows]; [done |]. intros _.
  destruct (run_query_star_sound _ _ _ _ _ r Hq) as (tb' & Ht' & Hr & Hm); [left |].
  rewrite Ht in Ht'. injection Ht' as <-.
  apply row_matches_and in Hm as [Hm1 Hm2].
  rewrite (text_col_eq_param _ _ _ _ ie 0 e) in Hm1 by (unfold get_col; by rewrite ?He).
  rewrite (text_col_eq_param _ _ _ _ ip 1 p) in Hm2 by (unfold get_col; by rewrite ?Hp).
  injection Hm1 as Hm1%bool_decide_eq_true. injection Hm2 as Hm2%bool_decide_eq_true.
  by exists r.
Qed.

(** ** Completeness of the form's queries *)

Ltac pg_simpl := cbn [pg_world pg_session pg_shown pg_pages fst snd negb].

(** The page's connection to [secure_shield.db] is a [login_conn]. *)
Lemma login_connect_conn w db tb :
  w_faults w = [] -> w_files w !! login_db_path = Some db -> db !! "Employees" = Some tb ->
  login_conn (snd (sqlite_connect login_db_path w)) (length (w_conns w)) tb.
Proof.
  intros Hf Hd Ht. exists (mkConn login_db_path true None).
  unfold sqlite_connect, conn_view. simpl. rewrite Hd, lookup_snoc_length. simpl. by rewrite Hd.
Qed.

(** A SELECT on a [login_conn] returns the rows the statement computes on
    any database with that table, and leaves a [login_conn]. *)
Lemma login_select c tb st ps rows w :
  login_conn w c tb -> (exists q, st = SSelect q) -> bind_error ps = None ->
  (forall db, db !! "Employees" = Some tb -> exec_stmt db st ps = Ok (rows, db)) ->
  exists w', cursor_execute c st ps w = (Ok rows, w') /\ login_conn w' c tb.
Proof.
  intros (cn & Hc & Ho & Hf & Ht) [q ->] Hb He. eexists. split; [apply (cursor_select_run _ _ _ _ cn); first [done | by apply He] |].
  exists cn. by unfold conn_view in *.
Qed.

Section Complete.
Context (tb : Table) (ie ip : nat) (Hsc : employees_schema tb ie ip).
Context (c : nat) (e p : string) (Hcr : has_credentials tb ie ip e p).

Lemma email_col : get_col tb "email" = Ok (ie, AText).
Proof. unfold get_col. by rewrite (proj1 Hsc). Qed.

Lemma password_col : get_col tb "password" = Ok (ip, AText).
Proof. unfold get_col. by rewrite (proj2 Hsc). Qed.

(** A registered e-mail is found. *)
Lemma check_if_email_exists_complete w :
  login_conn w c tb -> exists w', check_if_email_exists c e w = (Ok true, w') /\ login_conn w' c tb.
Proof.
  intros Hl. destruct Hcr as (r & Hr & Hre & _).
  destruct (login_select c tb email_exists_sql [SText e]
    (map (project [ie]) (List.filter (fun r => bool_decide (r !! ie = Some (SText e))) (t_rows tb))) w Hl (ex_intro _ _ eq_refl) eq_refl)
    as (w' & Hx & Hl').
  { intros db Hdb. apply exec_select_filter; [done | | exact (col_indices_single _ _ _ _ email_col)].
    intros r'. by apply text_col_eq_param; [exact email_col |]. }
  exists w'. split; [| done]. unfold check_if_email_exists. cbv [mbind PyM_bind mret PyM_ret].
  rewrite Hx. destruct (filter_head_Some (fun r => bool_decide (r !! ie = Some (SText e))) (t_rows tb) r)
    as (y & Hy & _); [done | by apply bool_decide_eq_true |].
  unfold fetchone. revert Hy. destruct (List.filter _ (t_rows tb)); cbn [head List.map] in *; [done |].
  intros _. by rewrite bool_decide_eq_true_2.
Qed.

(** The right password finds a row, and a row of the table is a non-empty tuple. *)
Lemma verify_user_complete w :
  login_conn w c tb ->
  exists u w', verify_user c e p w = (Ok u, w') /\ row_truthy u = true /\ login_conn w' c tb.
Proof.
  intros Hl. destruct Hcr as (r & Hr & Hre & Hrp).
  set (f := fun r : Row => bool_decide (r !! ie = Some (SText e)) && bool_decide (r !! ip = Some (SText p))).
  destruct (login_select c tb verify_user_sql [SText e; SText p] (List.filter f (t_rows tb)) w Hl (ex_intro _ _ eq_refl) eq_refl)
    as (w' & Hx & Hl').
  { intros db Hdb. apply exec_select_star_filter; [done |]. intros r'.
    apply row_matches_and_eval; apply text_col_eq_param; by rewrite ?email_col, ?password_col. }
  destruct (filter_head_Some f (t_rows tb) r) as (y & Hy & Hfy);
    [done | by apply andb_true_intro; split; apply bool_decide_eq_true |].
  exists (Some y), w'. unfold verify_user. cbv [mbind PyM_bind mret PyM_ret]. rewrite Hx.
  split; [by unfold fetchone; rewrite Hy |]. split; [| done].
  destruct y; [| done]. apply andb_prop in Hfy as [Hfy _]. by apply bool_decide_eq_true in Hfy.
Qed.

(** The name lookup returns when the table has a [first_name] column. *)
Lemma get_username_by_email_complete w fi a :
  get_col tb "first_name" = Ok (fi, a) -> login_conn w c tb ->
  exists n w', get_username_by_email c e w = (Ok n, w') /\ login_conn w' c tb.
Proof.
  intros Hfn Hl.
  destruct (login_select c tb username_by_email_sql [SText e]
    (map (project [fi]) (List.filter (fun r => bool_decide (r !! ie = Some (SText e))) (t_rows tb))) w Hl (ex_intro _ _ eq_refl) eq_refl)
    as (w' & Hx & Hl').
  { intros db Hdb. apply exec_select_filter; [done | | exact (col_indices_single _ _ _ _ Hfn)].
    intros r'. by apply text_col_eq_param; [exact email_col |]. }
  do 2 eexists. unfold get_username_by_email. cbv [mbind PyM_bind mret PyM_ret]. by rewrite Hx.
Qed.
End Complete.

(** Every path of the form that sets [logged_in] to [True] went through a
    successful [verify_user], and ends in the [NameError] of line 52. *)
Lemma login_submit_logged_in uuc g c e p s :
  "update_user_conversation_id" ∉ g ->
  pg_session s !! "logged_in" <> Some (PBool true) ->
  pg_session (snd (login_submit uuc g c e p s)) !! "logged_in" = Some (PBool true) ->
  fst (login_submit uuc g c e p s) =
    Raise (NameError "name 'update_user_conversation_id' is not defined") /\
  exists w1 u w2, w_files w1 = w_files (pg_world s) /\ w_conns w1 = w_conns (pg_world s) /\
    verify_user c e p w1 = (Ok u, w2) /\ row_truthy u = true.
Proof.
  intros Hg Hs. unfold login_submit, login_failed, ss_set, st_show.
  cbv [mbind PyM_bind py_modify py_lift].
  destruct (String.eqb e "" || String.eqb p "").
  { simpl. rewrite lookup_insert_eq. intros ?; congruence. }
  rewrite page_world_run. destruct (check_if_email_exists c e (pg_world s)) as [[b |] w1] eqn:E1;
    simpl; [| intros ?; congruence].
  destruct (check_if_email_exists_world _ _ _ _ _ E1) as [F1 C1].
  destruct b; simpl; [| rewrite lookup_insert_eq; intros ?; congruence].
  rewrite page_world_run; simpl. destruct (verify_user c e p w1) as [[u |] w2] eqn:E2; simpl; [| intros ?; congruence].
  destruct (row_truthy u) eqn:Hu; simpl; [| rewrite lookup_insert_eq; intros ?; congruence].
  rewrite page_world_run; simpl. destruct (get_username_by_email c e w2) as [[n |] w3]; simpl; [| intros ?; congruence].
  rewrite (py_name_unbound _ _ Hg). simpl. intros _. split; [done |].
  by exists w1, u, w2.
Qed.

(** With the right credentials, the form logs the employee in. *)
Lemma login_submit_complete uuc g c e p s tb ie ip fi a :
  employees_schema tb ie ip -> get_col tb "first_name" = Ok (fi, a) ->
  has_credentials tb ie ip e p -> login_conn (pg_world s) c tb ->
  e <> "" -> p <> "" -> "update_user_conversation_id" ∉ g ->
  pg_session (snd (login_submit uuc g c e p s)) !! "logged_in" = Some (PBool true).
Proof.
  intros Hsc Hfn Hcr Hl He Hp Hg. unfold login_submit, ss_set, st_show.
  apply String.eqb_neq in He, Hp. rewrite He, Hp. cbv [mbind PyM_bind py_modify py_lift orb].
  rewrite page_world_run. pg_simpl.
  destruct (check_if_email_exists_complete tb ie ip Hsc c e p Hcr _ Hl) as (w1 & -> & Hl1). pg_simpl.
  rewrite page_world_run. pg_simpl.
  destruct (verify_user_complete tb ie ip Hsc c e p Hcr _ Hl1) as (u & w2 & -> & Hu & Hl2). pg_simpl. rewrite Hu.
  rewrite page_world_run. pg_simpl.
  destruct (get_username_by_email_complete tb ie ip Hsc c e _ _ _ Hfn Hl2) as (n & w3 & -> & _).
  pg_simpl. rewrite (py_name_unbound _ _ Hg). simpl. by rewrite lookup_insert_eq.
Qed.

(** With [sqlite3] bound, a run opens the connection, shows the title
    and, on submission, runs the form's checks on that connection. *)
Lemma login_page_run uuc g f s :
  "sqlite3" ∈ g ->
  login_page uuc g f s =
    let s1 := mkPageState (snd (sqlite_connect login_db_path (pg_world s))) (pg_session s)
                (pg_shown s ++ [UTitle "Login"]) (pg_pages s) in
    if lf_submit f then login_submit uuc g (length (w_conns (pg_world s))) (lf_email f) (lf_password f) s1
    else (Ok tt, s1).
Proof.
  intros Hg. unfold login_page, st_show. cbv [mbind PyM_bind py_lift py_modify].
  rewrite (py_name_bound _ _ Hg), page_world_run. simpl. by destruct (lf_submit f).
Qed.

(** With the import fixed and no fault, an employee who submits the
    right credentials is logged in by the run. *)
Lemma login_page_complete uuc g f s db tb ie ip fi a :
  "sqlite3" ∈ g -> "update_user_conversation_id" ∉ g -> w_faults (pg_world s) = [] ->
  w_files (pg_world s) !! login_db_path = Some db -> db !! "Employees" = Some tb ->
  employees_schema tb ie ip -> get_col tb "first_name" = Ok (fi, a) ->
  has_credentials tb ie ip (lf_email f) (lf_password f) ->
  lf_submit f = true -> lf_email f <> "" -> lf_password f <> "" ->
  pg_session (snd (login_page uuc g f s)) !! "logged_in" = Some (PBool true).
Proof.
  intros Hs Hu Hf Hd Ht Hsc Hfn Hcr Hsub He Hp. rewrite (login_page_run _ _ _ _ Hs), Hsub. cbv zeta.
  eapply login_submit_complete; try done. by apply (login_connect_conn _ db).
Qed.

(** The connection the page opens sees the file [secure_shield.db]. *)
Lemma login_connection_view w db :
  w_files w !! login_db_path = Some db ->
  exists cn, w_conns (snd (sqlite_connect login_db_path w)) !! length (w_conns w) = Some cn /\
    conn_view (snd (sqlite_connect login_db_path w)) cn = db /\
    w_files (snd (sqlite_connect login_db_path w)) = w_files w.
Proof.
  intros Hf. unfold sqlite_connect, conn_view. simpl. rewrite Hf, lookup_snoc_length.
  eexists; split; [done |]. simpl. by rewrite Hf.
Qed.

(** ** Properties of the login page *)

(** C25: with the import fixed, a run sets [logged_in] to [True] only when
    the [Employees] table of [secure_shield.db] has a row with exactly the
    submitted e-mail and password. *)
Theorem login_only_with_credentials uuc g f s db tb ie ip :
  "sqlite3" ∈ g -> "update_user_conversation_id" ∉ g ->
  w_files (pg_world s) !! login_db_path = Some db -> db !! "Employees" = Some tb ->
  employees_schema tb ie ip ->
  pg_session s !! "logged_in" <> Some (PBool true) ->
  pg_session (snd (login_page uuc g f s)) !! "logged_in" = Some (PBool true) ->
  has_credentials tb ie ip (lf_email f) (lf_password f).
Proof.
  intros Hs Hu Hf Ht Hsc Hl. rewrite (login_page_run _ _ _ _ Hs). cbv zeta.
  destruct (lf_submit f); [| simpl; intros ?; congruence].
  intros H. apply login_submit_logged_in in H as (_ & w1 & u & w2 & F & C & E & T); [| done | done].
  destruct (login_connection_view _ _ Hf) as (cn & Hc & Hv & _). cbn [pg_world] in F, C.
  apply (verify_user_sound (length (w_conns (pg_world s))) (lf_email f) (lf_password f)
           w1 u w2 cn tb ie ip Hsc); [by rewrite C | | exact E | exact T].
  revert Hv. unfold conn_view. rewrite F. by intros ->.
Qed.

(** With the import fixed, every run that logs the employee in ends in
    [NameError] at line 52. *)
Lemma login_success_raises_name_error uuc g f s :
  "sqlite3" ∈ g -> "update_user_conversation_id" ∉ g ->
  pg_session s !! "logged_in" <> Some (PBool true) ->
  pg_session (snd (login_page uuc g f s)) !! "logged_in" = Some (PBool true) ->
  fst (login_page uuc g f s) = Raise (NameError "name 'update_user_conversation_id' is not defined").
Proof.
  intros Hs Hu Hl. rewrite (login_page_run _ _ _ _ Hs). cbv zeta.
  destruct (lf_submit f); [| simpl; intros ?; congruence].
  intros H. by apply login_submit_logged_in in H as [-> _].
Qed.

(** C24: the page fails on two unbound names.  As shipped it never runs
    its form: line 6 reads the name [sqlite3], which the module does not
    import, so every run raises [NameError] before showing anything or
    touching the session.  With that import fixed, every run that logs
    the employee in ends in [NameError] at line 52
    ([update_user_conversation_id] is defined nowhere): the session says
    logged in, but the page never switches to the chat. *)
Theorem login_page_name_error :
  (forall uuc f s,
     login_page uuc login_globals f s = (Raise (NameError "name 'sqlite3' is not defined"), s)) /\
  (forall uuc g f s,
     "sqlite3" ∈ g -> "update_user_conversation_id" ∉ g ->
     pg_session s !! "logged_in" <> Some (PBool true) ->
     pg_session (snd (login_page uuc g f s)) !! "logged_in" = Some (PBool true) ->
     fst (login_page uuc g f s) = Raise (NameError "name 'update_user_conversation_id' is not defined")).
Proof. split; [reflexivity | exact login_success_raises_name_error]. Qed.

(** ** Witnesses *)

Lemma login_only_with_credentials_witness :
  has_credentials demo_employees 0 1 "ana@secureshield.pt" "pw123".
Proof.
  apply (login_only_with_credentials (fun _ => mret tt) demo_fixed_globals (demo_login_form "pw123")
           demo_login_state {[ "Employees" := demo_employees ]} demo_employees 0 1);
    try (vm_compute; reflexivity); try (apply (bool_decide_unpack _); vm_compute; exact I).
Defined.

Lemma login_page_name_error_witness :
  fst (login_page (fun _ => mret tt) demo_fixed_globals (demo_login_form "pw123") demo_login_state) =
    Raise (NameError "name 'update_user_conversation_id' is not defined").
Proof.
  apply (proj2 login_page_name_error); try (vm_compute; reflexivity);
    try (apply (bool_decide_unpack _); vm_compute; exact I).
Defined.
