(* ===== verification/ChatPage.v ===== *)
(** * [app_pages/Chatbot.py]: the chat page

    The page checks the session's [logged_in], replays the stored chat
    messages, and for a new input records it, builds a [MainChatbot],
    logs it in and runs [process_user_input] inside a [try] that shows
    any exception as an error.  [simulate_streaming] is the page's word
    by word rendering of an answer (it is not called by the page).

    The page does not compile: line 41 is indented by five spaces inside
    a block indented by four.  [page_indent_check] is CPython's
    tokenizer rule for indentation, run on the page's layout; the other
    definitions model what the page would do once that line is fixed. *)

From S2P Require Import Prelude Sqlite Schema World PyRepr UpdateClaimStatus Guard Memory Bot Streamlit.

(** ** [simulate_streaming] *)

(** [str.isspace()] on a Latin-1 character. *)
Definition py_isspace (c : ascii) : bool :=
  let n := nat_of_ascii c in
  ((9 <=? n) && (n <=? 13)) || ((28 <=? n) && (n <=? 32)) || (n =? 133) || (n =? 160).

Fixpoint py_lstrip (s : string) : string :=
  match s with
  | EmptyString => EmptyString
  | String c r => if py_isspace c then py_lstrip r else s
  end.

Fixpoint py_rstrip (s : string) : string :=
  match s with
  | EmptyString => EmptyString
  | String c r =>
      let r' := py_rstrip r in
      if String.eqb r' "" && py_isspace c then EmptyString else String c r'
  end.

(** [str.strip()] *)
Definition py_strip (s : string) : string := py_lstrip (py_rstrip s).

Definition nl : ascii := ascii_of_nat 10.

(** The loop of [simulate_streaming] with its [buffer]; the final
    [if buffer: yield buffer]. *)
Fixpoint streaming_loop (buffer message : string) : list string :=
  match message with
  | EmptyString => if String.eqb buffer "" then [] else [buffer]
  | String char rest =>
      let buffer := (buffer ++ String char EmptyString)%string in
      if (Ascii.eqb char " ") || (Ascii.eqb char nl) then
        (py_strip buffer ++ (if Ascii.eqb char nl then "<br>" else " "))%string :: streaming_loop "" rest
      else streaming_loop buffer rest
  end.

(** [simulate_streaming(message)]: the chunks it yields, in order (the
    [time.sleep] calls only pace them). *)
Definition simulate_streaming (message : string) : list string := streaming_loop "" message.

(** The text the chunks render: each newline becomes [<br>]. *)
Fixpoint newlines_to_br (s : string) : string :=
  match s with
  | EmptyString => EmptyString
  | String c r => ((if Ascii.eqb c nl then "<br>" else String c EmptyString) ++ newlines_to_br r)%string
  end.

(** The only whitespace of [s] is spaces and newlines. *)
Fixpoint plain_spacing (s : string) : bool :=
  match s with
  | EmptyString => true
  | String c r => (negb (py_isspace c) || Ascii.eqb c " " || Ascii.eqb c nl) && plain_spacing r
  end.

Fixpoint no_space (s : string) : bool :=
  match s with
  | EmptyString => true
  | String c r => negb (py_isspace c) && no_space r
  end.

(** What the chunks show once rendered one after the other. *)
Definition concat_chunks (chunks : list string) : string :=
  foldr (fun a b => a ++ b)%string EmptyString chunks.

(** ** Indentation of the page *)

(** Leave the blocks deeper than [col]; [col] must then be the
    indentation of an enclosing block. *)
Fixpoint dedent (stack : list nat) (col : nat) : option (list nat) :=
  match stack with
  | [] => None
  | top :: rest =>
      if col <? top then dedent rest col
      else if col =? top then Some stack else None
  end.

(** CPython's tokenizer on the indentation of each logical line
    [(line, column)]: a deeper line opens a block, a shallower one must
    return to an open block. *)
Fixpoint indent_check (stack : list nat) (lines : list (nat * nat)) : Outcome unit :=
  match lines with
  | [] => Ok tt
  | (ln, col) :: rest =>
      match stack with
      | [] => Ok tt
      | top :: _ =>
          if top <? col then indent_check (col :: stack) rest
          else if col =? top then indent_check stack rest
          else match dedent stack col with
               | Some stack' => indent_check stack' rest
               | None => Raise (IndentationError
                                  ("unindent does not match any outer indentation level (Chatbot.py, line "
                                   ++ string_of_Z (Z.of_nat ln) ++ ")")%string)
               end
      end
  end.

Definition page_indent_check (lines : list (nat * nat)) : Outcome unit := indent_check [0] lines.

(** The line number and indentation of every line of the page that is
    not blank and not only a comment. *)
Definition chatbot_page_layout : list (nat * nat) :=
  [(1, 0); (2, 0); (3, 0); (4, 0); (5, 0); (9, 0); (10, 4); (13, 0); (14, 4); (15, 4); (16, 8);
   (17, 8); (18, 12); (19, 12); (20, 12); (21, 4); (22, 8); (25, 0); (26, 4); (27, 4); (28, 8);
   (29, 0); (30, 4); (32, 4); (36, 4); (37, 8); (38, 8); (39, 12); (41, 5); (43, 4); (45, 8);
   (46, 8); (47, 12); (50, 8); (51, 8); (53, 8); (54, 12); (56, 16); (57, 16); (58, 20);
   (60, 16); (61, 12); (62, 14)].

(** The layout with line 41 ([load_dotenv()]) indented by four spaces. *)
Definition chatbot_page_layout_fixed : list (nat * nat) :=
  map (fun lc => if fst lc =? 41 then (41, 4) else lc) chatbot_page_layout.

(** ** The page script *)

(** [check_auth()] *)
Definition check_auth : PyM PageState bool :=
  has_key ← ss_contains "logged_in";
  if (has_key : bool) then (v ← ss_getattr "logged_in"; mret (py_truthy v)) else mret false.

(** [st.session_state.messages.append({"role": role, "content": content})] *)
Definition append_message (role content : string) : PyM PageState unit :=
  msgs ← ss_getattr "messages";
  match msgs with
  | PMsgs ms => ss_set "messages" (PMsgs (ms ++ [(role, content)])%list)
  | _ => mthrow (AttributeError "object has no attribute 'append'")
  end.

(** [for message in st.session_state.messages: ...] *)
Definition replay_messages (msgs : PyVal) : PyM PageState unit :=
  match msgs with
  | PMsgs ms => foldr (fun m k => st_show (UChatMessage (fst m) (snd m));; k) (mret tt) ms
  | _ => mthrow (TypeError "object is not iterable")
  end.

(** [bot.user_login(username=..., conversation_id=...)] with the keyword
    arguments the call passes. *)
Definition user_login_call (b : Bot) (username conversation_id : option PyVal) : Outcome Bot :=
  match username, conversation_id with
  | Some u, Some c => Ok (user_login b (py_str u) (py_str c))
  | None, _ => Raise (TypeError "MainChatbot.user_login() missing 1 required positional argument: 'username'")
  | _, None => Raise (TypeError "MainChatbot.user_login() missing 1 required positional argument: 'conversation_id'")
  end.

(** The bot's turn inside the page: a new [MainChatbot] has a new
    [MemoryManager], hence an empty store. *)
Definition page_bot {A} (m : PyM BotState A) : PyM PageState A :=
  fun s => let (r, bs) := m (mkBotState (pg_world s) ∅) in
           (r, mkPageState (bs_world bs) (pg_session s) (pg_shown s) (pg_pages s)).

Section Page.
Context {llm : LLM} {router : Router}.

(** Lines 43-62 for the input [user_input]; [init] is the outcome of
    [MainChatbot()]. *)
Definition chat_turn (init : Outcome Bot) (username : PyVal) (user_input : string) : PyM PageState unit :=
  append_message "user" user_input;;
  st_show (UChatMessage "user" user_input);;
  bot ← py_lift init;
  bot ← py_lift (user_login_call bot (Some username) None);
  py_try_except
    (response ← page_bot (process_user_input bot {[ "user_input" := TStr user_input ]});
     st_show (UChatMessage "assistant" response);;
     append_message "assistant" response)
    (fun e => Some (st_show (UError ("Error: " ++ exc_str e)))).

(** A run of the page: [go_login] is the value of the login button,
    [chat_input] the value of [st.chat_input]. *)
Definition chat_page (init : Outcome Bot) (go_login : bool) (chat_input : option string)
  : PyM PageState unit :=
  auth ← check_auth;
  if negb auth then
    st_show (UWarning "You need to login to access the chatbot.");;
    if go_login then st_switch_page "app_pages/Login.py" else mret tt
  else
    st_show (UTitle "Secure Shield Chatbot");;
    username ← ss_getitem "username";
    msgs ← ss_getattr "messages";
    replay_messages msgs;;
    match chat_input with
    | Some u => if String.eqb u "" then mret tt else chat_turn init username u
    | None => mret tt
    end.
End Page.

(** ** Fixtures *)

(** A session right after a login: no [messages] key. *)
Definition demo_logged_in_state : PageState :=
  mkPageState demo_world (<["logged_in" := PBool true]> {[ "username" := PStr "Ana" ]}) [] [].

(** The same session with an empty message list. *)
Definition demo_chat_state : PageState :=
  mkPageState demo_world (<["messages" := PMsgs []]> (pg_session demo_logged_in_state)) [] [].

Definition demo_two_line_message : string := ("Hello there" ++ String nl "friend")%string.

(** ** Properties of [simulate_streaming] *)

Lemma no_space_app a b : no_space (a ++ b) = no_space a && no_space b.
Proof. induction a as [| c a IH]; [done |]. rewrite string_app_cons. simpl. by rewrite IH, andb_assoc. Qed.

Lemma py_lstrip_no_space b : no_space b = true -> py_lstrip b = b.
Proof. destruct b as [| c b]; simpl; [done |]. intros [Hc _]%andb_prop. by destruct (py_isspace c). Qed.

(** A word followed by one whitespace character strips to the word. *)
Lemma py_rstrip_word_space b c :
  no_space b = true -> py_isspace c = true -> py_rstrip (b ++ String c EmptyString) = b.
Proof.
  intros Hb Hc. induction b as [| d b IH]; simpl.
  - by rewrite Hc.
  - apply andb_prop in Hb as [Hd Hb]. rewrite IH by done.
    destruct (py_isspace d); [done |]. by rewrite andb_false_r.
Qed.

Lemma py_strip_word_space b c :
  no_space b = true -> py_isspace c = true -> py_strip (b ++ String c EmptyString) = b.
Proof. intros Hb Hc. unfold py_strip. rewrite py_rstrip_word_space by done. by apply py_lstrip_no_space. Qed.

(** The loop from a buffer holding a word. *)
Lemma streaming_loop_concat msg buf :
  no_space buf = true -> plain_spacing msg = true ->
  concat_chunks (streaming_loop buf msg) = (buf ++ newlines_to_br msg)%string.
Proof.
  revert buf. induction msg as [| ch rest IH]; intros buf Hb Hm; simpl.
  - rewrite string_app_nil_r. destruct (String.eqb_spec buf ""); subst; simpl; [done |].
    by rewrite string_app_nil_r.
  - apply andb_prop in Hm as [Hch Hrest].
    destruct (Ascii.eqb_spec ch " ") as [-> | Hsp]; [| destruct (Ascii.eqb_spec ch nl) as [-> | Hnl]].
    + simpl. rewrite py_strip_word_space, IH by done. by autorewrite with pystring.
    + simpl. rewrite py_strip_word_space, IH by done. by autorewrite with pystring.
    + simpl. rewrite !orb_false_r in Hch.
      rewrite IH; [by autorewrite with pystring | | done].
      rewrite no_space_app, Hb. simpl. by rewrite Hch.
Qed.

(** Each step of the loop yields at most one chunk per character read. *)
Lemma streaming_loop_length msg buf :
  length (streaming_loop buf msg) <= String.length msg + (if String.eqb buf "" then 0 else 1).
Proof.
  revert buf. induction msg as [| ch rest IH]; intros buf; simpl.
  - by destruct (String.eqb buf "").
  - destruct (Ascii.eqb ch " " || Ascii.eqb ch nl); simpl.
    + specialize (IH ""). simpl in IH. lia.
    + specialize (IH (buf ++ String ch EmptyString)%string).
      destruct (String.eqb (buf ++ String ch EmptyString) ""); destruct (String.eqb buf ""); lia.
Qed.

(** ** Properties of the page *)

(** The chat page is rejected by Python's tokenizer: line 41 is
    indented by five spaces where the enclosing block has four, so the
    page raises [IndentationError] before running any statement; with that
    one line indented by four the same layout is accepted. *)
Theorem chatbot_page_indentation_error :
  page_indent_check chatbot_page_layout =
    Raise (IndentationError
             "unindent does not match any outer indentation level (Chatbot.py, line 41)") /\
  page_indent_check chatbot_page_layout_fixed = Ok tt.
Proof. split; vm_compute; reflexivity. Qed.

(** C27: rendered one after the other, the chunks of [simulate_streaming]
    give back the message with every newline turned into [<br>], for
    every message whose only whitespace is spaces and newlines (any
    other whitespace next to a delimiter is dropped by [strip()]). *)
Theorem simulate_streaming_roundtrip msg :
  plain_spacing msg = true ->
  concat_chunks (simulate_streaming msg) = newlines_to_br msg.
Proof. intros H. by apply (streaming_loop_concat msg ""). Qed.

(** C28: [simulate_streaming] yields at most one chunk per character of
    the message, and nothing for the empty message. *)
Theorem simulate_streaming_chunks_bounded msg :
  length (simulate_streaming msg) <= String.length msg.
Proof. unfold simulate_streaming. pose proof (streaming_loop_length msg "") as H. simpl in H. lia. Qed.

Section PageClaims.
Context {llm : LLM} {router : Router}.

(** C29: once the page compiles, a chat turn still never reaches the
    bot: [MainChatbot()] raises [TypeError], and even a bot that could be
    built is logged in without its [conversation_id], which raises
    [TypeError] too.  Both calls are outside the [try], so the exception
    leaves the page after the user's message was recorded and shown; no
    model is asked and no database is touched. *)
Theorem chat_turn_never_processes init username u s ms :
  (init = main_chatbot_init \/ exists b, init = Ok b) ->
  pg_session s !! "messages" = Some (PMsgs ms) ->
  exists m, chat_turn init username u s =
    (Raise (TypeError m),
     mkPageState (pg_world s) (<["messages" := PMsgs (ms ++ [("user", u)])%list]> (pg_session s))
                 (pg_shown s ++ [UChatMessage "user" u]) (pg_pages s)).
Proof.
  intros Hinit Hm. unfold chat_turn, append_message, ss_getattr, ss_set, st_show.
  cbv [mbind PyM_bind py_state py_modify py_lift py_try_except]. rewrite Hm. simpl.
  destruct Hinit as [-> | [b ->]]; simpl; eexists; reflexivity.
Qed.

(** C30: no code of the repository initialises
    [st.session_state.messages]: a logged-in run of the page raises
    [AttributeError] at line 36 before showing any message or reading the
    chat input, whatever the input. *)
Theorem chat_page_messages_uninitialised init go_login chat_input s v name :
  pg_session s !! "logged_in" = Some v -> py_truthy v = true ->
  pg_session s !! "username" = Some name -> pg_session s !! "messages" = None ->
  chat_page init go_login chat_input s =
    (Raise (AttributeError ("st.session_state has no attribute " ++ dq ++ "messages" ++ dq ++
                            ". Did you forget to initialize it?")),
     mkPageState (pg_world s) (pg_session s) (pg_shown s ++ [UTitle "Secure Shield Chatbot"])
                 (pg_pages s)).
Proof.
  intros Hl Hv Hn Hm. unfold chat_page, check_auth, ss_contains, ss_getattr, ss_getitem, st_show.
  cbv [mbind PyM_bind py_state py_modify mret PyM_ret]. rewrite Hl. simpl. rewrite Hl, Hv. simpl.
  rewrite Hn. simpl. by rewrite Hm.
Qed.
End PageClaims.

(** ** Witnesses *)

Lemma simulate_streaming_roundtrip_witness :
  concat_chunks (simulate_streaming demo_two_line_message) = newlines_to_br demo_two_line_message.
Proof. apply simulate_streaming_roundtrip. vm_compute. reflexivity. Defined.

Lemma chat_turn_never_processes_witness :
  exists m, chat_turn (llm := demo_turn_llm false 1) (router := demo_router [])
              main_chatbot_init (PStr "Ana") "hello" demo_chat_state =
    (Raise (TypeError m),
     mkPageState demo_world (<["messages" := PMsgs [("user", "hello")]]> (pg_session demo_chat_state))
                 [UChatMessage "user" "hello"] []).
Proof.
  apply (chat_turn_never_processes (llm := demo_turn_llm false 1) (router := demo_router [])
           main_chatbot_init (PStr "Ana") "hello" demo_chat_state []);
    [left; reflexivity | reflexivity].
Defined.

Lemma chat_page_messages_uninitialised_witness :
  chat_page (llm := demo_turn_llm false 1) (router := demo_router [])
    main_chatbot_init false (Some "hello") demo_logged_in_state =
  (Raise (AttributeError ("st.session_state has no attribute " ++ dq ++ "messages" ++ dq ++
                          ". Did you forget to initialize it?")),
   mkPageState demo_world (pg_session demo_logged_in_state) [UTitle "Secure Shield Chatbot"] []).
Proof.
  apply (chat_page_messages_uninitialised (llm := demo_turn_llm false 1) (router := demo_router [])
           _ _ _ demo_logged_in_state (PBool true) (PStr "Ana")); reflexivity.
Defined.
