(* ===== verification/App.v ===== *)
(** * [src/app.py]: navigation and logout

    Every interaction re-runs [app.py]: it styles the sidebar, initialises
    [logged_in] to [False] when the session has none, registers the pages
    with [st.navigation] (the login page only while logged out), runs the
    page the user selected, and then draws the sidebar, whose "Log Out"
    button clears [logged_in] and [username].

    A run of the app is [app_run]; the page it runs is a parameter, the
    script of the selected page ([Login.login_page], [ChatPage.chat_page]
    or any other).  [app_step] relates the session state before and after
    one run, and [app_reachable] is its reflexive-transitive closure: the
    sessions a browser can reach by interacting with the app. *)

From S2P Require Import Prelude Sqlite World UpdateClaimStatus Bot Streamlit Login ChatPage.

Definition chatbot_page_path : string := "SecureShield/app_pages/Chatbot.py".
Definition login_page_path : string := "SecureShield/app_pages/Login.py".

(** The [pages] dict for a value of [logged_in]. *)
Definition app_pages (logged_in : bool) : list string :=
  if logged_in then [chatbot_page_path] else [chatbot_page_path; login_page_path].

(** The page [pg.run()] runs: the one selected if it is registered, the
    first registered one otherwise (Streamlit's default page). *)
Definition selected_page (pages : list string) (selected : option string) : string :=
  match selected with
  | Some p => if bool_decide (p ∈ pages) then p else default "" (head pages)
  | None => default "" (head pages)
  end.

(** The sidebar of lines 169-178. *)
Definition app_sidebar (logout_clicked : bool) : PyM PageState unit :=
  logged_in ← ss_getitem "logged_in";
  if py_truthy logged_in then
    (if logout_clicked then ss_set "logged_in" (PBool false);; ss_set "username" PNone
     else mret tt)
  else mret tt.

(** Lines 142-143: [logged_in] defaults to [False]. *)
Definition app_init_logged_in : PyM PageState unit :=
  has_key ← ss_contains "logged_in";
  if (has_key : bool) then mret tt else ss_set "logged_in" (PBool false).

(** The part of a run after the initialisation (lines 146-178). *)
Definition app_dispatch (run_page : string -> PyM PageState unit) (selected : option string)
    (logout_clicked : bool) : PyM PageState unit :=
  logged_in ← ss_getitem "logged_in";
  let pages := app_pages (py_truthy logged_in) in
  st_navigation pages;;
  run_page (selected_page pages selected);;
  app_sidebar logout_clicked.

(** A run of [app.py]: [run_page p] is the script of page [p]. *)
Definition app_run (run_page : string -> PyM PageState unit) (selected : option string)
    (logout_clicked : bool) : PyM PageState unit :=
  st_show (UMarkdown "sidebar style");;
  app_init_logged_in;;
  app_dispatch run_page selected logout_clicked.

(** ** The pages of the app *)

(** What the user did in the page of this run: the login form's
    values, the chat page's login button, the chat input. *)
Record PageInput : Type := mkPageInput {
  pi_form : LoginForm; pi_go_login : bool; pi_chat_input : option string }.

Section Pages.
Context {llm : LLM} {router : Router}.
Context (update_user_conversation_id : PyVal -> PyM PageState unit) (globals : list string).

(** The script [st.Page(path)] runs. *)
Definition page_script (i : PageInput) (p : string) : PyM PageState unit :=
  if String.eqb p login_page_path then login_page update_user_conversation_id globals (pi_form i)
  else if String.eqb p chatbot_page_path then chat_page main_chatbot_init (pi_go_login i) (pi_chat_input i)
  else mret tt.
End Pages.

(** ** The app as a transition system over the session state *)

(** One run of the app with some user input [i], page selection and
    click on "Log Out". *)
Inductive app_step {I : Type} (run_page : I -> string -> PyM PageState unit)
  : PageState -> PageState -> Prop :=
| app_step_run s i selected logout r s' :
    app_run (run_page i) selected logout s = (r, s') -> app_step run_page s s'.

Inductive app_reachable {I : Type} (run_page : I -> string -> PyM PageState unit)
  : PageState -> PageState -> Prop :=
| app_reach_refl s : app_reachable run_page s s
| app_reach_step s s1 s2 :
    app_step run_page s s1 -> app_reachable run_page s1 s2 -> app_reachable run_page s s2.

(** A first visit: an empty session. *)
Definition demo_fresh_state : PageState := mkPageState demo_world ∅ [] [].

Definition demo_page_input : PageInput := mkPageInput (demo_login_form "pw123") false None.

Definition demo_logged_out_state : PageState :=
  mkPageState demo_world {[ "logged_in" := PBool false ]} [] [].

(** The scripts of the pages as shipped, with a model and router. *)
Definition demo_scripts : PageInput -> string -> PyM PageState unit :=
  page_script (llm := demo_turn_llm false 1) (router := demo_router []) (fun _ => mret tt) login_globals.

(** No session value says logged in ([check_auth] is false). *)
Definition logged_out (ss : SessionState) : Prop :=
  match ss !! "logged_in" with Some v => py_truthy v = false | None => True end.

(** The session keys a program never removes. *)
Definition keys_kept (s s' : PageState) : Prop :=
  forall k, is_Some (pg_session s !! k) -> is_Some (pg_session s' !! k).

(** ** Running the app *)

#[export] Instance keys_kept_preorder : PreOrder keys_kept.
Proof. split; [by intros s k | intros s1 s2 s3 H12 H23 k Hk; auto]. Qed.

Lemma ss_set_keys_kept k v : preserves keys_kept (ss_set k v).
Proof. intros s k' Hk. simpl. destruct (decide (k = k')) as [-> |]; [by rewrite lookup_insert_eq | by rewrite lookup_insert_ne]. Qed.

Lemma page_state_keys_kept (f : PageState -> PageState) :
  (forall s, pg_session (f s) = pg_session s) -> preserves keys_kept (py_modify f).
Proof. intros Hf s k. simpl. by rewrite Hf. Qed.

Lemma st_show_keys_kept u : preserves keys_kept (st_show u).
Proof. by apply page_state_keys_kept. Qed.

Lemma st_navigation_keys_kept ps : preserves keys_kept (st_navigation ps).
Proof. by apply page_state_keys_kept. Qed.

Lemma ss_getitem_keys_kept k : preserves keys_kept (ss_getitem k).
Proof. intros s k'. unfold ss_getitem, py_state. by destruct (pg_session s !! k). Qed.

Lemma ss_contains_keys_kept k : preserves keys_kept (ss_contains k).
Proof. by intros s k'. Qed.

#[export] Hint Resolve ss_set_keys_kept st_show_keys_kept st_navigation_keys_kept
  ss_getitem_keys_kept ss_contains_keys_kept : preserve.

(** After the initialisation the session has [logged_in]. *)
Lemma app_init_logged_in_run s :
  exists s', app_init_logged_in s = (Ok tt, s') /\ is_Some (pg_session s' !! "logged_in") /\
    keys_kept s s'.
Proof.
  unfold app_init_logged_in, ss_contains, ss_set. cbv [mbind PyM_bind py_state py_modify mret PyM_ret].
  destruct (pg_session s !! "logged_in") eqn:E; simpl; eexists; (split; [done |]).
  - rewrite E. split; [done | reflexivity].
  - split; [simpl; by rewrite lookup_insert_eq | apply (ss_set_keys_kept "logged_in" (PBool false))].
Qed.

(** Whatever the page does, a run leaves [logged_in] in the session. *)
Lemma app_run_logged_in run_page sel lo s :
  (forall p, preserves keys_kept (run_page p)) ->
  is_Some (pg_session (snd (app_run run_page sel lo s)) !! "logged_in").
Proof.
  intros Hp.
  assert (Hd : preserves keys_kept (app_dispatch run_page sel lo))
    by (unfold app_dispatch, app_sidebar; solve_preserves).
  unfold app_run, st_show. cbv [mbind PyM_bind py_modify].
  match goal with |- context [app_init_logged_in ?s0] =>
    destruct (app_init_logged_in_run s0) as (s1 & -> & H1 & _) end.
  exact (Hd s1 "logged_in" H1).
Qed.

Lemma page_world_keys_kept {A} (m : PyM World A) : preserves keys_kept (page_world m).
Proof. intros s k. by rewrite page_world_run. Qed.

Lemma page_bot_keys_kept {A} (m : PyM BotState A) : preserves keys_kept (page_bot m).
Proof. intros s k. unfold page_bot. by destruct (m _). Qed.

Lemma ss_getattr_keys_kept k : preserves keys_kept (ss_getattr k).
Proof. intros s k'. unfold ss_getattr, py_state. by destruct (pg_session s !! k). Qed.

Lemma st_switch_page_keys_kept p : preserves keys_kept (st_switch_page p).
Proof. intros s k. unfold st_switch_page, py_state. by case_bool_decide. Qed.

#[export] Hint Resolve page_world_keys_kept page_bot_keys_kept ss_getattr_keys_kept
  st_switch_page_keys_kept : preserve.

Lemma replay_messages_keys_kept v : preserves keys_kept (replay_messages v).
Proof.
  destruct v as [| | | | ms]; unfold replay_messages; solve_preserves.
  induction ms as [| m ms IH]; simpl; solve_preserves.
Qed.

Lemma append_message_keys_kept role content : preserves keys_kept (append_message role content).
Proof. unfold append_message. solve_preserves. Qed.

#[export] Hint Resolve replay_messages_keys_kept append_message_keys_kept : preserve.

Section PagesKeys.
Context {llm : LLM} {router : Router}.
Context (uuc : PyVal -> PyM PageState unit) (Huuc : forall v, preserves keys_kept (uuc v)).

Lemma login_page_keys_kept g f : preserves keys_kept (login_page uuc g f).
Proof.
  pose proof Huuc. unfold login_page, login_submit, login_failed. solve_preserves.
Qed.

Lemma chat_page_keys_kept init go chat : preserves keys_kept (chat_page init go chat).
Proof. unfold chat_page, check_auth, chat_turn. solve_preserves. Qed.

Lemma page_script_keys_kept g i p : preserves keys_kept (page_script uuc g i p).
Proof.
  unfold page_script. destruct (String.eqb p login_page_path); [apply login_page_keys_kept |].
  destruct (String.eqb p chatbot_page_path); [apply chat_page_keys_kept | solve_preserves].
Qed.
End PagesKeys.

(** ** Properties of the app *)

(** C31: in every session state the app can reach from [s] by runs of its
    pages (the login page, the chat page, any other path), [logged_in] is
    set, unless no run happened yet: the first run initialises it and no
    page removes a key. *)
Theorem app_reachable_logged_in {llm : LLM} {router : Router} uuc g s s' :
  (forall v, preserves keys_kept (uuc v)) ->
  app_reachable (page_script uuc g) s s' ->
  s' = s \/ is_Some (pg_session s' !! "logged_in").
Proof.
  intros Huuc Hr. induction Hr as [s | s s1 s2 [s0 i sel lo r s1' E] _ IH]; [by left | right].
  destruct IH as [-> | H]; [| done].
  pose proof (app_run_logged_in (page_script uuc g i) sel lo s0) as H. rewrite E in H.
  apply H. intros p. by apply page_script_keys_kept.
Qed.

(** C32: a logged-in session never runs the login page: the app registers
    only the chat page, so whatever page the browser asks for, the chat
    page runs, then the sidebar. *)
Theorem logged_in_runs_chat_page run_page sel lo s v :
  pg_session s !! "logged_in" = Some v -> py_truthy v = true ->
  app_dispatch run_page sel lo s =
    (run_page chatbot_page_path;; app_sidebar lo)
      (mkPageState (pg_world s) (pg_session s) (pg_shown s) [chatbot_page_path]).
Proof.
  intros Hl Hv. unfold app_dispatch, ss_getitem, st_navigation, app_pages.
  cbv [mbind PyM_bind py_state py_modify]. rewrite Hl, Hv. simpl.
  destruct sel as [p |]; simpl; [| done].
  by case_bool_decide as Hp; [apply list_elem_of_singleton in Hp as -> |].
Qed.

(** The pages switch to paths the app never registers: the login
    page calls [st.switch_page("app_pages/Chatbot.py")] and the chat page
    [st.switch_page("app_pages/Login.py")], but [app.py] registers
    ["SecureShield/app_pages/..."]; under either set of pages both calls
    raise [StreamlitAPIException] instead of switching. *)
Theorem switch_page_targets_unregistered b s :
  pg_pages s = app_pages b ->
  st_switch_page "app_pages/Chatbot.py" s =
    (Raise (StreamlitAPIException "Could not find page: app_pages/Chatbot.py."), s) /\
  st_switch_page "app_pages/Login.py" s =
    (Raise (StreamlitAPIException "Could not find page: app_pages/Login.py."), s).
Proof.
  intros Hp. unfold st_switch_page, py_state. rewrite Hp.
  by destruct b; split; (rewrite bool_decide_eq_false_2; [done | unfold app_pages; set_solver]).
Qed.

(** "Log Out" clears [logged_in] and [username] only: the e-mail and
    the chat messages of the employee stay in the session state. *)
Lemma logout_keeps_other_keys s v :
  pg_session s !! "logged_in" = Some v -> py_truthy v = true ->
  app_sidebar true s =
    (Ok tt, mkPageState (pg_world s) (<["username" := PNone]> (<["logged_in" := PBool false]> (pg_session s)))
                        (pg_shown s) (pg_pages s)).
Proof.
  intros Hl Hv. unfold app_sidebar, ss_getitem, ss_set. cbv [mbind PyM_bind py_state py_modify].
  by rewrite Hl, Hv.
Qed.

(** A logged-out session can always open the login page: the app
    registers it, and selecting it runs it. *)
Lemma logged_out_can_open_login run_page lo s v :
  pg_session s !! "logged_in" = Some v -> py_truthy v = false ->
  app_dispatch run_page (Some login_page_path) lo s =
    (run_page login_page_path;; app_sidebar lo)
      (mkPageState (pg_world s) (pg_session s) (pg_shown s) [chatbot_page_path; login_page_path]).
Proof.
  intros Hl Hv. unfold app_dispatch, ss_getitem, st_navigation, app_pages.
  cbv [mbind PyM_bind py_state py_modify]. rewrite Hl, Hv. simpl.
  first [done | rewrite bool_decide_eq_true_2; [done | set_solver]].
Qed.

(** ** Witnesses *)

Lemma app_reachable_logged_in_witness :
  snd (app_run (demo_scripts demo_page_input) None false demo_fresh_state) = demo_fresh_state \/
  is_Some (pg_session (snd (app_run (demo_scripts demo_page_input) None false demo_fresh_state))
             !! "logged_in").
Proof.
  apply (app_reachable_logged_in (llm := demo_turn_llm false 1) (router := demo_router [])
           (fun _ => mret tt) login_globals demo_fresh_state).
  - intros v. solve_preserves.
  - eapply app_reach_step; [| apply app_reach_refl].
    apply (app_step_run _ _ demo_page_input None false
             (fst (app_run (demo_scripts demo_page_input) None false demo_fresh_state))).
    reflexivity.
Defined.

Lemma logged_in_runs_chat_page_witness :
  app_dispatch (demo_scripts demo_page_input) (Some login_page_path) false demo_logged_in_state =
    (demo_scripts demo_page_input chatbot_page_path;; app_sidebar false)
      (mkPageState demo_world (pg_session demo_logged_in_state) [] [chatbot_page_path]).
Proof. apply (logged_in_runs_chat_page (demo_scripts demo_page_input) (Some login_page_path) false
           demo_logged_in_state (PBool true)); reflexivity. Defined.

(** ** Liveness of the login *)

(** A logged-out run that selects the login page runs it on the session
    [app_init_logged_in] leaves, with both pages registered. *)
Lemma app_run_select_login run_page lo s :
  logged_out (pg_session s) ->
  exists ss, app_run run_page (Some login_page_path) lo s =
    (run_page login_page_path;; app_sidebar lo)
      (mkPageState (pg_world s) ss (pg_shown s ++ [UMarkdown "sidebar style"])
                   [chatbot_page_path; login_page_path]).
Proof.
  unfold logged_out, app_run, st_show, app_init_logged_in, ss_contains, ss_set.
  cbv [mbind PyM_bind py_state py_modify]. simpl.
  destruct (pg_session s !! "logged_in") as [v |] eqn:E; intros Hv; simpl.
  - eexists. by apply (logged_out_can_open_login _ _ (mkPageState _ _ _ _) v).
  - eexists. by apply (logged_out_can_open_login _ _ (mkPageState _ _ _ _) (PBool false)); [cbn; by rewrite lookup_insert_eq |].
Qed.

(** Without a click on "Log Out" the sidebar changes nothing. *)
Lemma app_sidebar_no_click s : snd (app_sidebar false s) = s.
Proof.
  unfold app_sidebar, ss_getitem. cbv [mbind PyM_bind py_state mret PyM_ret].
  destruct (pg_session s !! "logged_in"); [by destruct (py_truthy _) | done].
Qed.

Lemma then_sidebar_no_click {A} (m : PyM PageState A) s :
  snd ((m;; app_sidebar false) s) = snd (m s).
Proof.
  cbv [mbind PyM_bind]. destruct (m s) as [[] s1]; [apply app_sidebar_no_click | done].
Qed.

(** C34 (liveness): once line 6's missing import is fixed, an employee can
    always get in: from any logged-out session whose world holds
    [secure_shield.db] with an [Employees] row for the submitted e-mail
    and password (and no fault scheduled), the app reaches a session that
    is logged in, by one run that selects the login page and submits the
    form.  As shipped (C24) no run of the login page gets that far. *)
Theorem employee_can_log_in {llm : LLM} {router : Router} uuc g s i db tb ie ip fi a :
  "sqlite3" ∈ g -> "update_user_conversation_id" ∉ g -> w_faults (pg_world s) = [] ->
  w_files (pg_world s) !! login_db_path = Some db -> db !! "Employees" = Some tb ->
  employees_schema tb ie ip -> get_col tb "first_name" = Ok (fi, a) ->
  has_credentials tb ie ip (lf_email (pi_form i)) (lf_password (pi_form i)) ->
  lf_submit (pi_form i) = true -> lf_email (pi_form i) <> "" -> lf_password (pi_form i) <> "" ->
  logged_out (pg_session s) ->
  exists s', app_reachable (page_script uuc g) s s' /\ pg_session s' !! "logged_in" = Some (PBool true).
Proof.
  intros Hs Hu Hf Hd Ht Hsc Hfn Hcr Hsub He Hp Hlo.
  destruct (app_run_select_login (page_script uuc g i) false s Hlo) as [ss E].
  exists (snd (app_run (page_script uuc g i) (Some login_page_path) false s)). split.
  - eapply app_reach_step; [| apply app_reach_refl].
    apply (app_step_run _ _ i (Some login_page_path) false
             (fst (app_run (page_script uuc g i) (Some login_page_path) false s))).
    apply surjective_pairing.
  - rewrite E, then_sidebar_no_click. unfold page_script. rewrite String.eqb_refl.
    by apply (login_page_complete _ _ _ _ db tb ie ip fi a).
Qed.

Lemma employee_can_log_in_witness :
  exists s', app_reachable (page_script (llm := demo_turn_llm false 1) (router := demo_router [])
                              (fun _ => mret tt) demo_fixed_globals) demo_login_state s' /\
             pg_session s' !! "logged_in" = Some (PBool true).
Proof.
  apply (employee_can_log_in (llm := demo_turn_llm false 1) (router := demo_router [])
           (fun _ => mret tt) demo_fixed_globals demo_login_state demo_page_input
           {[ "Employees" := demo_employees ]} demo_employees 0 1 2 AText);
    first [ exact I | reflexivity | discriminate | split; reflexivity
          | apply (bool_decide_unpack _); vm_compute; exact I
          | exists [SText "ana@secureshield.pt"; SText "pw123"; SText "Ana"];
            split; [by apply list_elem_of_singleton | split; reflexivity] ].
Defined.
